(** * Ethnicity prediction notebook: a shallow embedding

    The program is the notebook [ethnicitypredictions.ipynb]: a linear
    script over two spreadsheets that cleans the labelled data, normalises
    the names, vectorises them, trains three scikit-learn classifiers,
    evaluates them on a held-out part and writes the predictions for the
    unlabelled data to a spreadsheet.

    The notebook code is embedded as it is written.  What it calls from
    pandas, numpy, NLTK and scikit-learn is not part of the repository:
    simple library operations (boolean indexing, column assignment,
    [str.join], [train_test_split]'s index arithmetic, the counting of
    [CountVectorizer]) are written out from their documented behaviour,
    and the rest (the tokenizer, the stemmer, the Unicode predicates, the
    random permutation, the three learning algorithms, the classification
    report) are interfaces whose operations the development is generic in. *)

From Stdlib Require Import ZArith QArith List Permutation Ascii.
From stdpp Require Import gmap strings list pretty sorting.

Local Open Scope string_scope.
Local Open Scope list_scope.
Local Open Scope nat_scope.
Local Open Scope stdpp_scope.

(** ** Python values held in spreadsheet cells *)

Module Py.

(** A cell of a DataFrame read by [pd.read_excel]: text, an integer, a
    boolean, or the missing value (the float [nan]). *)
Inductive value : Type :=
  | Str (s : string)
  | Int (z : Z)
  | Bool (b : bool)
  | NaN.

#[global] Instance value_eq_dec : EqDecision value.
Proof. solve_decision. Defined.

(** [str(v)]. *)
Definition str (v : value) : string :=
  match v with
  | Str s => s
  | Int z => pretty z
  | Bool true => "True"
  | Bool false => "False"
  | NaN => "nan"
  end.

(** [v == False]: Python compares a boolean with a number by value, so the
    integer zero is equal to [False]; text and [nan] are not. *)
Definition eq_False (v : value) : bool :=
  match v with
  | Bool b => negb b
  | Int z => Z.eqb z 0
  | Str _ | NaN => false
  end.

(** [v != False]. *)
Definition ne_False (v : value) : bool := negb (eq_False v).

(** [sep.join(words)]. *)
Fixpoint join (sep : string) (words : list string) : string :=
  match words with
  | [] => ""
  | [w] => w
  | w :: rest => w +:+ sep +:+ join sep rest
  end.

End Py.

(** ** DataFrames *)

Module Pd.

(** A row maps column names to cells; a DataFrame is its rows in order. *)
Abbreviation row := (gmap string Py.value).
Abbreviation DataFrame := (list (gmap string Py.value)).

(** [df[c]]: the column as a Series; [None] stands for [KeyError]. *)
Definition col (c : string) (df : DataFrame) : option (list Py.value) :=
  mapM (λ r : row, r !! c) df.

(** [df[c]] where every cell is text, as the string methods need. *)
Definition col_str (c : string) (df : DataFrame) : option (list string) :=
  mapM (λ r : row, match r !! c with Some (Py.Str s) => Some s | _ => None end) df.

(** [df[c] = values]: one value per row; [None] stands for the
    [ValueError] of a length mismatch. *)
Definition set_col (c : string) (values : list Py.value) (df : DataFrame)
  : option DataFrame :=
  if decide (length values = length df)
  then Some (zip_with (λ (r : row) v, <[c := v]> r) df values)
  else None.

(** [s.astype(str)]. *)
Definition astype_str (s : list Py.value) : list Py.value :=
  map (λ v, Py.Str (Py.str v)) s.

(** [a[mask]] for a boolean mask: the entries where the mask is true, in
    order. *)
Fixpoint boolean_index {A} (a : list A) (mask : list bool) : list A :=
  match a, mask with
  | x :: a', b :: mask' =>
      if b then x :: boolean_index a' mask' else boolean_index a' mask'
  | _, _ => []
  end.

(** [s.unique()]: the distinct values in order of first appearance. *)
Fixpoint unique (s : list Py.value) : list Py.value :=
  match s with
  | [] => []
  | v :: s' => v :: filter (λ w, w ≠ v) (unique s')
  end.

End Pd.

(** ** Cleaning the labelled data (third code cell) *)

(** [data['ShippingName'] = data['ShippingName'].astype(str)]
    [data = data[data['Ethnicity'] != False]] *)
Definition clean (data : Pd.DataFrame) : option Pd.DataFrame :=
  names ← Pd.col "ShippingName" data;
  data ← Pd.set_col "ShippingName" (Pd.astype_str names) data;
  ethnicity ← Pd.col "Ethnicity" data;
  Some (Pd.boolean_index data (map Py.ne_False ethnicity)).

(** ** Library interfaces *)

(** Python's Unicode-aware string methods used by the notebook. *)
Class PyText := {
  isalpha : string → bool;          (* [word.isalpha()] *)
  lower : string → string;          (* [word.lower()] *)
}.

(** NLTK: the tokenizer, the Porter stemmer and the English stopword list. *)
Class Nltk := {
  word_tokenize : string → list string;
  stem : string → string;             (* [PorterStemmer().stem] *)
  stopwords_english : list string;    (* [stopwords.words('english')] *)
}.

(** The analyzer of a default [CountVectorizer()]: lower-casing followed by
    the token pattern. *)
Class TextAnalyzer := {
  analyzer : string → list string;
}.

(** numpy's random generator, as [train_test_split] uses it: with
    [random_state = Some seed] the generator is seeded, with [None] it is
    seeded from the operating system's entropy. *)
Class NumpyRandom (entropy : Type) := {
  permutation : option Z → entropy → nat → list nat;
}.

(** An estimator without a random component ([MultinomialNB()]).  A feature
    matrix is a list of count vectors, the targets are cells of the label
    column; [fit] may raise. *)
Record Estimator := {
  fitted : Type;
  fit : list (list nat) → list Py.value → option fitted;
  predict_row : fitted → list nat → Py.value;
}.

(** An estimator with a [random_state] parameter
    ([RandomForestClassifier], [SVC]). *)
Record SeededEstimator (entropy : Type) := {
  sfitted : Type;
  sfit : option Z → entropy → list (list nat) → list Py.value → option sfitted;
  spredict_row : sfitted → list nat → Py.value;
}.
Arguments sfitted {entropy}.
Arguments sfit {entropy}.
Arguments spredict_row {entropy}.

(** [model.predict(X)]: one label per row of [X]. *)
Definition predict (E : Estimator) (m : fitted E) (X : list (list nat))
  : list Py.value := predict_row E m <$> X.

Definition spredict {entropy} (E : SeededEstimator entropy) (m : sfitted E)
    (X : list (list nat)) : list Py.value := spredict_row E m <$> X.

(** [sklearn.metrics.classification_report]: precision, recall and F1 per
    class, as floating-point numbers. *)
Class Metrics := {
  report : Type;
  classification_report : list Py.value → list Py.value → report;
}.

(** ** Text preprocessing (fourth code cell) *)

Section Preprocess.
Context `{PyText} `{Nltk}.

(** [stop_words = set(stopwords.words('english'))] *)
Definition stop_words : gset string := list_to_set stopwords_english.

(** [[stemmer.stem(word) for word in words
      if word.isalpha() and word.lower() not in stop_words]] *)
Fixpoint stem_comprehension (words : list string) : list string :=
  match words with
  | [] => []
  | word :: words' =>
      if isalpha word && negb (bool_decide (lower word ∈ stop_words))
      then stem word :: stem_comprehension words'
      else stem_comprehension words'
  end.

(** [def preprocess_text(text)] *)
Definition preprocess_text (text : string) : string :=
  let words := word_tokenize text in
  let words := stem_comprehension words in
  Py.join " " words.

(** The normalisation as the specification words it: a token is kept when
    it is purely alphabetic and its lowercase form is no stopword; the
    result joins the stems of the kept tokens with single spaces. *)
Definition kept_token (w : string) : Prop :=
  isalpha w = true ∧ lower w ∉ stop_words.

#[global] Instance kept_token_dec w : Decision (kept_token w).
Proof. unfold kept_token. apply _. Defined.


(** [df['processed_name'] = df[c].apply(preprocess_text)] *)
Definition add_processed_name (c : string) (df : Pd.DataFrame)
  : option Pd.DataFrame :=
  names ← Pd.col_str c df;
  Pd.set_col "processed_name" (Py.Str <$> (preprocess_text <$> names)) df.

End Preprocess.

(** ** Splitting (fifth code cell) *)

Section Split.
Context {entropy : Type} `{NumpyRandom entropy}.

(** [ceil(0.2 * n)]: the product of the double nearest to 0.2 with an
    integer [n] below 2^52 rounds to [n/5] when 5 divides [n] and stays
    strictly between the neighbouring integers otherwise, so the
    floating-point ceiling is the exact one. *)
Definition n_test_of (n : nat) : nat := (n + 4) / 5.

(** [_safe_indexing(a, indices)] on positions. *)
Definition safe_indexing {A} (a : list A) (indices : list nat) : option (list A) :=
  mapM (λ i, a !! i) indices.

(** [train_test_split(X, y, test_size=0.2, random_state=rs)]: the test part
    is the first [n_test] entries of a random permutation of the positions,
    the training part the [n - n_test] entries after them.  [None] stands
    for the [ValueError] raised on inputs of different lengths or when the
    training part would be empty. *)
Definition train_test_split {A B} (X : list A) (y : list B)
    (random_state : option Z) (e : entropy)
  : option (list A * list A * list B * list B) :=
  let n_samples := length X in
  if decide (length y = n_samples) then
    let n_test := n_test_of n_samples in
    let n_train := n_samples - n_test in
    if decide (n_train = 0) then None else
    let perm := permutation random_state e n_samples in
    let ind_test := take n_test perm in
    let ind_train := take n_train (drop n_test perm) in
    X_train ← safe_indexing X ind_train;
    X_test ← safe_indexing X ind_test;
    y_train ← safe_indexing y ind_train;
    y_test ← safe_indexing y ind_test;
    Some (X_train, X_test, y_train, y_test)
  else None.

End Split.

(** ** Bag-of-words vectorization (seventh code cell) *)

Module CountVectorizer.
Section CountVectorizer.
Context `{TextAnalyzer}.

(** The fitted vectorizer: its feature names, sorted; the position of a
    token is its column. *)
Record t := { vocabulary_ : list string }.

(** [fit]: the distinct tokens of the documents, sorted. *)
Definition fit (raw_documents : list string) : t :=
  {| vocabulary_ :=
       merge_sort String.le (remove_dups (concat (analyzer <$> raw_documents))) |}.

(** One row of the document-term matrix. *)
Definition count_row (v : t) (doc : string) : list nat :=
  map (λ term, length (filter (λ token, token = term) (analyzer doc))) (vocabulary_ v).

(** [transform] *)
Definition transform (v : t) (raw_documents : list string) : list (list nat) :=
  count_row v <$> raw_documents.

(** [fit_transform]; [None] stands for the [ValueError] of an empty
    vocabulary. *)
Definition fit_transform (raw_documents : list string) : option (t * list (list nat)) :=
  let v := fit raw_documents in
  if decide (vocabulary_ v = []) then None
  else Some (v, transform v raw_documents).

End CountVectorizer.
End CountVectorizer.

(** ** Metrics *)

Module Sk.

(** [accuracy_score(y_true, y_pred)] as the exact fraction of matching
    positions; [None] stands for the [ValueError] on different lengths. *)
Definition accuracy_score (y_true y_pred : list Py.value) : option Q :=
  if decide (length y_true = length y_pred) then
    Some (Z.of_nat (length (filter (λ p, p.1 = p.2) (zip y_true y_pred)))
          # Pos.of_nat (length y_true))
  else None.

(** [confusion_matrix(y_true, y_pred, labels=labels)]: entry [(i, j)]
    counts the positions whose true label is [labels[i]] and whose
    predicted label is [labels[j]]. *)
Definition confusion_matrix (y_true y_pred labels : list Py.value) : list (list nat) :=
  map (λ t, map (λ p,
        length (filter (λ q, q.1 = t ∧ q.2 = p) (zip y_true y_pred))) labels) labels.

End Sk.

(** ** Date and time *)

Module Datetime.

Record datetime := {
  year : nat; month : nat; day : nat;
  hour : nat; minute : nat; second : nat;
}.

Definition digit (n : nat) : ascii := ascii_of_nat (48 + n mod 10).

Definition two_digits (n : nat) : string :=
  String (digit (n / 10)) (String (digit n) "").

Definition four_digits (n : nat) : string :=
  String (digit (n / 1000)) (String (digit (n / 100)) (two_digits n)).

(** One directive of the format, in the C locale. *)
Definition directive (c : ascii) (d : datetime) : string :=
  if decide (c = "d"%char) then two_digits (day d)
  else if decide (c = "m"%char) then two_digits (month d)
  else if decide (c = "Y"%char) then four_digits (year d)
  else if decide (c = "H"%char) then two_digits (hour d)
  else if decide (c = "M"%char) then two_digits (minute d)
  else if decide (c = "S"%char) then two_digits (second d)
  else if decide (c = "p"%char) then (if decide (hour d < 12) then "AM" else "PM")
  else String "%" (String c "").

(** [d.strftime(format)] for the directives the notebook uses. *)
Fixpoint strftime (format : string) (d : datetime) : string :=
  match format with
  | "" => ""
  | String "%" (String c rest) => directive c d +:+ strftime rest d
  | String c rest => String c (strftime rest d)
  end.


End Datetime.

(** ** The notebook kernel: numpy arrays, displayed output, written files *)

(** What the cells display. *)
Inductive output (R : Type) : Type :=
  | Baseline (acc : Q)
  | Accuracy (model : string) (acc : Q)
  | Report (model : string) (r : R)
  | ResultsTable (model : string) (processed : list string)
      (actual predicted : list Py.value)
  | AccuracyTable (rows : list (string * Q))
  | PrettyTable (model : string) (r : R)
  | ConfusionMatrix (model : string) (labels : list Py.value) (cm : list (list nat))
  | Printed (s : string).
Arguments Baseline {R}.
Arguments Accuracy {R}.
Arguments Report {R}.
Arguments ResultsTable {R}.
Arguments AccuracyTable {R}.
Arguments PrettyTable {R}.
Arguments ConfusionMatrix {R}.
Arguments Printed {R}.

(** numpy arrays are mutable objects: a variable holds a reference into
    [arrays].  An array of labels holds Python objects, so an assigned
    text is stored whole.  [displayed] and [files] grow at the end. *)
Record kernel (R : Type) : Type := {
  arrays : gmap nat (list Py.value);
  displayed : list (output R);
  files : list (string * Pd.DataFrame);
}.
Arguments arrays {R}.
Arguments displayed {R}.
Arguments files {R}.

Definition fresh_kernel {R} : kernel R :=
  {| arrays := ∅; displayed := []; files := [] |}.

(** A cell's code: it may raise ([None]) or return a value and a changed
    kernel. *)
Definition Cell (R A : Type) : Type := kernel R → option (A * kernel R).

#[global] Instance cell_ret {R} : MRet (Cell R) := λ A x k, Some (x, k).
#[global] Instance cell_bind {R} : MBind (Cell R) := λ A B f m k,
  match m k with
  | Some (x, k') => f x k'
  | None => None
  end.

Module Np.

(** [a[mask] = v] on the array's contents. *)
Definition mask_assign (a : list Py.value) (mask : list bool) (v : Py.value)
  : list Py.value :=
  zip_with (λ x (b : bool), if b then v else x) a mask.

Section Ops.
Context {R : Type}.

(** A library call that may raise. *)
Definition try {A} (o : option A) : Cell R A := λ k,
  match o with
  | Some x => Some (x, k)
  | None => None
  end.

(** A call that returns a new array. *)
Definition array (a : list Py.value) : Cell R nat := λ k,
  let l := fresh (dom (arrays k)) in
  Some (l, {| arrays := <[l := a]> (arrays k);
              displayed := displayed k; files := files k |}).

(** Reading the contents of an array. *)
Definition get (l : nat) : Cell R (list Py.value) := λ k,
  match arrays k !! l with
  | Some a => Some (a, k)
  | None => None
  end.

(** [a[mask] = v] in place; [None] stands for the [IndexError] of a mask
    of another length. *)
Definition setmask (l : nat) (mask : list bool) (v : Py.value) : Cell R unit := λ k,
  match arrays k !! l with
  | Some a =>
      if decide (length mask = length a)
      then Some ((), {| arrays := <[l := mask_assign a mask v]> (arrays k);
                        displayed := displayed k; files := files k |})
      else None
  | None => None
  end.

(** [print(...)], [plt.show()]. *)
Definition display (o : output R) : Cell R unit := λ k,
  Some ((), {| arrays := arrays k; displayed := displayed k ++ [o];
               files := files k |}).

(** [df.to_excel(path, index=False)]. *)
Definition to_excel (df : Pd.DataFrame) (path : string) : Cell R unit := λ k,
  Some ((), {| arrays := arrays k; displayed := displayed k;
               files := files k ++ [(path, df)] |}).

(** [for x in xs: body(x)]. *)
Fixpoint for_each {A} (xs : list A) (body : A → Cell R unit) : Cell R unit :=
  match xs with
  | [] => mret ()
  | x :: xs' => body x ≫= λ _, for_each xs' body
  end.

End Ops.
End Np.

(** ** The notebook *)

Section Notebook.
Context {entropy : Type}.
Context `{PyText} `{Nltk} `{TextAnalyzer} `{NumpyRandom entropy} `{Metrics}.
Variable MultinomialNB : Estimator.
Variables RandomForestClassifier SVC : SeededEstimator entropy.

(** [X_train, X_test, y_train, y_test = train_test_split(
      data['processed_name'], data['Ethnicity'], test_size=0.2, random_state=42)] *)
Definition split_cell (data : Pd.DataFrame) (e : entropy)
  : option (list string * list string * list Py.value * list Py.value) :=
  X ← Pd.col_str "processed_name" data;
  y ← Pd.col "Ethnicity" data;
  train_test_split X y (Some 42%Z) e.

(** [y.value_counts().max()] *)
Definition value_counts_max (y : list Py.value) : nat :=
  foldr max 0 (map (λ v, length (filter (λ w, w = v) y)) (Pd.unique y)).

(** [baseline_accuracy = y_test.value_counts().max() / len(y_test)] and its
    [print]. *)
Definition baseline_cell (y_test : list Py.value) : Cell report unit :=
  Np.display (Baseline (Z.of_nat (value_counts_max y_test)
                        # Pos.of_nat (length y_test))).

(** [vectorizer = CountVectorizer()]
    [X_train_vectorized = vectorizer.fit_transform(X_train)]
    [X_test_vectorized = vectorizer.transform(X_test)] *)
Definition vectorize_cell (X_train X_test : list string)
  : option (CountVectorizer.t * list (list nat) * list (list nat)) :=
  '(vectorizer, X_train_vectorized) ← CountVectorizer.fit_transform X_train;
  Some (vectorizer, X_train_vectorized, CountVectorizer.transform vectorizer X_test).

(** The evaluation that follows each of the three fits, with the table of
    actual and predicted values of the cell after it:
    [accuracy = accuracy_score(y_test, predictions)], the prints of the
    accuracy and of [classification_report(y_test, predictions)], and the
    print of [results_table]. *)
Definition evaluate (model : string) (X_test : list string)
    (y_test : list Py.value) (predictions : nat) : Cell report Q :=
  p ← Np.get predictions;
  accuracy ← Np.try (Sk.accuracy_score y_test p);
  Np.display (Accuracy model accuracy);;
  Np.display (Report model (classification_report y_test p));;
  p ← Np.get predictions;
  Np.display (ResultsTable model X_test y_test p);;
  mret accuracy.

(** [classifier = MultinomialNB()]
    [classifier.fit(X_train_vectorized, y_train)]
    [predictions = classifier.predict(X_test_vectorized)] and its
    evaluation. *)
Definition naive_bayes_cell (X_train_vectorized X_test_vectorized : list (list nat))
    (X_test : list string) (y_train y_test : list Py.value)
  : Cell report (fitted MultinomialNB * nat * Q) :=
  classifier ← Np.try (fit MultinomialNB X_train_vectorized y_train);
  predictions ← Np.array (predict MultinomialNB classifier X_test_vectorized);
  accuracy ← evaluate "Naive Bayes" X_test y_test predictions;
  mret (classifier, predictions, accuracy).

(** [rf_classifier = RandomForestClassifier(random_state=42)], its fit,
    [rf_predictions] and their evaluation. *)
Definition random_forest_cell (e : entropy)
    (X_train_vectorized X_test_vectorized : list (list nat))
    (X_test : list string) (y_train y_test : list Py.value)
  : Cell report (sfitted RandomForestClassifier * nat * Q) :=
  rf_classifier ← Np.try (sfit RandomForestClassifier (Some 42%Z) e
                            X_train_vectorized y_train);
  rf_predictions ← Np.array (spredict RandomForestClassifier rf_classifier
                               X_test_vectorized);
  rf_accuracy ← evaluate "Random Forest" X_test y_test rf_predictions;
  mret (rf_classifier, rf_predictions, rf_accuracy).

(** [svm_classifier = SVC(random_state=42)], its fit, [svm_predictions]
    and their evaluation. *)
Definition svm_cell (e : entropy)
    (X_train_vectorized X_test_vectorized : list (list nat))
    (X_test : list string) (y_train y_test : list Py.value)
  : Cell report (sfitted SVC * nat * Q) :=
  svm_classifier ← Np.try (sfit SVC (Some 42%Z) e X_train_vectorized y_train);
  svm_predictions ← Np.array (spredict SVC svm_classifier X_test_vectorized);
  svm_accuracy ← evaluate "SVM" X_test y_test svm_predictions;
  mret (svm_classifier, svm_predictions, svm_accuracy).

(** The table of the three accuracies, the three classification reports as
    pretty tables, and the three confusion matrices over
    [data['Ethnicity'].unique()]. *)
Definition summary_cells (data : Pd.DataFrame) (y_test : list Py.value)
    (accuracy rf_accuracy svm_accuracy : Q)
    (predictions rf_predictions svm_predictions : nat) : Cell report unit :=
  Np.display (AccuracyTable [("Naive Bayes", accuracy);
                             ("Random Forest", rf_accuracy);
                             ("SVM", svm_accuracy)]);;
  p_nb ← Np.get predictions;
  p_rf ← Np.get rf_predictions;
  p_svm ← Np.get svm_predictions;
  Np.display (PrettyTable "Naive Bayes" (classification_report y_test p_nb));;
  Np.display (PrettyTable "Random Forest" (classification_report y_test p_rf));;
  Np.display (PrettyTable "SVM" (classification_report y_test p_svm));;
  labels ← Np.try (Pd.unique <$> Pd.col "Ethnicity" data);
  Np.display (ConfusionMatrix "Naive Bayes" labels
                (Sk.confusion_matrix y_test p_nb labels));;
  Np.display (ConfusionMatrix "Random Forest" labels
                (Sk.confusion_matrix y_test p_rf labels));;
  Np.display (ConfusionMatrix "SVM" labels
                (Sk.confusion_matrix y_test p_svm labels)).

(** [new_data['shipping_firstname'] = new_data['shipping_firstname'].astype(str)]
    [new_data['processed_name'] = new_data['shipping_firstname'].apply(preprocess_text)] *)
Definition prepare_new_data (new_data : Pd.DataFrame) : option Pd.DataFrame :=
  names ← Pd.col "shipping_firstname" new_data;
  new_data ← Pd.set_col "shipping_firstname" (Pd.astype_str names) new_data;
  add_processed_name "shipping_firstname" new_data.

(** [new_data_vectorized = vectorizer.transform(new_data['processed_name'])]
    and the three [predict] calls on it. *)
Definition predict_new_cell (vectorizer : CountVectorizer.t)
    (classifier : fitted MultinomialNB)
    (rf_classifier : sfitted RandomForestClassifier)
    (svm_classifier : sfitted SVC)
    (new_data : Pd.DataFrame) : Cell report (nat * nat * nat) :=
  processed ← Np.try (Pd.col_str "processed_name" new_data);
  let new_data_vectorized := CountVectorizer.transform vectorizer processed in
  new_predictions_nb ← Np.array (predict MultinomialNB classifier new_data_vectorized);
  new_predictions_rf ← Np.array (spredict RandomForestClassifier rf_classifier
                                   new_data_vectorized);
  new_predictions_svm ← Np.array (spredict SVC svm_classifier new_data_vectorized);
  mret (new_predictions_nb, new_predictions_rf, new_predictions_svm).

(** [exceptional_cases = ["nan", ""]] *)
Definition exceptional_cases : list string := ["nan"; ""].

(** [series == case] *)
Definition eq_mask (series : list Py.value) (case : string) : list bool :=
  map (λ v, bool_decide (v = Py.Str case)) series.

(** [new_predictions[new_data['processed_name'] == case] = 'Others'] *)
Definition assign_others (new_data : Pd.DataFrame) (new_predictions : nat)
    (case : string) : Cell report unit :=
  s ← Np.try (Pd.col "processed_name" new_data);
  Np.setmask new_predictions (eq_mask s case) (Py.Str "Others").

(** [for case in exceptional_cases:] with its three assignments. *)
Definition exceptional_cell (new_data : Pd.DataFrame)
    (new_predictions_nb new_predictions_rf new_predictions_svm : nat)
  : Cell report unit :=
  Np.for_each exceptional_cases (λ case,
    assign_others new_data new_predictions_nb case;;
    assign_others new_data new_predictions_rf case;;
    assign_others new_data new_predictions_svm case).

(** [new_data['Predicted_Ethnicity_NB'] = new_predictions_nb] and the two
    assignments after it. *)
Definition add_predictions_cell (new_data : Pd.DataFrame)
    (new_predictions_nb new_predictions_rf new_predictions_svm : nat)
  : Cell report Pd.DataFrame :=
  a ← Np.get new_predictions_nb;
  new_data ← Np.try (Pd.set_col "Predicted_Ethnicity_NB" a new_data);
  a ← Np.get new_predictions_rf;
  new_data ← Np.try (Pd.set_col "Predicted_Ethnicity_RF" a new_data);
  a ← Np.get new_predictions_svm;
  Np.try (Pd.set_col "Predicted_Ethnicity_SVM" a new_data).

(** [current_datetime = datetime.now().strftime("%d%m%Y_%H%M%S%p")] and its
    [print]. *)
Definition datetime_cell (now : Datetime.datetime) : Cell report string :=
  let current_datetime := Datetime.strftime "%d%m%Y_%H%M%S%p" now in
  Np.display (Printed current_datetime);;
  mret current_datetime.

(** The f-string naming the exported file. *)
Definition export_path (current_datetime : string) : string :=
  "Data/Predictions/ecomm_demo_2023Q3_predicted_ethnicities_"
    +:+ current_datetime +:+ ".xlsx".

(** The variables of the notebook that are live when it ends.  The six
    prediction variables hold references to numpy arrays. *)
Record variables := {
  data : Pd.DataFrame;
  X_train : list string;
  X_test : list string;
  y_train : list Py.value;
  y_test : list Py.value;
  vectorizer : CountVectorizer.t;
  classifier : fitted MultinomialNB;
  predictions : nat;
  rf_classifier : sfitted RandomForestClassifier;
  rf_predictions : nat;
  svm_classifier : sfitted SVC;
  svm_predictions : nat;
  new_data : Pd.DataFrame;
  new_predictions_nb : nat;
  new_predictions_rf : nat;
  new_predictions_svm : nat;
  current_datetime : string;
}.

(** The code cells in order.  [data0] and [new_data0] are what the two
    [pd.read_excel] calls return, [now] is what [datetime.now()] returns
    and [e] is the entropy of this run.  The cells that only draw figures
    of the random forest's feature importances and of ROC curves, and the
    display of the HTML link that opens the special-cases cell, are left
    out: they assign no variable that a later cell reads, change no array
    and write no file. *)
Definition notebook (data0 new_data0 : Pd.DataFrame)
    (now : Datetime.datetime) (e : entropy) : Cell report variables :=
  data ← Np.try (clean data0);
  data ← Np.try (add_processed_name "ShippingName" data);
  '(X_train, X_test, y_train, y_test) ← Np.try (split_cell data e);
  baseline_cell y_test;;
  '(vectorizer, X_train_vectorized, X_test_vectorized) ←
    Np.try (vectorize_cell X_train X_test);
  '(classifier, predictions, accuracy) ←
    naive_bayes_cell X_train_vectorized X_test_vectorized X_test y_train y_test;
  '(rf_classifier, rf_predictions, rf_accuracy) ←
    random_forest_cell e X_train_vectorized X_test_vectorized X_test y_train y_test;
  '(svm_classifier, svm_predictions, svm_accuracy) ←
    svm_cell e X_train_vectorized X_test_vectorized X_test y_train y_test;
  summary_cells data y_test accuracy rf_accuracy svm_accuracy
    predictions rf_predictions svm_predictions;;
  new_data ← Np.try (prepare_new_data new_data0);
  '(new_predictions_nb, new_predictions_rf, new_predictions_svm) ←
    predict_new_cell vectorizer classifier rf_classifier svm_classifier new_data;
  exceptional_cell new_data new_predictions_nb new_predictions_rf new_predictions_svm;;
  new_data ← add_predictions_cell new_data
    new_predictions_nb new_predictions_rf new_predictions_svm;
  current_datetime ← datetime_cell now;
  Np.to_excel new_data (export_path current_datetime);;
  mret {| data := data; X_train := X_train; X_test := X_test;
          y_train := y_train; y_test := y_test; vectorizer := vectorizer;
          classifier := classifier; predictions := predictions;
          rf_classifier := rf_classifier; rf_predictions := rf_predictions;
          svm_classifier := svm_classifier; svm_predictions := svm_predictions;
          new_data := new_data;
          new_predictions_nb := new_predictions_nb;
          new_predictions_rf := new_predictions_rf;
          new_predictions_svm := new_predictions_svm;
          current_datetime := current_datetime |}.

End Notebook.

Arguments data {_ _ _ _}.
Arguments X_train {_ _ _ _}.
Arguments X_test {_ _ _ _}.
Arguments y_train {_ _ _ _}.
Arguments y_test {_ _ _ _}.
Arguments vectorizer {_ _ _ _}.
Arguments classifier {_ _ _ _}.
Arguments predictions {_ _ _ _}.
Arguments rf_classifier {_ _ _ _}.
Arguments rf_predictions {_ _ _ _}.
Arguments svm_classifier {_ _ _ _}.
Arguments svm_predictions {_ _ _ _}.
Arguments new_data {_ _ _ _}.
Arguments new_predictions_nb {_ _ _ _}.
Arguments new_predictions_rf {_ _ _ _}.
Arguments new_predictions_svm {_ _ _ _}.
Arguments current_datetime {_ _ _ _}.

(** ** Pretty tables of the classification reports

    The function [create_pretty_table] of the cell that prints the detailed
    reports, with the part of the [prettytable] library that it calls.
    Where [summary_cells] displays a table as a whole, the table is built
    here; the numbers of a report are of a type [float] that the
    development is generic in. *)

Module Prettytable.
Section Prettytable.
Context {float : Type}.

(** A cell of a table: text or a number. *)
Inductive cell : Type :=
  | Text (s : string)
  | Num (x : float).

(** A [PrettyTable] object. *)
Record t : Type := {
  field_names : list string;
  rows : list (list cell);
  title : option string;
}.

(** [PrettyTable()] *)
Definition PrettyTable : t :=
  {| field_names := []; rows := []; title := None |}.

(** [table.field_names = val]: the library raises [ValueError] when the
    number of names differs from that of the names or of the rows the table
    has, and when two names are the same. *)
Definition set_field_names (val : list string) (table : t) : option t :=
  if decide (field_names table ≠ [] ∧ length val ≠ length (field_names table))
  then None
  else if decide (length val
                  ≠ default (length val) (length <$> head (rows table)))
  then None
  else if decide (NoDup val)
  then Some {| field_names := val; rows := rows table; title := title table |}
  else None.

(** [table.add_row(row)]: raises [ValueError] when the table has field
    names and the row has another number of values; a table without field
    names gets the names [Field 1], [Field 2], ... *)
Definition add_row (row : list cell) (table : t) : option t :=
  if decide (field_names table ≠ [] ∧ length row ≠ length (field_names table))
  then None
  else
    table ← (if decide (field_names table = [])
             then set_field_names
                    ((λ n, "Field " +:+ pretty (n + 1)) <$> seq 0 (length row))
                    table
             else Some table);
    Some {| field_names := field_names table; rows := rows table ++ [row];
            title := title table |}.

(** [table.title = s] *)
Definition set_title (s : string) (table : t) : t :=
  {| field_names := field_names table; rows := rows table; title := Some s |}.

End Prettytable.
Arguments cell : clear implicits.
Arguments t : clear implicits.
End Prettytable.

Section CreatePrettyTable.
Context {float : Type}.

(** A value of the dictionary that
    [classification_report(..., output_dict=True)] returns: the metrics of
    a class or of an average, a dictionary themselves, or a number (the
    entry ['accuracy']). *)
Inductive report_entry : Type :=
  | MetricsDict (values : list (string * float))
  | Number (x : float).

(** What [create_pretty_table] is given: a dictionary, its items in
    insertion order, or a single number. *)
Inductive report_value : Type :=
  | ReportDict (items : list (string * report_entry))
  | ReportFloat (x : float).

(** [d[key]] on the items of a dictionary; [None] stands for [KeyError]. *)
Fixpoint getitem {V} (d : list (string * V)) (key : string) : option V :=
  match d with
  | [] => None
  | (k, v) :: d' => if decide (k = key) then Some v else getitem d' key
  end.

(** [for cls, values in report.items():]
    [    if isinstance(values, dict):]
    [        table.add_row([cls] + list(values.values()))] *)
Fixpoint add_class_rows (items : list (string * report_entry))
    (table : Prettytable.t float) : option (Prettytable.t float) :=
  match items with
  | [] => Some table
  | (cls, values) :: items' =>
      match values with
      | MetricsDict values =>
          table ← Prettytable.add_row
                    (Prettytable.Text cls :: (Prettytable.Num <$> values.*2)) table;
          add_class_rows items' table
      | Number _ => add_class_rows items' table
      end
  end.

(** [def create_pretty_table(report, model_name)]; [None] stands for the
    [KeyError] of a dictionary without ['weighted avg'], the
    [AttributeError] of a ['weighted avg'] that is no dictionary, and the
    [ValueError]s of the table. *)
Definition create_pretty_table (report : report_value) (model_name : string)
  : option (Prettytable.t float) :=
  let table := Prettytable.PrettyTable in
  table ←
    match report with
    | ReportDict items =>
        weighted_avg ← getitem items "weighted avg";
        keys ← match weighted_avg with
                | MetricsDict values => Some values.*1
                | Number _ => None
                end;
        table ← Prettytable.set_field_names ("Class" :: keys) table;
        add_class_rows items table
    | ReportFloat x =>
        table ← Prettytable.set_field_names ["Metric"; "Value"] table;
        Prettytable.add_row [Prettytable.Text "Accuracy"; Prettytable.Num x] table
    end;
  Some (Prettytable.set_title
          ("Classification Report (" +:+ model_name +:+ ")") table).

End CreatePrettyTable.
Arguments report_entry : clear implicits.
Arguments report_value : clear implicits.

(** ** Feature importances of the random forest

    The list that the cell after the random forest's evaluation prints and
    the next cell plots.  The importances are floating-point numbers:
    [le] is their order and [round_2] stands for [round(importance, 2)]. *)

Section FeatureImportances.
Context {float : Type} (le : relation float) `{!RelDecision le}.
Variable round_2 : float → float.

(** Insertion for [sorted(..., key=key, reverse=True)]: the new element
    goes before the first one whose key is not greater. *)
Fixpoint insert_reverse {A} (key : A → float) (x : A) (l : list A) : list A :=
  match l with
  | [] => [x]
  | y :: l' =>
      if decide (le (key y) (key x)) then x :: l
      else y :: insert_reverse key x l'
  end.

(** [sorted(l, key=key, reverse=True)] for keys that are totally ordered:
    by decreasing key, elements with equal keys in their original order. *)
Definition sorted_reverse {A} (key : A → float) (l : list A) : list A :=
  foldr (insert_reverse key) [] l.

(** [feature_importances_rf = [(feature, round(importance, 2)) for
      feature, importance in zip(get_feature_names_out(), importances)]]
    [feature_importances_rf = sorted(feature_importances_rf,
      key=lambda x: x[1], reverse=True)]
    [top_feature_importances_rf = feature_importances_rf[:10]] *)
Definition top_feature_importances (feature_names : list string)
    (importances : list float) : list (string * float) :=
  let feature_importances_rf :=
    (λ p : string * float, (p.1, round_2 p.2)) <$> zip feature_names importances in
  let feature_importances_rf := sorted_reverse snd feature_importances_rf in
  take 10 feature_importances_rf.

End FeatureImportances.

(** ** Vocabulary of the properties *)

(** The four classes of the project description. *)
Definition four_classes : list Py.value :=
  [Py.Str "Malay"; Py.Str "Indian"; Py.Str "Chinese"; Py.Str "Others"].

(** Every row has a cell in column [c]. *)
Definition has_column (c : string) (df : Pd.DataFrame) : Prop :=
  Forall (λ r : Pd.row, is_Some (r !! c)) df.

(** The row's [Ethnicity] equals [False], with Python's equality. *)
Definition removed (r : Pd.row) : Prop :=
  Py.eq_False <$> (r !! "Ethnicity") = Some true.

#[global] Instance removed_dec r : Decision (removed r).
Proof. unfold removed. apply _. Defined.

(** [r'] is [r] with its [ShippingName] made text and nothing else
    changed. *)
Definition cleaned_row (r r' : Pd.row) : Prop :=
  (∃ v, r !! "ShippingName" = Some v ∧
        r' !! "ShippingName" = Some (Py.Str (Py.str v))) ∧
  ∀ c, c ≠ "ShippingName" → r' !! c = r !! c.

(** What the libraries document and the properties rely on. *)

(** [permutation] returns a permutation of the positions. *)
Definition permutation_law {entropy} `{NumpyRandom entropy} : Prop :=
  ∀ rs e n, permutation rs e n ≡ₚ seq 0 n.

(** A seeded generator does not read the entropy. *)
Definition seeded_permutation {entropy} `{NumpyRandom entropy} : Prop :=
  ∀ s e e' n, permutation (Some s) e n = permutation (Some s) e' n.

(** A fitted classifier predicts labels it has seen ([classes_]). *)
Definition predicts_training_labels (E : Estimator) : Prop :=
  ∀ X y m x, fit E X y = Some m → predict_row E m x ∈ y.

Definition spredicts_training_labels {entropy} (E : SeededEstimator entropy)
  : Prop :=
  ∀ rs e X y m x, sfit E rs e X y = Some m → spredict_row E m x ∈ y.

(** A fit with a [random_state] does not read the entropy. *)
Definition seeded_fit {entropy} (E : SeededEstimator entropy) : Prop :=
  ∀ s e e' X y, sfit E (Some s) e X y = sfit E (Some s) e' X y.

(** The columns the notebook adds to or rewrites in the new data. *)
Definition touched_columns : list string :=
  ["shipping_firstname"; "processed_name"; "Predicted_Ethnicity_NB";
   "Predicted_Ethnicity_RF"; "Predicted_Ethnicity_SVM"].

(** The prediction column of each model. *)
Definition prediction_columns : list (string * string) :=
  [("Naive Bayes", "Predicted_Ethnicity_NB");
   ("Random Forest", "Predicted_Ethnicity_RF");
   ("SVM", "Predicted_Ethnicity_SVM")].

Section Vocabulary.
Context {entropy : Type}.
Context `{PyText} `{Nltk} `{TextAnalyzer} `{NumpyRandom entropy} `{Metrics}.
Variable MultinomialNB : Estimator.
Variables RandomForestClassifier SVC : SeededEstimator entropy.

(** The two masked assignments of the loop, on the contents of one array;
    [s] is the [processed_name] column. *)
Definition others (s a : list Py.value) : list Py.value :=
  Np.mask_assign (Np.mask_assign a (eq_mask s "nan") (Py.Str "Others"))
    (eq_mask s "") (Py.Str "Others").

(** The emitted label of a row with processed name [processed] whose raw
    prediction is [raw]. *)
Definition substituted (processed : string) (raw : Py.value) : Py.value :=
  if decide (processed ∈ exceptional_cases) then Py.Str "Others" else raw.

(** A row of the new data, paired with its [shipping_firstname], after its
    name is made text and normalised. *)
Definition prepared_row (p : Pd.row * Py.value) : Pd.row :=
  <["processed_name" := Py.Str (preprocess_text (Py.str p.2))]>
    (<["shipping_firstname" := Py.Str (Py.str p.2)]> p.1).

(** The same row as the notebook writes it. *)
Definition emitted_row (vectorizer : CountVectorizer.t)
    (classifier : fitted MultinomialNB)
    (rf_classifier : sfitted RandomForestClassifier)
    (svm_classifier : sfitted SVC) (p : Pd.row * Py.value) : Pd.row :=
  let processed := preprocess_text (Py.str p.2) in
  let x := CountVectorizer.count_row vectorizer processed in
  <["Predicted_Ethnicity_SVM" :=
      substituted processed (spredict_row SVC svm_classifier x)]>
    (<["Predicted_Ethnicity_RF" :=
         substituted processed (spredict_row RandomForestClassifier rf_classifier x)]>
       (<["Predicted_Ethnicity_NB" :=
            substituted processed (predict_row MultinomialNB classifier x)]>
          (prepared_row p))).

(** What one model's evaluation displays from its test predictions [p]. *)
Definition evaluation_display (model : string) (X_test : list string)
    (y_test p : list Py.value) (accuracy : Q) : list (output report) :=
  [Accuracy model accuracy;
   Report model (classification_report y_test p);
   ResultsTable model X_test y_test p].

(** What the summary cells display. *)
Definition summary_display (ethnicity y_test p_nb p_rf p_svm : list Py.value)
    (accuracy rf_accuracy svm_accuracy : Q) : list (output report) :=
  [AccuracyTable [("Naive Bayes", accuracy); ("Random Forest", rf_accuracy);
                  ("SVM", svm_accuracy)];
   PrettyTable "Naive Bayes" (classification_report y_test p_nb);
   PrettyTable "Random Forest" (classification_report y_test p_rf);
   PrettyTable "SVM" (classification_report y_test p_svm);
   ConfusionMatrix "Naive Bayes" (Pd.unique ethnicity)
     (Sk.confusion_matrix y_test p_nb (Pd.unique ethnicity));
   ConfusionMatrix "Random Forest" (Pd.unique ethnicity)
     (Sk.confusion_matrix y_test p_rf (Pd.unique ethnicity));
   ConfusionMatrix "SVM" (Pd.unique ethnicity)
     (Sk.confusion_matrix y_test p_svm (Pd.unique ethnicity))].

(** Selection by evaluation, as the specification words it: a model whose
    predictions are in a written file has an accuracy on the held-out data
    that no other model exceeds. *)
Definition emits_only_best (k : kernel report) : Prop :=
  ∀ accuracies model column acc path df r,
    AccuracyTable accuracies ∈ displayed k →
    (model, acc) ∈ accuracies → (model, column) ∈ prediction_columns →
    (path, df) ∈ files k → r ∈ df → is_Some (r !! column) →
    ∀ model' acc', (model', acc') ∈ accuracies → (acc' <= acc)%Q.


(** A displayed item that is a metric, not the printed timestamp. *)
Definition is_metric (o : output report) : bool :=
  match o with
  | Printed _ => false
  | _ => true
  end.

(** What a run produces apart from the timestamp: the variables other than
    [current_datetime], the arrays, the displayed metrics and the contents
    of the written files. *)
Definition outcome
    (r : variables MultinomialNB RandomForestClassifier SVC * kernel report) :=
  let v := r.1 in
  let k := r.2 in
  (data v, X_train v, X_test v, y_train v, y_test v, vectorizer v,
   classifier v, predictions v, rf_classifier v, rf_predictions v,
   svm_classifier v, svm_predictions v, new_data v,
   new_predictions_nb v, new_predictions_rf v, new_predictions_svm v,
   arrays k, filter (λ o, is_metric o = true) (displayed k), (files k).*2).

End Vocabulary.

(** ** Further vocabulary *)

(** A cell that holds text. *)
Definition is_text (v : Py.value) : Prop := ∃ s, v = Py.Str s.

(** A row as cleaning leaves it: a text [ShippingName] and an [Ethnicity]
    that is not equal to [False]. *)
Definition clean_row (r : Pd.row) : Prop :=
  (∃ s, r !! "ShippingName" = Some (Py.Str s)) ∧
  ∃ label, r !! "Ethnicity" = Some label ∧ Py.eq_False label = false.

(** The number of positions at which two series agree. *)
Definition matches (y_true y_pred : list Py.value) : nat :=
  length (filter (λ p, p.1 = p.2) (zip y_true y_pred)).

(** The main diagonal of a matrix. *)
Definition diagonal (cm : list (list nat)) : list nat :=
  imap (λ i row, default 0 (row !! i)) cm.

(** The array already holds [v] wherever the mask is true. *)
Definition covered (mask : list bool) (v : Py.value) (a : list Py.value) : Prop :=
  length mask = length a ∧ ∀ i, mask !! i = Some true → a !! i = Some v.

(** The array at [l] does. *)
Definition holds_covered {R} (l : nat) (mask : list bool) (v : Py.value)
    (k : kernel R) : Prop :=
  ∃ a, arrays k !! l = Some a ∧ covered mask v a.




Section Tokenless.
Context `{PyText} `{Nltk} `{TextAnalyzer}.

(** The row's name, normalised, gives the vectorizer no token. *)
Definition tokenless (r : Pd.row) : Prop :=
  match r !! "ShippingName" with
  | Some name => analyzer (preprocess_text (Py.str name)) = []
  | None => True
  end.

#[global] Instance tokenless_dec r : Decision (tokenless r).
Proof. unfold tokenless. destruct (r !! "ShippingName"); apply _. Defined.

End Tokenless.

(** The rows a table gets from the items of a report: one for each entry
    that is a dictionary, none for a number. *)
Definition class_rows {float} (items : list (string * report_entry float))
  : list (list (Prettytable.cell float)) :=
  omap (λ item : string * report_entry float,
          match item.2 with
          | MetricsDict values =>
              Some (Prettytable.Text item.1 :: (Prettytable.Num <$> values.*2))
          | Number _ => None
          end) items.

(** Decreasing order of the keys. *)
Definition decreasing {float A} (le : relation float) (key : A → float)
  : relation A :=
  λ x y, le (key y) (key x).

(** ** A small instance of the library interfaces

    Stand-ins for the libraries on ASCII text, small enough to run the
    notebook inside Rocq on a handful of rows. *)

Module Toy.

Definition is_ascii_letter (c : ascii) : bool :=
  let n := nat_of_ascii c in
  ((65 <=? n) && (n <=? 90) || (97 <=? n) && (n <=? 122))%nat.

Definition ascii_lower (c : ascii) : ascii :=
  let n := nat_of_ascii c in
  if ((65 <=? n) && (n <=? 90))%nat then ascii_of_nat (n + 32) else c.

Fixpoint string_forall (p : ascii → bool) (s : string) : bool :=
  match s with
  | "" => true
  | String c s' => p c && string_forall p s'
  end.

Fixpoint string_map (f : ascii → ascii) (s : string) : string :=
  match s with
  | "" => ""
  | String c s' => String (f c) (string_map f s')
  end.

#[export] Instance py_text : PyText := {|
  isalpha s := negb (bool_decide (s = "")) && string_forall is_ascii_letter s;
  lower := string_map ascii_lower;
|}.

(** Tokens are the space-separated words, the stem of a word is its
    lowercase form. *)
#[export] Instance nltk : Nltk := {|
  word_tokenize := String.words;
  stem := string_map ascii_lower;
  stopwords_english := ["i"; "me"; "my"; "the"; "of"; "and"; "a"; "to"];
|}.

(** Lower-cased words of two or more characters. *)
#[export] Instance text_analyzer : TextAnalyzer := {|
  analyzer s :=
    filter (λ w, (2 ≤ String.length w)%nat) (String.words (string_map ascii_lower s));
|}.

(** A seeded generator returns the positions in reverse; an unseeded one
    rotates them by the entropy. *)
#[export] Instance numpy_random : NumpyRandom nat := {|
  permutation rs e n :=
    match rs with
    | Some _ => reverse (seq 0 n)
    | None => rotate e (seq 0 n)
    end;
|}.

(** The report is the number of correct predictions. *)
#[export] Instance metrics : Metrics := {|
  report := nat;
  classification_report y_true y_pred :=
    length (filter (λ p, p.1 = p.2) (zip y_true y_pred));
|}.

(** Predicts the first training label for every row. *)
Definition first_label : Estimator := {|
  fitted := Py.value;
  fit X y := head y;
  predict_row m x := m;
|}.

(** Predicts the last training label for every row. *)
Definition last_label : SeededEstimator nat := {|
  sfitted := Py.value;
  sfit rs e X y := last y;
  spredict_row m x := m;
|}.

(** Predicts the label of the first training row with the same counts, and
    the first training label when there is none. *)
Definition memorizer : SeededEstimator nat := {|
  sfitted := Py.value * list (list nat * Py.value);
  sfit rs e X y := d ← head y; Some (d, zip X y);
  spredict_row m x :=
    match list_find (λ p, p.1 = x) m.2 with
    | Some (_, (_, label)) => label
    | None => m.1
    end;
|}.

Definition labelled (name : Py.value) (ethnicity : Py.value) : Pd.row :=
  {[ "ShippingName" := name; "Ethnicity" := ethnicity; "OrderId" := Py.Int 7 ]}.

Definition training_data : Pd.DataFrame :=
  [ labelled (Py.Str "Tan Wei Ming")      (Py.Str "Chinese");
    labelled (Py.Str "Siti Aminah")       (Py.Str "Malay");
    labelled (Py.Str "no name")           (Py.Bool false);
    labelled (Py.Str "Raj Kumar")         (Py.Str "Indian");
    labelled (Py.Str "John of Smith 3rd") (Py.Str "Others");
    labelled (Py.Int 12345)               (Py.Int 0);
    labelled (Py.Str "Ahmad Aminah")      (Py.Str "Malay");
    labelled (Py.Str "Lim Wei")           (Py.Str "Chinese") ].

Definition unlabelled (name : Py.value) : Pd.row :=
  {[ "shipping_firstname" := name; "OrderId" := Py.Int 9 ]}.

Definition new_rows : Pd.DataFrame :=
  [ unlabelled (Py.Str "Siti Wei");
    unlabelled Py.NaN;
    unlabelled (Py.Str "a***n");
    unlabelled (Py.Str "Raj Kumar");
    unlabelled (Py.Int 5) ].

Definition noon : Datetime.datetime :=
  {| Datetime.year := 2023; Datetime.month := 10; Datetime.day := 5;
     Datetime.hour := 14; Datetime.minute := 3; Datetime.second := 9 |}.

Definition midnight : Datetime.datetime :=
  {| Datetime.year := 2024; Datetime.month := 1; Datetime.day := 31;
     Datetime.hour := 0; Datetime.minute := 0; Datetime.second := 0 |}.

Definition run (e : nat) :=
  notebook first_label memorizer last_label training_data new_rows noon e
    fresh_kernel.

End Toy.

(** ** Further small inputs *)

Module Sample.

(** A labelled sheet of which cleaning keeps one row. *)
Definition one_labelled_row : Pd.DataFrame :=
  [ Toy.labelled (Py.Str "Tan Wei Ming") (Py.Str "Chinese");
    Toy.labelled (Py.Str "no name") (Py.Bool false) ].

(** Test labels with a most frequent class. *)
Definition test_labels : list Py.value :=
  [Py.Str "Malay"; Py.Str "Chinese"; Py.Str "Malay"].

(** A classification report as a dictionary, with exact fractions for the
    floating-point numbers. *)
Definition report : report_value Q :=
  ReportDict
    [ ("Chinese", MetricsDict [("precision", 1%Q); ("recall", 1 # 2);
                               ("f1-score", 2 # 3); ("support", 2%Q)]);
      ("Malay", MetricsDict [("precision", 1 # 2); ("recall", 1%Q);
                             ("f1-score", 2 # 3); ("support", 1%Q)]);
      ("accuracy", Number (2 # 3));
      ("macro avg", MetricsDict [("precision", 3 # 4); ("recall", 3 # 4);
                                 ("f1-score", 2 # 3); ("support", 3%Q)]);
      ("weighted avg", MetricsDict [("precision", 5 # 6); ("recall", 2 # 3);
                                    ("f1-score", 2 # 3); ("support", 3%Q)]) ].

(** Rounding to hundredths of an importance given in thousandths. *)
Definition round_to_hundredths (n : nat) : nat := (n + 5) / 10 * 10.

(** The importances of five features, in thousandths. *)
Definition importances : list nat := [120; 304; 296; 80; 200].

(** The labelled data of the small instance with another label in a row
    that goes to the test part. *)
Definition relabelled_test_row : Pd.DataFrame :=
  [ Toy.labelled (Py.Str "Tan Wei Ming")      (Py.Str "Chinese");
    Toy.labelled (Py.Str "Siti Aminah")       (Py.Str "Malay");
    Toy.labelled (Py.Str "no name")           (Py.Bool false);
    Toy.labelled (Py.Str "Raj Kumar")         (Py.Str "Indian");
    Toy.labelled (Py.Str "John of Smith 3rd") (Py.Str "Others");
    Toy.labelled (Py.Int 12345)               (Py.Int 0);
    Toy.labelled (Py.Str "Ahmad Aminah")      (Py.Str "Malay");
    Toy.labelled (Py.Str "Lim Wei")           (Py.Str "Others") ].

(** Another sheet of new data, in which one row of [Toy.new_rows] stands
    among other rows. *)
Definition other_new_rows : Pd.DataFrame :=
  [ Toy.unlabelled (Py.Str "Lim Ming");
    Toy.unlabelled (Py.Str "Raj Kumar") ].

End Sample.

(** * Proofs *)

(** ** Data frames *)

Lemma col_Some c (df : Pd.DataFrame) vs :
  Pd.col c df = Some vs ↔ Forall2 (λ (r : Pd.row) v, r !! c = Some v) df vs.
Proof. unfold Pd.col. apply mapM_Some. Qed.

Lemma col_is_Some c (df : Pd.DataFrame) :
  has_column c df → is_Some (Pd.col c df).
Proof.
  intros Hc. unfold Pd.col. apply mapM_is_Some. exact Hc.
Qed.

Lemma set_col_Some c vs (df df' : Pd.DataFrame) :
  Pd.set_col c vs df = Some df' ↔
  length vs = length df ∧ df' = zip_with (λ (r : Pd.row) v, <[c := v]> r) df vs.
Proof.
  unfold Pd.set_col. destruct (decide _) as [Hl|Hl]; split.
  - by intros [= <-].
  - by intros [_ ->].
  - done.
  - by intros [? _].
Qed.

Lemma col_zip_insert_ne c c' (df : Pd.DataFrame) vs :
  c ≠ c' → length vs = length df →
  Pd.col c (zip_with (λ (r : Pd.row) v, <[c' := v]> r) df vs) = Pd.col c df.
Proof.
  intros Hne. revert vs. unfold Pd.col.
  induction df as [|r df IH]; intros [|v vs] Hlen; simplify_eq/=; [done|].
  rewrite lookup_insert_ne by done. by rewrite IH.
Qed.

Lemma zip_with_fmap_same {A B C D} (h : B → C → D) (F : A → B) (G : A → C) l :
  zip_with h (F <$> l) (G <$> l) = (λ x, h (F x) (G x)) <$> l.
Proof. induction l as [|x l IH]; [done|]. csimpl. by rewrite IH. Qed.

Lemma col_fmap_insert {A} c (F : A → Pd.row) (G : A → Py.value) l :
  Pd.col c ((λ x, <[c := G x]> (F x)) <$> l) = Some (G <$> l).
Proof.
  unfold Pd.col. apply mapM_Some_2.
  induction l as [|x l IH]; constructor; [by rewrite lookup_insert_eq | done].
Qed.

Lemma col_str_fmap_insert {A} c (F : A → Pd.row) (S : A → string) l :
  Pd.col_str c ((λ x, <[c := Py.Str (S x)]> (F x)) <$> l) = Some (S <$> l).
Proof.
  unfold Pd.col_str. apply mapM_Some_2.
  induction l as [|x l IH]; constructor; [by rewrite lookup_insert_eq | done].
Qed.


Lemma col_length c (df : Pd.DataFrame) vs :
  Pd.col c df = Some vs → length vs = length df.
Proof. intros HF%col_Some. symmetry. by eapply Forall2_length. Qed.


Lemma mask_assign_fmap {A} (G : A → Py.value) (M : A → bool) v l :
  Np.mask_assign (G <$> l) (M <$> l) v = (λ x, if M x then v else G x) <$> l.
Proof. unfold Np.mask_assign. apply zip_with_fmap_same. Qed.


(** ** Cleaning *)

Lemma clean_rows (data : Pd.DataFrame) names ethnicity :
  Forall2 (λ (r : Pd.row) v, r !! "ShippingName" = Some v) data names →
  Forall2 (λ (r : Pd.row) v, r !! "Ethnicity" = Some v) data ethnicity →
  Forall2 cleaned_row (filter (λ r, ¬ removed r) data)
    (Pd.boolean_index
       (zip_with (λ (r : Pd.row) v, <["ShippingName" := v]> r) data (Pd.astype_str names))
       (map Py.ne_False ethnicity)).
Proof.
  intros Hn. revert ethnicity.
  induction Hn as [|r v data names Hr Hn IH]; intros ethnicity He.
  - inversion He. constructor.
  - inversion He as [|r' w data' eth' Hw He']; subst. simpl.
    assert (removed r ↔ Py.eq_False w = true) as Hrem.
    { unfold removed. rewrite Hw. simpl. split; [by intros [=] | by intros ->]. }
    rewrite filter_cons. unfold Py.ne_False.
    destruct (Py.eq_False w) eqn:Hf; simpl.
    + rewrite decide_False by tauto. by apply IH.
    + rewrite decide_True by (rewrite Hrem; congruence).
      constructor; [|by apply IH]. split.
      * exists v. split; [done|]. by rewrite lookup_insert_eq.
      * intros c Hc. by rewrite lookup_insert_ne.
Qed.


(** ** Normalisation of names *)

Section PreprocessFacts.
Context `{PyText} `{Nltk}.



End PreprocessFacts.

(** ** Splitting *)


Lemma safe_indexing_Some {A} (a : list A) indices a' :
  safe_indexing a indices = Some a' ↔
  Forall2 (λ i x, a !! i = Some x) indices a'.
Proof. unfold safe_indexing. apply mapM_Some. Qed.





Lemma safe_indexing_elem_of {A} (a : list A) indices a' x :
  safe_indexing a indices = Some a' → x ∈ a' → x ∈ a.
Proof.
  rewrite safe_indexing_Some. intros HF Hx.
  apply list_elem_of_lookup in Hx as [j Hj].
  destruct (Forall2_lookup_r _ _ _ _ _ HF Hj) as (i & _ & Hi).
  by eapply list_elem_of_lookup_2.
Qed.

Lemma n_test_of_le n : n_test_of n ≤ n.
Proof.
  unfold n_test_of. destruct n as [|n]; [done|].
  apply Nat.Div0.div_le_upper_bound. lia.
Qed.


Section SplitFacts.
Context {entropy : Type} `{NumpyRandom entropy}.
Hypothesis Hperm : permutation_law.

Lemma train_test_split_inv {A B} (X : list A) (y : list B) rs e Xtr Xte ytr yte :
  train_test_split X y rs e = Some (Xtr, Xte, ytr, yte) →
  ∃ ind_train ind_test,
    ind_test ++ ind_train ≡ₚ seq 0 (length X) ∧
    length y = length X ∧
    length ind_test = n_test_of (length X) ∧
    length ind_train = length X - n_test_of (length X) ∧
    0 < length ind_train ∧
    safe_indexing X ind_train = Some Xtr ∧
    safe_indexing X ind_test = Some Xte ∧
    safe_indexing y ind_train = Some ytr ∧
    safe_indexing y ind_test = Some yte.
Proof.
  unfold train_test_split. intros Hs.
  destruct (decide (length y = length X)) as [Hlen|]; [|done].
  destruct (decide (length X - n_test_of (length X) = 0)) as [|Hne]; [done|].
  pose proof (Hperm rs e (length X)) as Hp.
  pose proof (Permutation_length Hp) as Hpl. rewrite length_seq in Hpl.
  pose proof (n_test_of_le (length X)) as Hle.
  set (perm := permutation rs e (length X)) in *.
  rewrite (take_ge (drop _ perm)) in Hs by (rewrite length_drop; lia).
  destruct (safe_indexing X (drop _ perm)) as [Xtr'|] eqn:H1; [|done].
  destruct (safe_indexing X (take _ perm)) as [Xte'|] eqn:H2; [|done].
  destruct (safe_indexing y (drop _ perm)) as [ytr'|] eqn:H3; [|done].
  destruct (safe_indexing y (take _ perm)) as [yte'|] eqn:H4; [|done].
  simpl in Hs. injection Hs as -> -> -> ->.
  exists (drop (n_test_of (length X)) perm), (take (n_test_of (length X)) perm).
  rewrite take_drop, length_take, length_drop.
  repeat split; try done; lia.
Qed.

End SplitFacts.

Lemma train_test_split_parts {entropy} `{NumpyRandom entropy} {A B}
    (X : list A) (y : list B) rs e Xtr Xte ytr yte :
  train_test_split X y rs e = Some (Xtr, Xte, ytr, yte) →
  ∃ ind_train ind_test,
    safe_indexing X ind_train = Some Xtr ∧
    safe_indexing X ind_test = Some Xte ∧
    safe_indexing y ind_train = Some ytr ∧
    safe_indexing y ind_test = Some yte.
Proof.
  unfold train_test_split. intros Hs.
  destruct (decide _); [|done]. destruct (decide _); [done|].
  repeat match type of Hs with
  | context [safe_indexing ?a ?i] =>
      destruct (safe_indexing a i) eqn:?; [|done]
  end.
  simpl in Hs. injection Hs as <- <- <- <-. eauto 10.
Qed.

Lemma split_cell_inv {entropy} `{NumpyRandom entropy}
    (data : Pd.DataFrame) e Xtr Xte ytr yte :
  split_cell data e = Some (Xtr, Xte, ytr, yte) →
  ∃ X y, Pd.col_str "processed_name" data = Some X ∧
         Pd.col "Ethnicity" data = Some y ∧
         train_test_split X y (Some 42%Z) e = Some (Xtr, Xte, ytr, yte).
Proof.
  unfold split_cell. intros Hs.
  destruct (Pd.col_str _ data) as [X|]; [|done].
  destruct (Pd.col _ data) as [y|]; [|done]. eauto.
Qed.

(** ** Bag-of-words vectors *)

Section VectorizerFacts.
Context `{TextAnalyzer}.

Lemma length_count_row v doc :
  length (CountVectorizer.count_row v doc)
  = length (CountVectorizer.vocabulary_ v).
Proof. unfold CountVectorizer.count_row. by rewrite length_map. Qed.

Lemma lookup_count_row v doc j term :
  CountVectorizer.vocabulary_ v !! j = Some term →
  CountVectorizer.count_row v doc !! j
  = Some (length (filter (λ token, token = term) (analyzer doc))).
Proof.
  intros Hj. unfold CountVectorizer.count_row.
  change (map ?f ?l) with (f <$> l). rewrite list_lookup_fmap, Hj. done.
Qed.

Lemma elem_of_vocabulary docs term :
  term ∈ CountVectorizer.vocabulary_ (CountVectorizer.fit docs) ↔
  ∃ doc, doc ∈ docs ∧ term ∈ analyzer doc.
Proof.
  unfold CountVectorizer.fit. simpl.
  rewrite merge_sort_Permutation, elem_of_remove_dups.
  rewrite list_elem_of_In, in_concat. split.
  - intros (tokens & (doc & -> & Hd)%list_elem_of_In%list_elem_of_fmap
            & Ht%list_elem_of_In). eauto.
  - intros (doc & Hd & Ht). exists (analyzer doc).
    rewrite <- !list_elem_of_In. split; [|done].
    apply list_elem_of_fmap. eauto.
Qed.

Lemma NoDup_vocabulary docs :
  NoDup (CountVectorizer.vocabulary_ (CountVectorizer.fit docs)).
Proof.
  unfold CountVectorizer.fit. simpl.
  rewrite merge_sort_Permutation. apply NoDup_remove_dups.
Qed.

Lemma Sorted_vocabulary docs :
  Sorted String.le (CountVectorizer.vocabulary_ (CountVectorizer.fit docs)).
Proof. unfold CountVectorizer.fit. simpl. apply (Sorted_merge_sort _). Qed.

(** The counts of distinct terms add up to the number of tokens that are
    among the terms. *)
Lemma sum_counts (terms tokens : list string) :
  NoDup terms →
  sum_list (map (λ term, length (filter (λ token, token = term) tokens)) terms)
  = length (filter (λ token, token ∈ terms) tokens).
Proof.
  intros Hnd. induction tokens as [|token tokens IH].
  - simpl. induction terms as [|t terms IHt]; [done|].
    simpl. apply IHt. by apply NoDup_cons in Hnd as [_ ?].
  - rewrite filter_cons. destruct (decide (token ∈ terms)) as [Hin|Hin].
    + simpl. rewrite <- IH. clear IH.
      induction Hnd as [|t terms Ht Hnd IHt]; [by apply elem_of_nil in Hin|].
      simpl. rewrite filter_cons.
      apply elem_of_cons in Hin as [->|Hin].
      * rewrite decide_True by done. simpl. f_equal. f_equal.
        apply (f_equal sum_list). apply map_ext_in. intros t' Ht'%list_elem_of_In.
        rewrite filter_cons. rewrite decide_False; [done|]. by intros ->.
      * destruct (decide (token = t)) as [->|Hne]; [done|].
        specialize (IHt Hin). lia.
    + rewrite <- IH. apply (f_equal sum_list). apply map_ext_in.
      intros t Ht%list_elem_of_In. rewrite filter_cons.
      rewrite decide_False; [done|]. by intros ->.
Qed.

Lemma sum_count_row v doc :
  NoDup (CountVectorizer.vocabulary_ v) →
  sum_list (CountVectorizer.count_row v doc)
  = length (filter (λ token, token ∈ CountVectorizer.vocabulary_ v) (analyzer doc)).
Proof. apply sum_counts. Qed.

Lemma fit_transform_inv docs v X :
  CountVectorizer.fit_transform docs = Some (v, X) →
  v = CountVectorizer.fit docs ∧ X = CountVectorizer.transform v docs.
Proof.
  unfold CountVectorizer.fit_transform. destruct (decide _); [done|].
  by intros [= <- <-].
Qed.

End VectorizerFacts.

(** ** The timestamp *)










(** ** The kernel *)

Section KernelFacts.
Context {R : Type}.
Implicit Types k : kernel R.

Lemma bind_inv {A B} (m : Cell R A) (f : A → Cell R B) k r :
  (m ≫= f) k = Some r → ∃ x k', m k = Some (x, k') ∧ f x k' = Some r.
Proof.
  unfold mbind, cell_bind. destruct (m k) as [[x k']|]; [|done]. eauto.
Qed.

Lemma ret_inv {A} (x y : A) k k' :
  (mret x : Cell R A) k = Some (y, k') → y = x ∧ k' = k.
Proof. unfold mret, cell_ret. intros [= -> ->]. done. Qed.

Lemma try_inv {A} (o : option A) x k k' :
  Np.try o k = Some (x, k') → o = Some x ∧ k' = k.
Proof. unfold Np.try. destruct o; [|done]. by intros [= -> ->]. Qed.

Lemma array_inv a l k k' :
  Np.array a k = Some (l, k') →
  (l ∉ dom (arrays k)) ∧ arrays k' = <[l := a]> (arrays k) ∧
  displayed k' = displayed k ∧ files k' = files k.
Proof.
  unfold Np.array. intros [= <- <-]. simpl. split; [apply is_fresh|done].
Qed.

Lemma get_inv l a k k' :
  Np.get l k = Some (a, k') → arrays k !! l = Some a ∧ k' = k.
Proof. unfold Np.get. destruct (arrays k !! l); [|done]. by intros [= -> ->]. Qed.

Lemma setmask_inv l mask v u k k' :
  Np.setmask l mask v k = Some (u, k') →
  ∃ a, arrays k !! l = Some a ∧ length mask = length a ∧
       arrays k' = <[l := Np.mask_assign a mask v]> (arrays k) ∧
       displayed k' = displayed k ∧ files k' = files k.
Proof.
  unfold Np.setmask. destruct (arrays k !! l) as [a|]; [|done].
  destruct (decide _); [|done]. intros [= <- <-]. simpl. eauto 10.
Qed.

Lemma display_inv o u k k' :
  Np.display o k = Some (u, k') →
  arrays k' = arrays k ∧ displayed k' = displayed k ++ [o] ∧ files k' = files k.
Proof. unfold Np.display. by intros [= <- <-]. Qed.

Lemma to_excel_inv df path u k k' :
  Np.to_excel df path k = Some (u, k') →
  arrays k' = arrays k ∧ displayed k' = displayed k ∧
  files k' = files k ++ [(path, df)].
Proof. unfold Np.to_excel. by intros [= <- <-]. Qed.

End KernelFacts.

(** Symbolic execution of a cell that returned. *)
Ltac cell_inv :=
  repeat match goal with
  | x : (_ * _)%type |- _ => destruct x; simpl in *
  | x : unit |- _ => destruct x
  | H : (_ ≫= _) _ = Some _ |- _ =>
      let H' := fresh H in
      apply bind_inv in H as (? & ? & H' & H)
  | H : mret _ _ = Some _ |- _ => apply ret_inv in H as [? ?]; simplify_eq
  | H : Np.try _ _ = Some _ |- _ => apply try_inv in H as [H ?]; simplify_eq
  | H : Np.get _ _ = Some _ |- _ => apply get_inv in H as [H ?]; simplify_eq
  | H : Np.array _ _ = Some _ |- _ => apply array_inv in H as (? & ? & ? & ?)
  | H : Np.display _ _ = Some _ |- _ => apply display_inv in H as (? & ? & ?)
  | H : Np.to_excel _ _ _ = Some _ |- _ => apply to_excel_inv in H as (? & ? & ?)
  | H : Np.setmask _ _ _ _ = Some _ |- _ =>
      apply setmask_inv in H as (? & ? & ? & ? & ? & ?)
  end.


(** Rewriting with what is known of the intermediate kernels. *)
Ltac kernel_rw :=
  repeat match goal with
  | H : arrays ?k = _ |- _ => is_var k; rewrite ?H in *; clear H
  | H : displayed ?k = _ |- _ => is_var k; rewrite ?H in *; clear H
  | H : files ?k = _ |- _ => is_var k; rewrite ?H in *; clear H
  end.

Lemma not_elem_of_dom_insert {V} (m : gmap nat V) l l' v :
  l ∉ dom (<[l' := v]> m) → l ≠ l' ∧ l ∉ dom m.
Proof. rewrite dom_insert_L. set_solver. Qed.

(** ** The cells *)

Section CellFacts.
Context {entropy : Type}.
Context `{PyText} `{Nltk} `{TextAnalyzer} `{NumpyRandom entropy} `{Metrics}.
Variable MultinomialNB : Estimator.
Variables RandomForestClassifier SVC : SeededEstimator entropy.
Implicit Types k : kernel report.

Lemma evaluate_inv model X_test y_test l acc k k' :
  evaluate model X_test y_test l k = Some (acc, k') →
  ∃ p, arrays k !! l = Some p ∧ Sk.accuracy_score y_test p = Some acc ∧
    arrays k' = arrays k ∧ files k' = files k ∧
    displayed k' = displayed k ++
      [Accuracy model acc; Report model (classification_report y_test p);
       ResultsTable model X_test y_test p].
Proof.
  unfold evaluate. intros Hrun. cell_inv. kernel_rw. simplify_eq.
  eexists. repeat split; try done. by rewrite <- !app_assoc.
Qed.

Lemma naive_bayes_cell_inv Xtr Xte X_test y_train y_test clf l acc k k' :
  naive_bayes_cell MultinomialNB Xtr Xte X_test y_train y_test k
    = Some (clf, l, acc, k') →
  let p := predict MultinomialNB clf Xte in
  fit MultinomialNB Xtr y_train = Some clf ∧
  (l ∉ dom (arrays k)) ∧ arrays k' = <[l := p]> (arrays k) ∧
  files k' = files k ∧ Sk.accuracy_score y_test p = Some acc ∧
  displayed k' = displayed k ++
    [Accuracy "Naive Bayes" acc;
     Report "Naive Bayes" (classification_report y_test p);
     ResultsTable "Naive Bayes" X_test y_test p].
Proof.
  unfold naive_bayes_cell. intros Hrun. cell_inv.
  apply evaluate_inv in Hrun2 as (p & Hp & Hacc & ? & ? & ?).
  kernel_rw. rewrite lookup_insert_eq in Hp. simplify_eq. done.
Qed.

Lemma random_forest_cell_inv e Xtr Xte X_test y_train y_test clf l acc k k' :
  random_forest_cell RandomForestClassifier e Xtr Xte X_test y_train y_test k
    = Some (clf, l, acc, k') →
  let p := spredict RandomForestClassifier clf Xte in
  sfit RandomForestClassifier (Some 42%Z) e Xtr y_train = Some clf ∧
  (l ∉ dom (arrays k)) ∧ arrays k' = <[l := p]> (arrays k) ∧
  files k' = files k ∧ Sk.accuracy_score y_test p = Some acc ∧
  displayed k' = displayed k ++
    [Accuracy "Random Forest" acc;
     Report "Random Forest" (classification_report y_test p);
     ResultsTable "Random Forest" X_test y_test p].
Proof.
  unfold random_forest_cell. intros Hrun. cell_inv.
  apply evaluate_inv in Hrun2 as (p & Hp & Hacc & ? & ? & ?).
  kernel_rw. rewrite lookup_insert_eq in Hp. simplify_eq. done.
Qed.

Lemma svm_cell_inv e Xtr Xte X_test y_train y_test clf l acc k k' :
  svm_cell SVC e Xtr Xte X_test y_train y_test k = Some (clf, l, acc, k') →
  let p := spredict SVC clf Xte in
  sfit SVC (Some 42%Z) e Xtr y_train = Some clf ∧
  (l ∉ dom (arrays k)) ∧ arrays k' = <[l := p]> (arrays k) ∧
  files k' = files k ∧ Sk.accuracy_score y_test p = Some acc ∧
  displayed k' = displayed k ++
    [Accuracy "SVM" acc;
     Report "SVM" (classification_report y_test p);
     ResultsTable "SVM" X_test y_test p].
Proof.
  unfold svm_cell. intros Hrun. cell_inv.
  apply evaluate_inv in Hrun2 as (p & Hp & Hacc & ? & ? & ?).
  kernel_rw. rewrite lookup_insert_eq in Hp. simplify_eq. done.
Qed.

Lemma summary_cells_inv data y_test a1 a2 a3 l1 l2 l3 u k k' :
  summary_cells data y_test a1 a2 a3 l1 l2 l3 k = Some (u, k') →
  ∃ p1 p2 p3 ethnicity,
    arrays k !! l1 = Some p1 ∧ arrays k !! l2 = Some p2 ∧
    arrays k !! l3 = Some p3 ∧ Pd.col "Ethnicity" data = Some ethnicity ∧
    arrays k' = arrays k ∧ files k' = files k ∧
    displayed k' = displayed k ++
      [AccuracyTable [("Naive Bayes", a1); ("Random Forest", a2); ("SVM", a3)];
       PrettyTable "Naive Bayes" (classification_report y_test p1);
       PrettyTable "Random Forest" (classification_report y_test p2);
       PrettyTable "SVM" (classification_report y_test p3);
       ConfusionMatrix "Naive Bayes" (Pd.unique ethnicity)
         (Sk.confusion_matrix y_test p1 (Pd.unique ethnicity));
       ConfusionMatrix "Random Forest" (Pd.unique ethnicity)
         (Sk.confusion_matrix y_test p2 (Pd.unique ethnicity));
       ConfusionMatrix "SVM" (Pd.unique ethnicity)
         (Sk.confusion_matrix y_test p3 (Pd.unique ethnicity))].
Proof.
  unfold summary_cells. intros Hrun. cell_inv. kernel_rw.
  destruct (Pd.col "Ethnicity" data) as [ethnicity|] eqn:He; simplify_eq/=.
  do 3 eexists. exists ethnicity.
  split_and!; [eassumption|eassumption|eassumption|done|done|done|].
  by rewrite <- !app_assoc.
Qed.



Lemma length_mask_assign a mask v :
  length mask = length a → length (Np.mask_assign a mask v) = length a.
Proof. intros Hl. unfold Np.mask_assign. by rewrite length_zip_with_l_eq. Qed.

Lemma length_eq_mask s case : length (eq_mask s case) = length s.
Proof. unfold eq_mask. by rewrite length_map. Qed.

Lemma exceptional_cell_inv nd l1 l2 l3 u k k' :
  exceptional_cell nd l1 l2 l3 k = Some (u, k') →
  l1 ≠ l2 → l1 ≠ l3 → l2 ≠ l3 →
  ∃ s a1 a2 a3,
    Pd.col "processed_name" nd = Some s ∧
    arrays k !! l1 = Some a1 ∧ arrays k !! l2 = Some a2 ∧
    arrays k !! l3 = Some a3 ∧
    length a1 = length s ∧ length a2 = length s ∧ length a3 = length s ∧
    arrays k' !! l1 = Some (others s a1) ∧
    arrays k' !! l2 = Some (others s a2) ∧
    arrays k' !! l3 = Some (others s a3) ∧
    (∀ l, l ≠ l1 → l ≠ l2 → l ≠ l3 → arrays k' !! l = arrays k !! l) ∧
    displayed k' = displayed k ∧ files k' = files k.
Proof.
  unfold exceptional_cell, exceptional_cases, assign_others. simpl.
  intros Hrun Hn12 Hn13 Hn23. cell_inv. kernel_rw.
  simplify_map_eq.
  rewrite length_eq_mask in *.
  do 4 eexists. split_and!; try done.
  intros l ? ? ?. by simplify_map_eq.
Qed.

Lemma add_predictions_cell_inv nd l1 l2 l3 df k k' :
  add_predictions_cell nd l1 l2 l3 k = Some (df, k') →
  ∃ a1 a2 a3,
    arrays k !! l1 = Some a1 ∧ arrays k !! l2 = Some a2 ∧
    arrays k !! l3 = Some a3 ∧
    length a1 = length nd ∧ length a2 = length nd ∧ length a3 = length nd ∧
    df = zip_with (λ (r : Pd.row) v, <["Predicted_Ethnicity_SVM" := v]> r)
           (zip_with (λ (r : Pd.row) v, <["Predicted_Ethnicity_RF" := v]> r)
              (zip_with (λ (r : Pd.row) v, <["Predicted_Ethnicity_NB" := v]> r)
                 nd a1) a2) a3 ∧
    k' = k.
Proof.
  unfold add_predictions_cell. intros Hrun. cell_inv.
  repeat match goal with
  | H : Pd.set_col _ _ _ = Some _ |- _ => apply set_col_Some in H as [? ?]
  end. subst.
  rewrite ?length_zip_with_l_eq in * by congruence.
  do 3 eexists. split_and!; try done.
Qed.

Lemma datetime_cell_inv now s k k' :
  datetime_cell now k = Some (s, k') →
  s = Datetime.strftime "%d%m%Y_%H%M%S%p" now ∧
  arrays k' = arrays k ∧ files k' = files k ∧
  displayed k' = displayed k ++ [Printed s].
Proof.
  unfold datetime_cell. intros Hrun. cell_inv. kernel_rw. done.
Qed.

Lemma predict_new_cell_inv vec clf rfc svc nd l1 l2 l3 k k' :
  predict_new_cell MultinomialNB RandomForestClassifier SVC vec clf rfc svc nd k
    = Some (l1, l2, l3, k') →
  ∃ processed,
    Pd.col_str "processed_name" nd = Some processed ∧
    let X := CountVectorizer.transform vec processed in
    (l1 ∉ dom (arrays k)) ∧ (l2 ∉ dom (arrays k)) ∧ (l3 ∉ dom (arrays k)) ∧
    l1 ≠ l2 ∧ l1 ≠ l3 ∧ l2 ≠ l3 ∧
    arrays k' =
      <[l3 := spredict SVC svc X]>
        (<[l2 := spredict RandomForestClassifier rfc X]>
           (<[l1 := predict MultinomialNB clf X]> (arrays k))) ∧
    displayed k' = displayed k ∧ files k' = files k.
Proof.
  unfold predict_new_cell. intros Hrun. cell_inv. kernel_rw.
  repeat match goal with
  | H : _ ∉ dom (<[_ := _]> _) |- _ =>
      apply not_elem_of_dom_insert in H as [? ?]
  end.
  eexists. split; [done|]. simpl. split_and!; done.
Qed.

End CellFacts.

Section Shapes.
Context `{PyText} `{Nltk}.

Lemma add_processed_name_inv c (df df' : Pd.DataFrame) :
  add_processed_name c df = Some df' →
  ∃ names, Pd.col_str c df = Some names ∧
    df' = zip_with (λ (r : Pd.row) s,
            <["processed_name" := Py.Str (preprocess_text s)]> r) df names.
Proof.
  unfold add_processed_name. intros Hrun.
  destruct (Pd.col_str c df) as [names|]; [|done]. simpl in Hrun.
  apply set_col_Some in Hrun as [_ ->]. exists names. split; [done|].
  rewrite <- list_fmap_compose. by rewrite zip_with_fmap_r.
Qed.


Lemma prepare_new_data_inv (nd0 nd : Pd.DataFrame) :
  prepare_new_data nd0 = Some nd →
  ∃ names, Pd.col "shipping_firstname" nd0 = Some names ∧
    nd = prepared_row <$> zip nd0 names.
Proof.
  unfold prepare_new_data, add_processed_name. intros Hrun.
  destruct (Pd.col "shipping_firstname" nd0) as [names|] eqn:Hn; [|done].
  pose proof (col_length _ _ _ Hn) as Hlen.
  simpl in Hrun.
  destruct (Pd.set_col _ _ nd0) as [nd1|] eqn:H1; [|done].
  apply set_col_Some in H1 as [_ ->]. simpl in Hrun.
  unfold Pd.astype_str in Hrun.
  assert (zip_with (λ (r : Pd.row) v, <["shipping_firstname" := v]> r) nd0
            (map (λ v, Py.Str (Py.str v)) names) =
          (λ p : Pd.row * Py.value,
             <["shipping_firstname" := Py.Str (Py.str p.2)]> p.1) <$> zip nd0 names)
    as Heq.
  { rewrite <- (fst_zip nd0 names) at 1 by lia.
    rewrite <- (snd_zip nd0 names) at 2 by lia.
    change (map ?f ?l) with (f <$> l). rewrite <- list_fmap_compose.
    by rewrite zip_with_fmap_same. }
  rewrite Heq in Hrun.
  rewrite (col_str_fmap_insert _ fst (λ p, Py.str p.2)) in Hrun. simpl in Hrun.
  apply set_col_Some in Hrun as [_ ->]. exists names. split; [done|].
  change (map ?f ?l) with (f <$> l).
  rewrite <- !list_fmap_compose. by rewrite zip_with_fmap_same.
Qed.

End Shapes.

Lemma others_fmap {A} (P : A → string) (G : A → Py.value) (l : list A) :
  others ((λ x, Py.Str (P x)) <$> l) (G <$> l) =
  (λ x, substituted (P x) (G x)) <$> l.
Proof.
  unfold others, eq_mask. change (map ?f ?l) with (f <$> l).
  rewrite <- !list_fmap_compose. rewrite !mask_assign_fmap.
  apply list_fmap_ext. intros _ x _. simpl.
  unfold substituted, exceptional_cases.
  destruct (decide (P x = "")) as [->|Hne1].
  { rewrite bool_decide_eq_true_2 by done. rewrite decide_True; [done|].
    right. by left. }
  rewrite (bool_decide_eq_false_2 (Py.Str (P x) = Py.Str "")) by congruence.
  destruct (decide (P x = "nan")) as [->|Hne2].
  { rewrite bool_decide_eq_true_2 by done. rewrite decide_True; [done|].
    by left. }
  rewrite bool_decide_eq_false_2 by congruence.
  rewrite decide_False; [done|].
  intros [?|[?|[]%elem_of_nil]%elem_of_cons]%elem_of_cons; done.
Qed.


Lemma substituted_other processed raw :
  processed ≠ "nan" → processed ≠ "" → substituted processed raw = raw.
Proof.
  intros H1 H2. unfold substituted, exceptional_cases.
  rewrite decide_False; [done|].
  intros [?|[?|[]%elem_of_nil]%elem_of_cons]%elem_of_cons; done.
Qed.

Lemma substituted_four processed raw :
  raw ∈ four_classes → substituted processed raw ∈ four_classes.
Proof.
  intros Hraw. unfold substituted. destruct (decide _); [|done].
  unfold four_classes. do 3 right. by left.
Qed.

(** ** The written rows *)

Section PreparedRows.
Context `{PyText} `{Nltk}.

Lemma col_str_prepared (l : list (Pd.row * Py.value)) :
  Pd.col_str "processed_name" (prepared_row <$> l)
  = Some ((λ p, preprocess_text (Py.str p.2)) <$> l).
Proof.
  apply (col_str_fmap_insert "processed_name"
           (λ p, <["shipping_firstname" := Py.Str (Py.str p.2)]> p.1)
           (λ p, preprocess_text (Py.str p.2))).
Qed.

Lemma col_prepared (l : list (Pd.row * Py.value)) :
  Pd.col "processed_name" (prepared_row <$> l)
  = Some ((λ p, Py.Str (preprocess_text (Py.str p.2))) <$> l).
Proof.
  apply (col_fmap_insert "processed_name"
           (λ p, <["shipping_firstname" := Py.Str (Py.str p.2)]> p.1)
           (λ p, Py.Str (preprocess_text (Py.str p.2)))).
Qed.

End PreparedRows.

Section EmittedRows.
Context {entropy : Type}.
Context `{PyText} `{Nltk} `{TextAnalyzer}.
Variable MultinomialNB : Estimator.
Variables RandomForestClassifier SVC : SeededEstimator entropy.
Variable vec : CountVectorizer.t.
Variable clf : fitted MultinomialNB.
Variable rfc : sfitted RandomForestClassifier.
Variable svc : sfitted SVC.

Local Abbreviation emit :=
  (emitted_row MultinomialNB RandomForestClassifier SVC vec clf rfc svc).

Lemma emitted_row_lookup (r0 : Pd.row) (name : Py.value) :
  let r := emit (r0, name) in
  let processed := preprocess_text (Py.str name) in
  let x := CountVectorizer.count_row vec processed in
  r !! "shipping_firstname" = Some (Py.Str (Py.str name)) ∧
  r !! "processed_name" = Some (Py.Str processed) ∧
  r !! "Predicted_Ethnicity_NB"
    = Some (substituted processed (predict_row MultinomialNB clf x)) ∧
  r !! "Predicted_Ethnicity_RF"
    = Some (substituted processed (spredict_row RandomForestClassifier rfc x)) ∧
  r !! "Predicted_Ethnicity_SVM"
    = Some (substituted processed (spredict_row SVC svc x)) ∧
  ∀ c, c ∉ touched_columns → r !! c = r0 !! c.
Proof.
  unfold emitted_row, prepared_row. simpl. split_and!.
  - by rewrite !lookup_insert_ne, lookup_insert_eq by done.
  - by rewrite !lookup_insert_ne, lookup_insert_eq by done.
  - by rewrite !lookup_insert_ne, lookup_insert_eq by done.
  - by rewrite !lookup_insert_ne, lookup_insert_eq by done.
  - by rewrite lookup_insert_eq.
  - intros c Hc. unfold touched_columns in Hc.
    rewrite !lookup_insert_ne; [done|..]; intros <-; apply Hc;
      repeat ((by left) || right).
Qed.

(** The written rows stand in order against the rows read. *)
Lemma emitted_rows_Forall2 (new_data0 : Pd.DataFrame) names :
  Pd.col "shipping_firstname" new_data0 = Some names →
  Forall2 (λ r0 r : Pd.row, ∃ name,
             r0 !! "shipping_firstname" = Some name ∧ r = emit (r0, name))
    new_data0 (emit <$> zip new_data0 names).
Proof.
  intros HF%col_Some. induction HF as [|r0 name df names Hr HF IH]; csimpl.
  - constructor.
  - constructor; [|done]. eauto.
Qed.

Lemma col_emitted_nb (l : list (Pd.row * Py.value)) :
  Pd.col "Predicted_Ethnicity_NB" (emit <$> l)
  = Some ((λ p, let processed := preprocess_text (Py.str p.2) in
                substituted processed
                  (predict_row MultinomialNB clf
                     (CountVectorizer.count_row vec processed))) <$> l).
Proof.
  unfold Pd.col. apply mapM_Some_2.
  induction l as [|[r0 name] l IH]; constructor; [|done].
  apply emitted_row_lookup.
Qed.

Lemma col_emitted_rf (l : list (Pd.row * Py.value)) :
  Pd.col "Predicted_Ethnicity_RF" (emit <$> l)
  = Some ((λ p, let processed := preprocess_text (Py.str p.2) in
                substituted processed
                  (spredict_row RandomForestClassifier rfc
                     (CountVectorizer.count_row vec processed))) <$> l).
Proof.
  unfold Pd.col. apply mapM_Some_2.
  induction l as [|[r0 name] l IH]; constructor; [|done].
  apply emitted_row_lookup.
Qed.

Lemma col_emitted_svm (l : list (Pd.row * Py.value)) :
  Pd.col "Predicted_Ethnicity_SVM" (emit <$> l)
  = Some ((λ p, let processed := preprocess_text (Py.str p.2) in
                substituted processed
                  (spredict_row SVC svc
                     (CountVectorizer.count_row vec processed))) <$> l).
Proof.
  unfold Pd.col. apply mapM_Some_2.
  induction l as [|[r0 name] l IH]; constructor; [|done].
  apply emitted_row_lookup.
Qed.

End EmittedRows.

(** ** The notebook *)

#[local] Arguments Datetime.strftime : simpl never.

Ltac dom_facts :=
  repeat match goal with
  | H : _ ∉ dom (<[_ := _]> _) |- _ =>
      apply not_elem_of_dom_insert in H as [? ?]
  end.

Section NotebookFacts.
Context {entropy : Type}.
Context `{PyText} `{Nltk} `{TextAnalyzer} `{NumpyRandom entropy} `{Metrics}.
Variable MultinomialNB : Estimator.
Variables RandomForestClassifier SVC : SeededEstimator entropy.

(** What a run that returned has computed, cell by cell. *)
Lemma notebook_inv data0 new_data0 now e v k :
  notebook MultinomialNB RandomForestClassifier SVC data0 new_data0 now e
    fresh_kernel = Some (v, k) →
  ∃ cleaned X_train_vectorized names ethnicity accuracy rf_accuracy svm_accuracy,
    let X_test_vectorized :=
      CountVectorizer.transform (vectorizer v) (X_test v) in
    let p_nb := predict MultinomialNB (classifier v) X_test_vectorized in
    let p_rf := spredict RandomForestClassifier (rf_classifier v) X_test_vectorized in
    let p_svm := spredict SVC (svm_classifier v) X_test_vectorized in
    clean data0 = Some cleaned ∧
    add_processed_name "ShippingName" cleaned = Some (data v) ∧
    split_cell (data v) e = Some (X_train v, X_test v, y_train v, y_test v) ∧
    CountVectorizer.fit_transform (X_train v)
      = Some (vectorizer v, X_train_vectorized) ∧
    fit MultinomialNB X_train_vectorized (y_train v) = Some (classifier v) ∧
    sfit RandomForestClassifier (Some 42%Z) e X_train_vectorized (y_train v)
      = Some (rf_classifier v) ∧
    sfit SVC (Some 42%Z) e X_train_vectorized (y_train v)
      = Some (svm_classifier v) ∧
    NoDup [predictions v; rf_predictions v; svm_predictions v;
           new_predictions_nb v; new_predictions_rf v; new_predictions_svm v] ∧
    arrays k !! predictions v = Some p_nb ∧
    arrays k !! rf_predictions v = Some p_rf ∧
    arrays k !! svm_predictions v = Some p_svm ∧
    arrays k !! new_predictions_nb v
      = Pd.col "Predicted_Ethnicity_NB" (new_data v) ∧
    arrays k !! new_predictions_rf v
      = Pd.col "Predicted_Ethnicity_RF" (new_data v) ∧
    arrays k !! new_predictions_svm v
      = Pd.col "Predicted_Ethnicity_SVM" (new_data v) ∧
    Sk.accuracy_score (y_test v) p_nb = Some accuracy ∧
    Sk.accuracy_score (y_test v) p_rf = Some rf_accuracy ∧
    Sk.accuracy_score (y_test v) p_svm = Some svm_accuracy ∧
    Pd.col "Ethnicity" (data v) = Some ethnicity ∧
    Pd.col "shipping_firstname" new_data0 = Some names ∧
    new_data v =
      emitted_row MultinomialNB RandomForestClassifier SVC (vectorizer v)
        (classifier v) (rf_classifier v) (svm_classifier v)
      <$> zip new_data0 names ∧
    current_datetime v = Datetime.strftime "%d%m%Y_%H%M%S%p" now ∧
    displayed k =
      Baseline (Z.of_nat (value_counts_max (y_test v))
                # Pos.of_nat (length (y_test v)))
      :: evaluation_display "Naive Bayes" (X_test v) (y_test v) p_nb accuracy
      ++ evaluation_display "Random Forest" (X_test v) (y_test v) p_rf rf_accuracy
      ++ evaluation_display "SVM" (X_test v) (y_test v) p_svm svm_accuracy
      ++ summary_display ethnicity (y_test v) p_nb p_rf p_svm
           accuracy rf_accuracy svm_accuracy
      ++ [Printed (current_datetime v)] ∧
    files k = [(export_path (current_datetime v), new_data v)].
Proof.
  unfold notebook, baseline_cell. intros Hrun. cell_inv.
  repeat match goal with
  | H : naive_bayes_cell _ _ _ _ _ _ _ = Some _ |- _ =>
      apply naive_bayes_cell_inv in H as (? & ? & ? & ? & ? & ?)
  | H : random_forest_cell _ _ _ _ _ _ _ _ = Some _ |- _ =>
      apply random_forest_cell_inv in H as (? & ? & ? & ? & ? & ?)
  | H : svm_cell _ _ _ _ _ _ _ _ = Some _ |- _ =>
      apply svm_cell_inv in H as (? & ? & ? & ? & ? & ?)
  | H : summary_cells _ _ _ _ _ _ _ _ _ = Some _ |- _ =>
      apply summary_cells_inv in H
        as (? & ? & ? & ethnicity & ? & ? & ? & ? & ? & ? & ?)
  | H : prepare_new_data _ = Some _ |- _ =>
      apply prepare_new_data_inv in H as (names & ? & ->)
  | H : predict_new_cell _ _ _ _ _ _ _ _ _ = Some _ |- _ =>
      apply predict_new_cell_inv in H
        as (processed & ? & ? & ? & ? & ? & ? & ? & ? & ? & ?)
  | H : datetime_cell _ _ = Some _ |- _ =>
      apply datetime_cell_inv in H as (-> & ? & ? & ?)
  | H : vectorize_cell _ _ = Some _ |- _ =>
      unfold vectorize_cell in H;
      destruct (CountVectorizer.fit_transform _) as [[? ?]|] eqn:?;
      simplify_eq
  end.
  match goal with
  | H : exceptional_cell _ _ _ _ _ = Some _ |- _ => rename H into Hex
  end.
  apply exceptional_cell_inv in Hex
        as (pcol & a1 & a2 & a3 & Hs & Ha1 & Ha2 & Ha3 & ? & ? & ? &
            Hb1 & Hb2 & Hb3 & Hframe & ? & ?); [|done..].
  match goal with
  | H : add_predictions_cell _ _ _ _ _ = Some _ |- _ =>
      apply add_predictions_cell_inv in H
        as (b1 & b2 & b3 & Hc1 & Hc2 & Hc3 & ? & ? & ? & -> & ->)
  end.
  rewrite col_str_prepared in *. rewrite col_prepared in *.
  kernel_rw. dom_facts. simplify_map_eq.
  rewrite !Hframe by done. simplify_map_eq.
  unfold predict, spredict, CountVectorizer.transform in *.
  rewrite <- !list_fmap_compose in *. rewrite !others_fmap in *.
  rewrite !zip_with_fmap_same.
  do 7 eexists. simpl. split_and!; try done.
  - repeat (apply NoDup_cons; split;
      [intros Hin; repeat (apply elem_of_cons in Hin as [?|Hin]); try done;
       by apply elem_of_nil in Hin|]).
    apply NoDup_nil_2.
  - symmetry. apply (col_emitted_nb MultinomialNB RandomForestClassifier SVC).
  - symmetry. apply (col_emitted_rf MultinomialNB RandomForestClassifier SVC).
  - symmetry. apply (col_emitted_svm MultinomialNB RandomForestClassifier SVC).
Qed.

End NotebookFacts.

(** ** Runs that differ in the clock and the entropy *)

Section Congruence.
Context {R : Type}.

Lemma bind_ext {A B} (m : Cell R A) (f1 f2 : A → Cell R B) (k : kernel R) :
  (∀ x k', f1 x k' = f2 x k') → (m ≫= f1) k = (m ≫= f2) k.
Proof.
  intros Hf. unfold mbind, cell_bind. destruct (m k) as [[x k']|]; eauto.
Qed.

Lemma fmap_bind_ext {A B C} (g : B * kernel R → C) (m : Cell R A)
    (f1 f2 : A → Cell R B) (k : kernel R) :
  (∀ x k', g <$> f1 x k' = g <$> f2 x k') →
  g <$> (m ≫= f1) k = g <$> (m ≫= f2) k.
Proof.
  intros Hf. unfold mbind, cell_bind. destruct (m k) as [[x k']|]; eauto.
Qed.

End Congruence.

Section Seeded.
Context {entropy : Type}.
Context `{PyText} `{Nltk} `{TextAnalyzer} `{NumpyRandom entropy} `{Metrics}.
Variable MultinomialNB : Estimator.
Variables RandomForestClassifier SVC : SeededEstimator entropy.
Hypothesis Hperm : seeded_permutation.
Hypothesis Hrf : seeded_fit RandomForestClassifier.
Hypothesis Hsvm : seeded_fit SVC.

Lemma train_test_split_seeded {A B} (X : list A) (y : list B) s e1 e2 :
  train_test_split X y (Some s) e1 = train_test_split X y (Some s) e2.
Proof. unfold train_test_split. by rewrite (Hperm s e1 e2). Qed.

Lemma split_cell_seeded data e1 e2 : split_cell data e1 = split_cell data e2.
Proof.
  unfold split_cell. destruct (Pd.col_str _ data); [|done]. simpl.
  destruct (Pd.col _ data); [|done]. simpl. apply train_test_split_seeded.
Qed.

Lemma random_forest_cell_seeded e1 e2 Xtr Xte X_test y_train y_test :
  random_forest_cell RandomForestClassifier e1 Xtr Xte X_test y_train y_test
  = random_forest_cell RandomForestClassifier e2 Xtr Xte X_test y_train y_test.
Proof. unfold random_forest_cell. by rewrite (Hrf _ e1 e2). Qed.

Lemma svm_cell_seeded e1 e2 Xtr Xte X_test y_train y_test :
  svm_cell SVC e1 Xtr Xte X_test y_train y_test
  = svm_cell SVC e2 Xtr Xte X_test y_train y_test.
Proof. unfold svm_cell. by rewrite (Hsvm _ e1 e2). Qed.

Lemma notebook_entropy data0 new_data0 now e1 e2 k :
  notebook MultinomialNB RandomForestClassifier SVC data0 new_data0 now e1 k
  = notebook MultinomialNB RandomForestClassifier SVC data0 new_data0 now e2 k.
Proof.
  unfold notebook.
  do 2 (apply bind_ext; intros ? ?).
  rewrite (split_cell_seeded _ e1 e2).
  apply bind_ext; intros [[[? ?] ?] ?] ?; cbv beta iota.
  apply bind_ext; intros ? ?.
  apply bind_ext; intros [[? ?] ?] ?; cbv beta iota.
  apply bind_ext; intros [[? ?] ?] ?; cbv beta iota.
  rewrite (random_forest_cell_seeded e1 e2).
  apply bind_ext; intros [[? ?] ?] ?; cbv beta iota.
  rewrite (svm_cell_seeded e1 e2).
  done.
Qed.

Lemma notebook_clock data0 new_data0 now1 now2 e k :
  outcome MultinomialNB RandomForestClassifier SVC
    <$> notebook MultinomialNB RandomForestClassifier SVC data0 new_data0 now1 e k
  = outcome MultinomialNB RandomForestClassifier SVC
    <$> notebook MultinomialNB RandomForestClassifier SVC data0 new_data0 now2 e k.
Proof.
  unfold notebook.
  do 2 (apply fmap_bind_ext; intros ? ?).
  apply fmap_bind_ext; intros [[[? ?] ?] ?] ?; cbv beta iota.
  apply fmap_bind_ext; intros ? ?.
  do 4 (apply fmap_bind_ext; intros [[? ?] ?] ?; cbv beta iota).
  do 2 (apply fmap_bind_ext; intros ? ?).
  apply fmap_bind_ext; intros [[? ?] ?] ?; cbv beta iota.
  do 2 (apply fmap_bind_ext; intros ? ?).
  unfold datetime_cell, Np.display, Np.to_excel, mbind, cell_bind, mret,
    cell_ret, outcome.
  simpl. by rewrite !filter_app, !fmap_app.
Qed.

End Seeded.

(** ** Properties of a run *)

(** Replaces the hypothesis that a run returned by what it computed. *)
Ltac notebook_facts Hrun :=
  apply notebook_inv in Hrun
    as (cleaned & X_train_vectorized & names & ethnicity &
        accuracy & rf_accuracy & svm_accuracy & Hrun);
  simpl in Hrun;
  destruct Hrun
    as (Hclean & Hadd & Hsplit & Hvec & Hfit_nb & Hfit_rf & Hfit_svm &
        Hlocs & Harr_nb & Harr_rf & Harr_svm & Hnew_nb & Hnew_rf & Hnew_svm &
        Hacc_nb & Hacc_rf & Hacc_svm & Heth & Hnames & Hnew & Hdt &
        Hdisp & Hfiles).

Section NotebookClaims.
Context {entropy : Type}.
Context `{PyText} `{Nltk} `{TextAnalyzer} `{NumpyRandom entropy} `{Metrics}.
Variable MultinomialNB : Estimator.
Variables RandomForestClassifier SVC : SeededEstimator entropy.

Local Abbreviation run :=
  (notebook MultinomialNB RandomForestClassifier SVC).



(** C9. The substitution changes the new-data predictions only at rows
    whose processed name is ["nan"] or the empty string: at every other
    row the written prediction of each model is the classifier's own, the
    written columns are the final contents of the three new-data arrays,
    and the arrays of test-set predictions, from which every displayed
    metric is computed, still hold the classifiers' own predictions when
    the notebook ends. *)
Theorem substitution_touches_only_exceptional_rows data0 new_data0 now e v k :
  run data0 new_data0 now e fresh_kernel = Some (v, k) →
  let X_test_vectorized := CountVectorizer.transform (vectorizer v) (X_test v) in
  let p_nb := predict MultinomialNB (classifier v) X_test_vectorized in
  let p_rf := spredict RandomForestClassifier (rf_classifier v) X_test_vectorized in
  let p_svm := spredict SVC (svm_classifier v) X_test_vectorized in
  Forall2 (λ r0 r : Pd.row, ∃ name,
    r0 !! "shipping_firstname" = Some name ∧
    let processed := preprocess_text (Py.str name) in
    let x := CountVectorizer.count_row (vectorizer v) processed in
    (processed ≠ "nan" → processed ≠ "" →
     r !! "Predicted_Ethnicity_NB"
       = Some (predict_row MultinomialNB (classifier v) x) ∧
     r !! "Predicted_Ethnicity_RF"
       = Some (spredict_row RandomForestClassifier (rf_classifier v) x) ∧
     r !! "Predicted_Ethnicity_SVM"
       = Some (spredict_row SVC (svm_classifier v) x)))
    new_data0 (new_data v) ∧
  files k = [(export_path (current_datetime v), new_data v)] ∧
  arrays k !! new_predictions_nb v
    = Pd.col "Predicted_Ethnicity_NB" (new_data v) ∧
  arrays k !! new_predictions_rf v
    = Pd.col "Predicted_Ethnicity_RF" (new_data v) ∧
  arrays k !! new_predictions_svm v
    = Pd.col "Predicted_Ethnicity_SVM" (new_data v) ∧
  NoDup [predictions v; rf_predictions v; svm_predictions v;
         new_predictions_nb v; new_predictions_rf v; new_predictions_svm v] ∧
  arrays k !! predictions v = Some p_nb ∧
  arrays k !! rf_predictions v = Some p_rf ∧
  arrays k !! svm_predictions v = Some p_svm ∧
  ∃ ethnicity accuracy rf_accuracy svm_accuracy,
    Sk.accuracy_score (y_test v) p_nb = Some accuracy ∧
    Sk.accuracy_score (y_test v) p_rf = Some rf_accuracy ∧
    Sk.accuracy_score (y_test v) p_svm = Some svm_accuracy ∧
    displayed k =
      Baseline (Z.of_nat (value_counts_max (y_test v))
                # Pos.of_nat (length (y_test v)))
      :: evaluation_display "Naive Bayes" (X_test v) (y_test v) p_nb accuracy
      ++ evaluation_display "Random Forest" (X_test v) (y_test v) p_rf rf_accuracy
      ++ evaluation_display "SVM" (X_test v) (y_test v) p_svm svm_accuracy
      ++ summary_display ethnicity (y_test v) p_nb p_rf p_svm
           accuracy rf_accuracy svm_accuracy
      ++ [Printed (current_datetime v)].
Proof.
  intros Hrun. notebook_facts Hrun. simpl. split_and!; try done.
  - rewrite Hnew.
    eapply Forall2_impl; [by apply emitted_rows_Forall2|].
    intros r0 r (name & Hname & ->). exists name. split; [done|].
    pose proof (emitted_row_lookup MultinomialNB RandomForestClassifier SVC
      (vectorizer v) (classifier v) (rf_classifier v) (svm_classifier v) r0 name)
      as (_ & _ & Hnb & Hrf & Hsvm & _).
    simpl. intros Hn1 Hn2.
    rewrite Hnb, Hrf, Hsvm. by rewrite !substituted_other.
  - exists ethnicity, accuracy, rf_accuracy, svm_accuracy. done.
Qed.

(** C3, as the code has it.  All three trained models are applied to the
    new dataset and the predictions of each are written in its own column
    for every row, whatever accuracies the evaluation displayed: no model
    is selected by the evaluation outcome.  Each written value is that
    model's own prediction for the row, with the substitution for
    exceptional names. *)
Theorem all_three_models_emitted data0 new_data0 now e v k :
  run data0 new_data0 now e fresh_kernel = Some (v, k) →
  ∃ path df, files k = [(path, df)] ∧
    (∀ accuracies model column,
       AccuracyTable accuracies ∈ displayed k →
       (model, column) ∈ prediction_columns →
       ∀ r, r ∈ df → is_Some (r !! column)) ∧
    Forall2 (λ r0 r : Pd.row, ∃ name,
      r0 !! "shipping_firstname" = Some name ∧
      let processed := preprocess_text (Py.str name) in
      let x := CountVectorizer.count_row (vectorizer v) processed in
      r !! "Predicted_Ethnicity_NB"
        = Some (substituted processed
                  (predict_row MultinomialNB (classifier v) x)) ∧
      r !! "Predicted_Ethnicity_RF"
        = Some (substituted processed
                  (spredict_row RandomForestClassifier (rf_classifier v) x)) ∧
      r !! "Predicted_Ethnicity_SVM"
        = Some (substituted processed
                  (spredict_row SVC (svm_classifier v) x)))
      new_data0 df.
Proof.
  intros Hrun. notebook_facts Hrun.
  assert (Forall2 (λ r0 r : Pd.row, ∃ name,
      r0 !! "shipping_firstname" = Some name ∧
      let processed := preprocess_text (Py.str name) in
      let x := CountVectorizer.count_row (vectorizer v) processed in
      r !! "Predicted_Ethnicity_NB"
        = Some (substituted processed
                  (predict_row MultinomialNB (classifier v) x)) ∧
      r !! "Predicted_Ethnicity_RF"
        = Some (substituted processed
                  (spredict_row RandomForestClassifier (rf_classifier v) x)) ∧
      r !! "Predicted_Ethnicity_SVM"
        = Some (substituted processed
                  (spredict_row SVC (svm_classifier v) x)))
      new_data0 (new_data v)) as Hrows.
  { rewrite Hnew.
    eapply Forall2_impl; [by apply emitted_rows_Forall2|].
    intros r0 r (name & Hname & ->). exists name. split; [done|].
    pose proof (emitted_row_lookup MultinomialNB RandomForestClassifier SVC
      (vectorizer v) (classifier v) (rf_classifier v) (svm_classifier v) r0 name)
      as (_ & _ & Hnb & Hrf & Hsvm & _). done. }
  do 2 eexists. split; [exact Hfiles|]. split; [|exact Hrows].
  intros accuracies model column _ Hcol r Hr.
  apply list_elem_of_lookup in Hr as [i Hi].
  destruct (Forall2_lookup_r _ _ _ _ _ Hrows Hi)
    as (r0 & _ & name & _ & Hnb & Hrf & Hsvm).
  unfold prediction_columns in Hcol.
  repeat (apply elem_of_cons in Hcol as [[= -> ->]|Hcol]; [by eexists|]).
  by apply elem_of_nil in Hcol.
Qed.



(** C4. When every label of the cleaned training data is one of Malay,
    Indian, Chinese and Others, and the classifiers predict labels they
    were trained on, every label the notebook emits as a prediction, in the
    written file and in the displayed tables of test predictions, is one of
    these four classes. *)
Theorem emitted_labels_in_four_classes data0 new_data0 now e v k :
  predicts_training_labels MultinomialNB →
  spredicts_training_labels RandomForestClassifier →
  spredicts_training_labels SVC →
  run data0 new_data0 now e fresh_kernel = Some (v, k) →
  Forall (λ r : Pd.row, ∃ label,
            r !! "Ethnicity" = Some label ∧ label ∈ four_classes) (data v) →
  (∀ path df r model column,
     (path, df) ∈ files k → r ∈ df → (model, column) ∈ prediction_columns →
     ∃ label, r !! column = Some label ∧ label ∈ four_classes) ∧
  (∀ model processed actual predicted,
     ResultsTable model processed actual predicted ∈ displayed k →
     Forall (λ label, label ∈ four_classes) predicted).
Proof.
  intros Hnb Hrf Hsvm Hrun Hfour. notebook_facts Hrun.
  apply split_cell_inv in Hsplit as (X & y & HX & Hy & Hsplit).
  apply train_test_split_parts in Hsplit as (ind_train & _ & _ & _ & Hytr & _).
  assert (∀ label, label ∈ y_train v → label ∈ four_classes) as Htrain.
  { intros label Hl. eapply safe_indexing_elem_of in Hl; [|done].
    apply list_elem_of_lookup in Hl as [i Hi].
    apply col_Some in Hy.
    destruct (Forall2_lookup_r _ _ _ _ _ Hy Hi) as (r & Hr & Hrl).
    eapply Forall_lookup_1 in Hfour as (label' & Hl' & Hin); [|done].
    by simplify_eq. }
  split.
  - intros path df r model column Hf Hr Hcol.
    rewrite Hfiles in Hf. apply list_elem_of_singleton in Hf as [= -> ->].
    rewrite Hnew in Hr.
    apply list_elem_of_fmap in Hr as ([r0 name] & -> & _).
    pose proof (emitted_row_lookup MultinomialNB RandomForestClassifier SVC
      (vectorizer v) (classifier v) (rf_classifier v) (svm_classifier v) r0 name)
      as (_ & _ & Hr_nb & Hr_rf & Hr_svm & _).
    unfold prediction_columns in Hcol.
    repeat (apply elem_of_cons in Hcol as [[= -> ->]|Hcol];
            [eexists; split; [done|]; apply substituted_four, Htrain; eauto|]).
    by apply elem_of_nil in Hcol.
  - intros model processed actual predicted Hin.
    rewrite Hdisp in Hin. unfold evaluation_display, summary_display in Hin.
    simpl in Hin.
    repeat (apply elem_of_cons in Hin as [Heq|Hin];
            [try discriminate Heq; injection Heq as -> -> -> ->|]).
    + apply Forall_fmap, Forall_forall. intros x _. apply Htrain. eauto.
    + apply Forall_fmap, Forall_forall. intros x _. apply Htrain. eauto.
    + apply Forall_fmap, Forall_forall. intros x _. apply Htrain. eauto.
    + by apply elem_of_nil in Hin.
Qed.



(** C8. Every processed name, of the training part, of the test part and
    of the new data alike, is turned into the vector of one fixed length
    that the vocabulary fitted on the training part only determines: its
    entries count the occurrences of the vocabulary's tokens in the name,
    and tokens that are not in the vocabulary add nothing to it. *)
Theorem vectors_over_training_vocabulary data0 new_data0 now e v k :
  run data0 new_data0 now e fresh_kernel = Some (v, k) →
  let vocabulary := CountVectorizer.vocabulary_ (vectorizer v) in
  vectorizer v = CountVectorizer.fit (X_train v) ∧
  (∀ term, term ∈ vocabulary ↔
           ∃ doc, doc ∈ X_train v ∧ term ∈ analyzer doc) ∧
  NoDup vocabulary ∧
  (∀ doc,
     let x := CountVectorizer.count_row (vectorizer v) doc in
     length x = length vocabulary ∧
     (∀ j term, vocabulary !! j = Some term →
        x !! j = Some (length (filter (λ token, token = term) (analyzer doc)))) ∧
     sum_list x
       = length (filter (λ token, token ∈ vocabulary) (analyzer doc))) ∧
  (let X_train_vectorized :=
     CountVectorizer.count_row (vectorizer v) <$> X_train v in
   fit MultinomialNB X_train_vectorized (y_train v) = Some (classifier v) ∧
   sfit RandomForestClassifier (Some 42%Z) e X_train_vectorized (y_train v)
     = Some (rf_classifier v) ∧
   sfit SVC (Some 42%Z) e X_train_vectorized (y_train v)
     = Some (svm_classifier v)) ∧
  (let X_test_vectorized :=
     CountVectorizer.count_row (vectorizer v) <$> X_test v in
   arrays k !! predictions v
     = Some (predict MultinomialNB (classifier v) X_test_vectorized) ∧
   arrays k !! rf_predictions v
     = Some (spredict RandomForestClassifier (rf_classifier v) X_test_vectorized) ∧
   arrays k !! svm_predictions v
     = Some (spredict SVC (svm_classifier v) X_test_vectorized)) ∧
  Forall2 (λ r0 r : Pd.row, ∃ name,
    r0 !! "shipping_firstname" = Some name ∧
    let processed := preprocess_text (Py.str name) in
    let x := CountVectorizer.count_row (vectorizer v) processed in
    r !! "Predicted_Ethnicity_NB"
      = Some (substituted processed
                (predict_row MultinomialNB (classifier v) x)) ∧
    r !! "Predicted_Ethnicity_RF"
      = Some (substituted processed
                (spredict_row RandomForestClassifier (rf_classifier v) x)) ∧
    r !! "Predicted_Ethnicity_SVM"
      = Some (substituted processed
                (spredict_row SVC (svm_classifier v) x)))
    new_data0 (new_data v).
Proof.
  intros Hrun. notebook_facts Hrun. simpl.
  apply fit_transform_inv in Hvec as [Hv ->].
  split_and!; try done.
  - intros term. rewrite Hv. apply elem_of_vocabulary.
  - rewrite Hv. apply NoDup_vocabulary.
  - intros doc. simpl. split_and!.
    + apply length_count_row.
    + intros j term. apply lookup_count_row.
    + apply sum_count_row. rewrite Hv. apply NoDup_vocabulary.
  - rewrite Hnew.
    eapply Forall2_impl; [by apply emitted_rows_Forall2|].
    intros r0 r (name & Hname & ->). exists name. split; [done|].
    pose proof (emitted_row_lookup MultinomialNB RandomForestClassifier SVC
      (vectorizer v) (classifier v) (rf_classifier v) (svm_classifier v) r0 name)
      as (_ & _ & Hnb & Hrf & Hsvm & _). done.
Qed.


(** C10. With a seeded split and seeded Random Forest and SVM fits, which
    do not read the entropy, the notebook is a function of its two
    datasets: two runs on the same datasets, at any two times and with any
    two entropies, both raise or both return, with the same variables,
    arrays, displayed metrics and written rows.  Only the timestamp, in
    [current_datetime], its print and the file name, may differ. *)
Theorem runs_agree_up_to_timestamp data0 new_data0 now1 now2 e1 e2 :
  seeded_permutation →
  seeded_fit RandomForestClassifier →
  seeded_fit SVC →
  outcome MultinomialNB RandomForestClassifier SVC
    <$> run data0 new_data0 now1 e1 fresh_kernel
  = outcome MultinomialNB RandomForestClassifier SVC
    <$> run data0 new_data0 now2 e2 fresh_kernel.
Proof.
  intros Hperm Hrf Hsvm.
  rewrite (notebook_entropy _ _ _ Hperm Hrf Hsvm _ _ now1 e1 e2).
  apply notebook_clock.
Qed.

End NotebookClaims.

(** ** The small instance satisfies what the properties assume *)

Section ToyFacts.
Import Toy.

Lemma toy_permutation_law : permutation_law.
Proof.
  intros [s|] e n; simpl.
  - apply reverse_Permutation.
  - unfold rotate. rewrite Permutation_app_comm. by rewrite take_drop.
Qed.

Lemma toy_seeded_permutation : seeded_permutation.
Proof. by intros s e e' n. Qed.

Lemma first_label_predicts_training_labels :
  predicts_training_labels first_label.
Proof.
  intros X y m x Hfit. simpl in *. destruct y as [|l y]; simplify_eq/=.
  by left.
Qed.

Lemma last_label_predicts_training_labels :
  spredicts_training_labels last_label.
Proof.
  intros rs e X y m x Hfit. simpl in *.
  by apply last_Some_elem_of.
Qed.

Lemma memorizer_predicts_training_labels :
  spredicts_training_labels memorizer.
Proof.
  intros rs e X y [d pairs] x Hfit. simpl in *.
  destruct y as [|l y]; simplify_eq/=.
  destruct (list_find _ _) as [[i [x' label]]|] eqn:Hfind.
  - apply list_find_Some in Hfind as (Hi & _ & _).
    apply list_elem_of_lookup_2 in Hi. by apply elem_of_zip_r in Hi.
  - by left.
Qed.

Lemma last_label_seeded : seeded_fit last_label.
Proof. by intros s e e' X y. Qed.

Lemma memorizer_seeded : seeded_fit memorizer.
Proof. by intros s e e' X y. Qed.

Lemma toy_run_returns : ∃ v k, run 0 = Some (v, k).
Proof.
  assert (bool_decide (is_Some (run 0)) = true) as Hrun
    by (vm_compute; reflexivity).
  apply bool_decide_eq_true in Hrun as [[v k] Hrun]. eauto.
Qed.

Lemma toy_training_labels v k :
  run 0 = Some (v, k) →
  Forall (λ r : Pd.row, ∃ label,
            r !! "Ethnicity" = Some label ∧ label ∈ four_classes) (data v).
Proof.
  intros Hrun.
  assert ((λ r, forallb (λ row : Pd.row,
             match row !! "Ethnicity" with
             | Some label => bool_decide (label ∈ four_classes)
             | None => false
             end) (data r.1)) <$> run 0 = Some true) as Hlabels
    by (vm_compute; reflexivity).
  rewrite Hrun in Hlabels. simpl in Hlabels. injection Hlabels as Hlabels.
  apply Forall_forall. intros r Hr%list_elem_of_In.
  eapply forallb_forall in Hlabels; [|exact Hr].
  destruct (r !! "Ethnicity") as [label|]; [|done].
  exists label. split; [done|]. by apply bool_decide_eq_true in Hlabels.
Qed.

End ToyFacts.

(** ** The properties on the small instance *)

Section ToyRuns.
Import Toy.

Example preprocess_text_drops_stopwords_and_digits :
  preprocess_text "John of Smith 3rd" = "john smith".
Proof. reflexivity. Qed.



(** C3, as stated, fails: in this run Naive Bayes scores 0 of 2 on the
    held-out rows and the SVM 1 of 2, and the Naive Bayes predictions are
    written all the same. *)
Lemma selection_by_evaluation_fails :
  ∃ v k, run 0 = Some (v, k) ∧ ¬ emits_only_best k.
Proof.
  destruct toy_run_returns as (v & k & Hrun).
  exists v, k. split; [done|]. intros Hbest.
  assert ((λ r, displayed r.2 !! 10) <$> run 0
          = Some (Some (AccuracyTable [("Naive Bayes", 0 # 2);
                                       ("Random Forest", 0 # 2);
                                       ("SVM", 1 # 2)]))) as Htable
    by (vm_compute; reflexivity).
  assert ((λ r, head (files r.2) ≫= λ f, f.2 !! 0 ≫= λ row : Pd.row,
                row !! "Predicted_Ethnicity_NB") <$> run 0
          = Some (Some (Py.Str "Others"))) as Hnb by (vm_compute; reflexivity).
  rewrite Hrun in Htable, Hnb.
  injection Htable as Htable%list_elem_of_lookup_2. injection Hnb as Hnb.
  cbn [snd] in Htable, Hnb.
  destruct (@files nat k) as [|[path df] fs] eqn:Hfiles; [discriminate Hnb|].
  cbn in Hnb. destruct (df !! 0) as [r|] eqn:Hr; [|discriminate Hnb].
  cbn in Hnb.
  assert ((path, df) ∈ @files nat k) as Hfile by (rewrite Hfiles; by left).
  assert (1 # 2 <= 0 # 2)%Q as Hle.
  { apply (Hbest _ "Naive Bayes" "Predicted_Ethnicity_NB" (0 # 2) path df r
             Htable) with (model' := "SVM").
    - by left.
    - by left.
    - exact Hfile.
    - by eapply list_elem_of_lookup_2.
    - by eexists.
    - do 2 right. by left. }
  unfold Qle in Hle. simpl in Hle. lia.
Qed.

Lemma all_three_models_emitted_witness :
  ∃ v k, run 0 = Some (v, k) ∧
    ∃ path df, files k = [(path, df)] ∧
      (∀ accuracies model column,
         AccuracyTable accuracies ∈ displayed k →
         (model, column) ∈ prediction_columns →
         ∀ r, r ∈ df → is_Some (r !! column)) ∧
      Forall2 (λ r0 r : Pd.row, ∃ name,
        r0 !! "shipping_firstname" = Some name ∧
        let processed := preprocess_text (Py.str name) in
        let x := CountVectorizer.count_row (vectorizer v) processed in
        r !! "Predicted_Ethnicity_NB"
          = Some (substituted processed
                    (predict_row first_label (classifier v) x)) ∧
        r !! "Predicted_Ethnicity_RF"
          = Some (substituted processed
                    (spredict_row memorizer (rf_classifier v) x)) ∧
        r !! "Predicted_Ethnicity_SVM"
          = Some (substituted processed
                    (spredict_row last_label (svm_classifier v) x)))
        new_rows df.
Proof.
  destruct toy_run_returns as (v & k & Hrun). exists v, k.
  split; [exact Hrun|].
  exact (all_three_models_emitted first_label memorizer last_label
           training_data new_rows noon 0 v k Hrun).
Defined.



Lemma emitted_labels_in_four_classes_witness :
  ∃ v k,
    predicts_training_labels first_label ∧
    spredicts_training_labels memorizer ∧
    spredicts_training_labels last_label ∧
    run 0 = Some (v, k) ∧
    Forall (λ r : Pd.row, ∃ label,
              r !! "Ethnicity" = Some label ∧ label ∈ four_classes) (data v) ∧
    (∀ path df r model column,
       (path, df) ∈ files k → r ∈ df → (model, column) ∈ prediction_columns →
       ∃ label, r !! column = Some label ∧ label ∈ four_classes) ∧
    (∀ model processed actual predicted,
       ResultsTable model processed actual predicted ∈ displayed k →
       Forall (λ label, label ∈ four_classes) predicted).
Proof.
  destruct toy_run_returns as (v & k & Hrun). exists v, k.
  split; [exact first_label_predicts_training_labels|].
  split; [exact memorizer_predicts_training_labels|].
  split; [exact last_label_predicts_training_labels|].
  split; [exact Hrun|].
  split; [exact (toy_training_labels v k Hrun)|].
  exact (emitted_labels_in_four_classes first_label memorizer last_label
           training_data new_rows noon 0 v k
           first_label_predicts_training_labels
           memorizer_predicts_training_labels
           last_label_predicts_training_labels
           Hrun (toy_training_labels v k Hrun)).
Defined.


Lemma vectors_over_training_vocabulary_witness :
  ∃ v k, run 0 = Some (v, k) ∧
    let vocabulary := CountVectorizer.vocabulary_ (vectorizer v) in
    vectorizer v = CountVectorizer.fit (X_train v) ∧
    (∀ term, term ∈ vocabulary ↔
             ∃ doc, doc ∈ X_train v ∧ term ∈ analyzer doc) ∧
    NoDup vocabulary ∧
    (∀ doc,
       let x := CountVectorizer.count_row (vectorizer v) doc in
       length x = length vocabulary ∧
       (∀ j term, vocabulary !! j = Some term →
          x !! j = Some (length (filter (λ token, token = term) (analyzer doc)))) ∧
       sum_list x
         = length (filter (λ token, token ∈ vocabulary) (analyzer doc))) ∧
    (let X_train_vectorized :=
       CountVectorizer.count_row (vectorizer v) <$> X_train v in
     fit first_label X_train_vectorized (y_train v) = Some (classifier v) ∧
     sfit memorizer (Some 42%Z) 0 X_train_vectorized (y_train v)
       = Some (rf_classifier v) ∧
     sfit last_label (Some 42%Z) 0 X_train_vectorized (y_train v)
       = Some (svm_classifier v)) ∧
    (let X_test_vectorized :=
       CountVectorizer.count_row (vectorizer v) <$> X_test v in
     arrays k !! predictions v
       = Some (predict first_label (classifier v) X_test_vectorized) ∧
     arrays k !! rf_predictions v
       = Some (spredict memorizer (rf_classifier v) X_test_vectorized) ∧
     arrays k !! svm_predictions v
       = Some (spredict last_label (svm_classifier v) X_test_vectorized)) ∧
    Forall2 (λ r0 r : Pd.row, ∃ name,
      r0 !! "shipping_firstname" = Some name ∧
      let processed := preprocess_text (Py.str name) in
      let x := CountVectorizer.count_row (vectorizer v) processed in
      r !! "Predicted_Ethnicity_NB"
        = Some (substituted processed
                  (predict_row first_label (classifier v) x)) ∧
      r !! "Predicted_Ethnicity_RF"
        = Some (substituted processed
                  (spredict_row memorizer (rf_classifier v) x)) ∧
      r !! "Predicted_Ethnicity_SVM"
        = Some (substituted processed
                  (spredict_row last_label (svm_classifier v) x)))
      new_rows (new_data v).
Proof.
  destruct toy_run_returns as (v & k & Hrun). exists v, k.
  split; [exact Hrun|].
  exact (vectors_over_training_vocabulary first_label memorizer last_label
           training_data new_rows noon 0 v k Hrun).
Defined.

Lemma substitution_touches_only_exceptional_rows_witness :
  ∃ v k, run 0 = Some (v, k) ∧
    let X_test_vectorized := CountVectorizer.transform (vectorizer v) (X_test v) in
    let p_nb := predict first_label (classifier v) X_test_vectorized in
    let p_rf := spredict memorizer (rf_classifier v) X_test_vectorized in
    let p_svm := spredict last_label (svm_classifier v) X_test_vectorized in
    Forall2 (λ r0 r : Pd.row, ∃ name,
      r0 !! "shipping_firstname" = Some name ∧
      let processed := preprocess_text (Py.str name) in
      let x := CountVectorizer.count_row (vectorizer v) processed in
      (processed ≠ "nan" → processed ≠ "" →
       r !! "Predicted_Ethnicity_NB"
         = Some (predict_row first_label (classifier v) x) ∧
       r !! "Predicted_Ethnicity_RF"
         = Some (spredict_row memorizer (rf_classifier v) x) ∧
       r !! "Predicted_Ethnicity_SVM"
         = Some (spredict_row last_label (svm_classifier v) x)))
      new_rows (new_data v) ∧
    files k = [(export_path (current_datetime v), new_data v)] ∧
    arrays k !! new_predictions_nb v
      = Pd.col "Predicted_Ethnicity_NB" (new_data v) ∧
    arrays k !! new_predictions_rf v
      = Pd.col "Predicted_Ethnicity_RF" (new_data v) ∧
    arrays k !! new_predictions_svm v
      = Pd.col "Predicted_Ethnicity_SVM" (new_data v) ∧
    NoDup [predictions v; rf_predictions v; svm_predictions v;
           new_predictions_nb v; new_predictions_rf v; new_predictions_svm v] ∧
    arrays k !! predictions v = Some p_nb ∧
    arrays k !! rf_predictions v = Some p_rf ∧
    arrays k !! svm_predictions v = Some p_svm ∧
    ∃ ethnicity accuracy rf_accuracy svm_accuracy,
      Sk.accuracy_score (y_test v) p_nb = Some accuracy ∧
      Sk.accuracy_score (y_test v) p_rf = Some rf_accuracy ∧
      Sk.accuracy_score (y_test v) p_svm = Some svm_accuracy ∧
      displayed k =
        Baseline (Z.of_nat (value_counts_max (y_test v))
                  # Pos.of_nat (length (y_test v)))
        :: evaluation_display "Naive Bayes" (X_test v) (y_test v) p_nb accuracy
        ++ evaluation_display "Random Forest" (X_test v) (y_test v) p_rf rf_accuracy
        ++ evaluation_display "SVM" (X_test v) (y_test v) p_svm svm_accuracy
        ++ summary_display ethnicity (y_test v) p_nb p_rf p_svm
             accuracy rf_accuracy svm_accuracy
        ++ [Printed (current_datetime v)].
Proof.
  destruct toy_run_returns as (v & k & Hrun). exists v, k.
  split; [exact Hrun|].
  exact (substitution_touches_only_exceptional_rows
           first_label memorizer last_label
           training_data new_rows noon 0 v k Hrun).
Defined.

Lemma runs_agree_up_to_timestamp_witness :
  seeded_permutation ∧ seeded_fit memorizer ∧ seeded_fit last_label ∧
  outcome first_label memorizer last_label
    <$> notebook first_label memorizer last_label training_data new_rows
          noon 0 fresh_kernel
  = outcome first_label memorizer last_label
    <$> notebook first_label memorizer last_label training_data new_rows
          midnight 7 fresh_kernel.
Proof.
  split; [exact toy_seeded_permutation|].
  split; [exact memorizer_seeded|].
  split; [exact last_label_seeded|].
  exact (runs_agree_up_to_timestamp first_label memorizer last_label
           training_data new_rows noon midnight 0 7
           toy_seeded_permutation memorizer_seeded last_label_seeded).
Defined.

End ToyRuns.

(** * Further properties of the code *)

(** ** Cleaning, again *)

Lemma has_column_col c (df : Pd.DataFrame) :
  has_column c df ↔ is_Some (Pd.col c df).
Proof.
  split; [apply col_is_Some|]. intros [vs Hvs%col_Some].
  unfold has_column. induction Hvs; constructor; eauto.
Qed.

Lemma clean_inv (data cleaned : Pd.DataFrame) :
  clean data = Some cleaned →
  has_column "ShippingName" data ∧ has_column "Ethnicity" data ∧
  Forall2 cleaned_row (filter (λ r, ¬ removed r) data) cleaned.
Proof.
  unfold clean. intros Hc.
  destruct (Pd.col "ShippingName" data) as [names|] eqn:Hn; [|done].
  simpl in Hc.
  pose proof (col_length _ _ _ Hn) as Hlen.
  assert (length (Pd.astype_str names) = length data) as Hlen'.
  { unfold Pd.astype_str. by rewrite length_map. }
  unfold Pd.set_col in Hc. rewrite decide_True in Hc by done. simpl in Hc.
  rewrite col_zip_insert_ne in Hc by done.
  destruct (Pd.col "Ethnicity" data) as [eth|] eqn:He; [|done].
  simpl in Hc. injection Hc as <-.
  split_and!.
  - apply has_column_col. by rewrite Hn.
  - apply has_column_col. by rewrite He.
  - apply clean_rows; by apply col_Some.
Qed.


Lemma clean_shape (data cleaned : Pd.DataFrame) :
  clean data = Some cleaned → Forall clean_row cleaned.
Proof.
  intros (_ & He & HF)%clean_inv.
  assert (Forall (λ r : Pd.row, is_Some (r !! "Ethnicity") ∧ ¬ removed r)
            (filter (λ r, ¬ removed r) data)) as Hsrc.
  { apply Forall_forall. intros r [Hr Hin]%list_elem_of_filter.
    split; [|done]. unfold has_column in He.
    rewrite Forall_forall in He. by apply He. }
  induction HF as [|r r' l l' Hrr HF IH]; [constructor|].
  apply Forall_cons in Hsrc as [[[label Hl] Hr] Hsrc].
  constructor; [|by apply IH].
  destruct Hrr as [(v & Hv & Hv') Hc]. split; [eauto|].
  exists label. rewrite Hc by done. split; [done|].
  unfold removed in Hr. rewrite Hl in Hr. simpl in Hr.
  destruct (Py.eq_False label); [by destruct Hr|done].
Qed.

Lemma col_default c (df : Pd.DataFrame) :
  has_column c df →
  Pd.col c df = Some ((λ r : Pd.row, default Py.NaN (r !! c)) <$> df).
Proof.
  intros Hc. apply col_Some.
  induction Hc as [|r df [v Hv] _ IH]; csimpl; constructor; [by rewrite Hv|done].
Qed.

Lemma clean_fixed (df : Pd.DataFrame) :
  Forall clean_row df → clean df = Some df.
Proof.
  intros HF.
  assert (has_column "ShippingName" df) as Hn.
  { eapply Forall_impl; [exact HF|]. intros r [[s ->] _]. eauto. }
  assert (has_column "Ethnicity" df) as He.
  { eapply Forall_impl; [exact HF|]. intros r [_ (l & -> & _)]. eauto. }
  unfold clean. rewrite (col_default "ShippingName") by done. simpl.
  unfold Pd.set_col, Pd.astype_str. change (map ?f ?l) with (f <$> l).
  rewrite decide_True by (by rewrite !length_fmap). simpl.
  rewrite <- list_fmap_compose.
  assert (zip_with (λ (r : Pd.row) v, <["ShippingName" := v]> r) df
            ((λ v, Py.Str (Py.str v)) ∘ (λ r : Pd.row, default Py.NaN (r !! "ShippingName"))
               <$> df) = df) as ->.
  { rewrite <- (list_fmap_id df) at 1. rewrite zip_with_fmap_same.
    rewrite <- (list_fmap_id df) at 2. apply Forall_fmap_ext.
    eapply Forall_impl; [exact HF|]. intros r [[s Hs] _]. simpl.
    rewrite Hs. simpl. by apply insert_id. }
  rewrite (col_default "Ethnicity") by done. simpl. f_equal.
  induction HF as [|r df [_ (l & Hl & Hf)] HF IH]; [done|].
  csimpl. rewrite Hl. simpl. unfold Py.ne_False at 1. rewrite Hf. simpl.
  f_equal. apply IH.
  - by apply Forall_cons in Hn as [_ ?].
  - by apply Forall_cons in He as [_ ?].
Qed.


(** X2. Cleaning is idempotent: running the cleaning cell again on its own
    result changes nothing. *)
Theorem clean_idempotent (data : Pd.DataFrame) :
  clean data ≫= clean = clean data.
Proof.
  destruct (clean data) as [cleaned|] eqn:Hc; [|done]. simpl.
  apply clean_fixed. by eapply clean_shape.
Qed.

(** ** Names that normalise to nothing *)

Lemma filter_nil_iff {A} (P : A → Prop) `{∀ x, Decision (P x)} (l : list A) :
  filter P l = [] ↔ ∀ x, x ∈ l → ¬ P x.
Proof.
  split.
  - intros Hf x Hx HP. by eapply filter_nil_not_elem_of.
  - intros Hno. induction l as [|x l IH]; [done|].
    rewrite filter_cons. rewrite decide_False by (apply Hno; left).
    apply IH. intros y Hy. apply Hno. by right.
Qed.


Section PreprocessEdge.
Context `{PyText} `{Nltk}.


End PreprocessEdge.

(** ** When the split raises *)

Lemma safe_indexing_is_Some {A} (a : list A) indices :
  Forall (λ i, i < length a) indices → is_Some (safe_indexing a indices).
Proof.
  intros HF. unfold safe_indexing. apply mapM_is_Some.
  eapply Forall_impl; [exact HF|]. intros i Hi. by apply lookup_lt_is_Some_2.
Qed.

Lemma n_test_of_ceil n : n ≤ 5 * n_test_of n < n + 5.
Proof.
  unfold n_test_of.
  pose proof (Nat.div_mod_eq (n + 4) 5).
  pose proof (Nat.mod_upper_bound (n + 4) 5). lia.
Qed.

Section SplitEdge.
Context {entropy : Type} `{NumpyRandom entropy}.

Lemma train_test_split_is_Some {A B} (X : list A) (y : list B) rs e :
  permutation_law → length y = length X → 2 ≤ length X →
  is_Some (train_test_split X y rs e).
Proof.
  intros Hperm Hlen Hn. unfold train_test_split.
  pose proof (n_test_of_ceil (length X)) as Hceil.
  rewrite decide_True by done.
  rewrite decide_False by lia.
  pose proof (Hperm rs e (length X)) as Hp.
  set (perm := permutation rs e (length X)) in *.
  assert (Forall (λ i, i < length X) perm) as Hin.
  { apply Forall_forall. intros i Hi. rewrite Hp in Hi.
    apply elem_of_seq in Hi. lia. }
  assert (∀ l : list nat, Forall (λ i, i < length X) l →
            is_Some (safe_indexing X l) ∧ is_Some (safe_indexing y l))
    as Hsub.
  { intros l Hl. split; apply safe_indexing_is_Some; by rewrite ?Hlen. }
  destruct (Hsub (take (length X - n_test_of (length X))
                    (drop (n_test_of (length X)) perm)))
    as [[? ->] [? ->]].
  { by apply Forall_take, Forall_drop. }
  destruct (Hsub (take (n_test_of (length X)) perm)) as [[? ->] [? ->]].
  { by apply Forall_take. }
  simpl. eauto.
Qed.

(** X4. [train_test_split] with [test_size=0.2] returns exactly when the two
    series have the same length and hold at least two samples; the test part
    then holds the least number of samples that is at least a fifth, and
    neither part is empty. *)
Theorem train_test_split_returns_iff {A B} (X : list A) (y : list B) rs e :
  permutation_law →
  (is_Some (train_test_split X y rs e) ↔
   length y = length X ∧ 2 ≤ length X) ∧
  ∀ X_train X_test y_train y_test,
    train_test_split X y rs e = Some (X_train, X_test, y_train, y_test) →
    length X_train + length X_test = length X ∧
    length X ≤ 5 * length X_test < length X + 5 ∧
    length y_train = length X_train ∧ length y_test = length X_test ∧
    0 < length X_train ∧ 0 < length X_test.
Proof.
  intros Hperm. split.
  - pose proof (n_test_of_ceil (length X)) as Hceil. split.
    + intros [[[[Xtr Xte] ytr] yte] Hs].
      apply (train_test_split_inv Hperm) in Hs
        as (it & ie & _ & Hlen & _ & Hit & Hpos & _).
      split; [done|]. lia.
    + intros [Hlen Hn]. by apply train_test_split_is_Some.
  - intros Xtr Xte ytr yte Hs.
    apply (train_test_split_inv Hperm) in Hs
      as (it & ie & _ & Hlen & Hie & Hit & Hpos & H1 & H2 & H3 & H4).
    apply safe_indexing_Some, Forall2_length in H1, H2, H3, H4.
    pose proof (n_test_of_ceil (length X)) as Hceil.
    pose proof (n_test_of_le (length X)). lia.
Qed.

End SplitEdge.

(** ** The vocabulary *)

Section VectorizerEdge.
Context `{TextAnalyzer}.

(** X5. [fit_transform] raises (empty vocabulary) exactly when no document
    yields a token. *)
Theorem fit_transform_raises_iff_no_token (docs : list string) :
  CountVectorizer.fit_transform docs = None ↔
  ∀ doc, doc ∈ docs → analyzer doc = [].
Proof.
  unfold CountVectorizer.fit_transform.
  destruct (decide (CountVectorizer.vocabulary_ (CountVectorizer.fit docs) = []))
    as [Hv|Hv]; split; try done.
  - intros _ doc Hd. destruct (analyzer doc) as [|t ts] eqn:Ha; [done|].
    assert (t ∈ CountVectorizer.vocabulary_ (CountVectorizer.fit docs)) as Hin.
    { apply elem_of_vocabulary. exists doc. split; [done|]. rewrite Ha. left. }
    rewrite Hv in Hin. by apply elem_of_nil in Hin.
  - intros Hno. destruct Hv.
    destruct (CountVectorizer.vocabulary_ (CountVectorizer.fit docs))
      as [|t ts] eqn:Hvoc; [done|].
    assert (t ∈ CountVectorizer.vocabulary_ (CountVectorizer.fit docs)) as Hin.
    { rewrite Hvoc. left. }
    apply elem_of_vocabulary in Hin as (doc & Hd & Ht).
    rewrite (Hno doc Hd) in Ht. by apply elem_of_nil in Ht.
Qed.

(** X6. The fitted vocabulary depends only on the set of tokens of the
    documents: their order and repetitions do not matter. *)
Theorem vocabulary_depends_on_token_set (docs1 docs2 : list string) :
  (∀ term, (∃ doc, doc ∈ docs1 ∧ term ∈ analyzer doc) ↔
           (∃ doc, doc ∈ docs2 ∧ term ∈ analyzer doc)) →
  CountVectorizer.fit docs1 = CountVectorizer.fit docs2.
Proof.
  intros Hsame.
  assert (CountVectorizer.vocabulary_ (CountVectorizer.fit docs1)
          = CountVectorizer.vocabulary_ (CountVectorizer.fit docs2)) as Hv.
  { apply (Sorted_unique String.le); [apply Sorted_vocabulary..|].
    apply NoDup_Permutation; [apply NoDup_vocabulary..|].
    intros term. rewrite !elem_of_vocabulary. apply Hsame. }
  destruct (CountVectorizer.fit docs1), (CountVectorizer.fit docs2).
  simpl in Hv. by subst.
Qed.

Lemma count_perm (tokens1 tokens2 : list string) term :
  tokens1 ≡ₚ tokens2 →
  length (filter (λ token, token = term) tokens1)
  = length (filter (λ token, token = term) tokens2).
Proof. intros Hp. by rewrite Hp. Qed.

(** X7. A count vector is a bag of words: documents whose tokens are the same
    up to order get the same vector, and a document gets the all-zero vector
    exactly when none of its tokens is in the vocabulary. *)
Theorem count_row_is_a_bag v (doc : string) :
  (∀ doc', analyzer doc ≡ₚ analyzer doc' →
     CountVectorizer.count_row v doc = CountVectorizer.count_row v doc') ∧
  (CountVectorizer.count_row v doc
     = replicate (length (CountVectorizer.vocabulary_ v)) 0 ↔
   ∀ token, token ∈ analyzer doc → token ∉ CountVectorizer.vocabulary_ v).
Proof.
  unfold CountVectorizer.count_row. split.
  - intros doc' Hp. apply map_ext. intros term. by apply count_perm.
  - change (map ?f ?l) with (f <$> l).
    induction (CountVectorizer.vocabulary_ v) as [|term terms IH].
    + split; [|done]. intros _ token _ Hin. by apply elem_of_nil in Hin.
    + destruct IH as [IH1 IH2]. csimpl. split.
      * intros [= Hz Hrest]. specialize (IH1 Hrest).
        apply length_zero_iff_nil in Hz. rewrite filter_nil_iff in Hz.
        intros token Ht [->|Hin]%elem_of_cons; [by eapply Hz|].
        by eapply IH1.
      * intros Hno. f_equal.
        -- apply length_zero_iff_nil, filter_nil_iff. intros token Ht ->.
           apply (Hno term Ht). left.
        -- apply IH2. intros token Ht Hin. apply (Hno token Ht). by right.
Qed.

End VectorizerEdge.

(** ** Metrics *)


Lemma length_filter_all {A} (P : A → Prop) `{∀ x, Decision (P x)} (l : list A) :
  length (filter P l) = length l ↔ Forall P l.
Proof.
  induction l as [|x l IH]; [by split; [constructor|]|].
  rewrite filter_cons. pose proof (length_filter P l).
  destruct (decide (P x)) as [Hx|Hx]; simpl.
  - rewrite Forall_cons. split.
    + intros [= Hl]. split; [done|]. by apply IH.
    + intros [_ Hl]. f_equal. by apply IH.
  - split; [lia|]. by intros [? _]%Forall_cons.
Qed.




Lemma sum_counts_where {A B} `{EqDecision B} (Q : A → Prop)
    `{∀ x, Decision (Q x)} (f : A → B) (terms : list B) (xs : list A) :
  NoDup terms →
  sum_list ((λ t, length (filter (λ x, Q x ∧ f x = t) xs)) <$> terms)
  = length (filter (λ x, Q x ∧ f x ∈ terms) xs).
Proof.
  intros Hnd. induction Hnd as [|t terms Ht Hnd IH].
  - simpl. symmetry. apply length_zero_iff_nil, filter_nil_iff.
    intros x _ [_ Hin]. by apply elem_of_nil in Hin.
  - csimpl. rewrite IH. clear IH.
    induction xs as [|x xs IHx]; [done|].
    rewrite !filter_cons.
    destruct (decide (Q x)) as [HQ|HQ].
    + destruct (decide (f x = t)) as [Hft|Hft].
      * rewrite decide_True by done.
        rewrite decide_False by (intros [_ Hin]; congruence).
        rewrite decide_True by (split; [done|]; rewrite Hft; left).
        simpl. lia.
      * rewrite decide_False by tauto.
        destruct (decide (f x ∈ terms)) as [Hin|Hin].
        -- rewrite decide_True by done.
           rewrite decide_True by (split; [done|]; by right).
           simpl. lia.
        -- rewrite decide_False by tauto.
           rewrite decide_False
             by (intros [_ [?|?]%elem_of_cons]; done).
           done.
    + rewrite !decide_False by tauto. done.
Qed.

Lemma elem_of_unique (s : list Py.value) v : v ∈ Pd.unique s ↔ v ∈ s.
Proof.
  induction s as [|w s IH]; [done|]. simpl.
  rewrite !elem_of_cons, list_elem_of_filter, IH.
  destruct (decide (v = w)); tauto.
Qed.

Lemma NoDup_unique (s : list Py.value) : NoDup (Pd.unique s).
Proof.
  induction s as [|w s IH]; [constructor|]. simpl. constructor.
  - rewrite list_elem_of_filter. tauto.
  - by apply NoDup_filter.
Qed.

Lemma filter_iff_Forall {A} (P1 P2 : A → Prop)
    `{∀ x, Decision (P1 x)} `{∀ x, Decision (P2 x)} (l : list A) :
  Forall (λ x, P1 x ↔ P2 x) l → filter P1 l = filter P2 l.
Proof.
  induction 1 as [|x l Hx _ IH]; [done|].
  rewrite !filter_cons, IH.
  destruct (decide (P1 x)); [by rewrite decide_True by tauto|].
  by rewrite decide_False by tauto.
Qed.

Lemma Forall_zip_both {A B} (P : A → Prop) (Q : B → Prop) a b :
  Forall P a → Forall Q b → Forall (λ q, P q.1 ∧ Q q.2) (zip a b).
Proof.
  intros Ha. revert b.
  induction Ha as [|x a Hx Ha IH]; intros [|z b] Hb; simpl; try constructor.
  - apply Forall_cons in Hb as [? ?]. done.
  - apply IH. by apply Forall_cons in Hb as [_ ?].
Qed.

Lemma filter_fst_zip {A B} (P : A → Prop) `{∀ x, Decision (P x)}
    (a : list A) (b : list B) :
  length a = length b →
  length (filter (λ q, P q.1) (zip a b)) = length (filter P a).
Proof.
  revert b. induction a as [|x a IH]; intros [|z b] Hlen; simplify_eq/=; [done|].
  rewrite !filter_cons. simpl.
  destruct (decide (P x)); simpl; by rewrite IH.
Qed.

(** With labels that are distinct and cover the actual and the predicted
    values, the confusion matrix counts every sample once. *)
Lemma confusion_matrix_sums (y_true y_pred labels : list Py.value) :
  NoDup labels → length y_true = length y_pred →
  Forall (λ v, v ∈ labels) y_true → Forall (λ v, v ∈ labels) y_pred →
  let cm := Sk.confusion_matrix y_true y_pred labels in
  sum_list (sum_list <$> cm) = length y_true ∧
  sum_list <$> cm = (λ t, length (filter (λ v, v = t) y_true)) <$> labels ∧
  sum_list (diagonal cm) = matches y_true y_pred.
Proof.
  intros Hnd Hlen Ht Hp cm.
  pose proof (Forall_zip_both _ _ _ _ Ht Hp) as Hz.
  assert (sum_list <$> cm
          = (λ t, length (filter (λ v, v = t) y_true)) <$> labels) as Hrows.
  { unfold cm, Sk.confusion_matrix. change (map ?f ?l) with (f <$> l).
    rewrite <- list_fmap_compose. apply list_fmap_ext. intros _ t _. simpl.
    rewrite (sum_counts_where (λ q : Py.value * Py.value, q.1 = t) snd) by done.
    rewrite <- (filter_fst_zip (λ v, v = t) y_true y_pred) by done.
    f_equal. apply filter_iff_Forall.
    eapply Forall_impl; [exact Hz|]. simpl. tauto. }
  split_and!; [|done|].
  - rewrite Hrows.
    erewrite list_fmap_ext.
    2:{ intros _ t _.
        apply (f_equal length), (list_filter_iff _ (λ v, True ∧ id v = t)).
        intros v. simpl. tauto. }
    rewrite (sum_counts_where (λ _, True) id) by done.
    apply length_filter_all. eapply Forall_impl; [exact Ht|]. simpl. tauto.
  - unfold diagonal, cm, Sk.confusion_matrix, matches.
    change (map ?f ?l) with (f <$> l). rewrite imap_fmap.
    rewrite (imap_ext _ (const (λ t, length (filter
               (λ q : Py.value * Py.value, q.1 = t ∧ q.2 = t)
               (zip y_true y_pred))))).
    2:{ intros i t Hi. simpl. by rewrite list_lookup_fmap, Hi. }
    rewrite imap_const.
    erewrite list_fmap_ext.
    2:{ intros _ t _.
        apply (f_equal length), (list_filter_iff _
          (λ q : Py.value * Py.value, q.1 = q.2 ∧ q.1 = t)).
        intros [a b]. simpl. split; [by intros [-> ->]|by intros [<- ->]]. }
    rewrite (sum_counts_where (λ q : Py.value * Py.value, q.1 = q.2) fst)
      by done.
    f_equal. apply filter_iff_Forall.
    eapply Forall_impl; [exact Hz|]. simpl. tauto.
Qed.

Lemma foldr_max_le (l : list nat) x : x ∈ l → x ≤ foldr max 0 l.
Proof.
  induction l as [|z l IH]; [by intros ?%elem_of_nil|].
  intros [->|Hx]%elem_of_cons; simpl; [lia|]. specialize (IH Hx). lia.
Qed.

Lemma foldr_max_elem_of (l : list nat) : l ≠ [] → foldr max 0 l ∈ l.
Proof.
  induction l as [|z l IH]; [done|]. intros _. simpl.
  destruct l as [|z' l].
  - simpl. rewrite Nat.max_0_r. left.
  - specialize (IH ltac:(done)).
    destruct (Nat.max_spec z (foldr max 0 (z' :: l))) as [[_ ->]|[_ ->]];
      [by right|left].
Qed.

Lemma matches_constant (y : list Py.value) c :
  matches y (replicate (length y) c) = length (filter (λ v, v = c) y).
Proof.
  unfold matches. induction y as [|v y IH]; [done|]. simpl.
  rewrite !filter_cons. simpl.
  destruct (decide (v = c)); simpl; by rewrite IH.
Qed.

Lemma value_counts_max_le (y : list Py.value) c :
  length (filter (λ v, v = c) y) ≤ value_counts_max y.
Proof.
  unfold value_counts_max. destruct (decide (c ∈ y)) as [Hc|Hc].
  - apply foldr_max_le. change (map ?f ?l) with (f <$> l).
    apply list_elem_of_fmap. exists c. split; [done|]. by apply elem_of_unique.
  - replace (filter (λ v, v = c) y) with (@nil Py.value); [simpl; lia|].
    symmetry. apply filter_nil_iff. by intros v Hv ->.
Qed.

Lemma value_counts_max_attained (y : list Py.value) :
  y ≠ [] → ∃ c, c ∈ y ∧ length (filter (λ v, v = c) y) = value_counts_max y.
Proof.
  intros Hy. unfold value_counts_max.
  assert ((map (λ v, length (filter (λ w, w = v) y)) (Pd.unique y)) ≠ []) as Hne.
  { destruct y; [done|]. done. }
  apply foldr_max_elem_of in Hne. change (map ?f ?l) with (f <$> l) in Hne.
  apply list_elem_of_fmap in Hne as (c & Hc & Hin).
  exists c. split; [by apply elem_of_unique|done].
Qed.

Section Baseline.
Context `{Metrics}.

(** X9. The baseline the notebook prints is the accuracy of the best constant
    predictor on the test labels: predicting one most frequent label for every
    row scores exactly the baseline, and no constant prediction scores more.
    The labels are text, which [value_counts] counts one by one (it leaves
    missing values out). *)
Theorem baseline_is_best_constant_predictor (y_test : list Py.value) :
  y_test ≠ [] → Forall is_text y_test →
  ∃ baseline_accuracy,
    (∀ k, baseline_cell y_test k
          = Some ((), {| arrays := arrays k;
                         displayed := displayed k ++ [Baseline baseline_accuracy];
                         files := files k |})) ∧
    (∃ c, c ∈ y_test ∧
          Sk.accuracy_score y_test (replicate (length y_test) c)
          = Some baseline_accuracy) ∧
    ∀ c acc, Sk.accuracy_score y_test (replicate (length y_test) c) = Some acc →
             (acc <= baseline_accuracy)%Q.
Proof.
  intros Hy _. eexists. split; [done|].
  assert (length y_test ≠ 0) as Hn by (by destruct y_test).
  assert (∀ c, Sk.accuracy_score y_test (replicate (length y_test) c)
               = Some (Z.of_nat (length (filter (λ v, v = c) y_test))
                       # Pos.of_nat (length y_test))) as Hacc.
  { intros c. unfold Sk.accuracy_score.
    rewrite decide_True by (by rewrite length_replicate).
    fold (matches y_test (replicate (length y_test) c)).
    by rewrite matches_constant. }
  split.
  - destruct (value_counts_max_attained y_test Hy) as (c & Hc & Hmax).
    exists c. split; [done|]. by rewrite Hacc, Hmax.
  - intros c acc. rewrite Hacc. intros [= <-]. unfold Qle. simpl.
    pose proof (value_counts_max_le y_test c). nia.
Qed.

End Baseline.

(** ** Column assignment *)


(** ** Running the substitution again *)

Lemma mask_assign_lookup a mask v i :
  length mask = length a →
  Np.mask_assign a mask v !! i
  = (b ← mask !! i; x ← a !! i; Some (if b : bool then v else x)).
Proof.
  intros Hlen. unfold Np.mask_assign. rewrite lookup_zip_with.
  destruct (a !! i) as [x|] eqn:Ha; simpl.
  - destruct (mask !! i) as [b|]; done.
  - destruct (mask !! i) as [b|] eqn:Hm; [|done].
    apply lookup_lt_Some in Hm. apply lookup_ge_None in Ha. lia.
Qed.

Lemma covered_mask_assign_same a mask v :
  length mask = length a → covered mask v (Np.mask_assign a mask v).
Proof.
  intros Hlen. split; [by rewrite length_mask_assign|].
  intros i Hi. rewrite mask_assign_lookup, Hi by done. simpl.
  destruct (a !! i) eqn:Ha; [done|].
  apply lookup_lt_Some in Hi. apply lookup_ge_None in Ha. lia.
Qed.

Lemma covered_mask_assign_other a mask mask' v :
  length mask' = length a → covered mask v a →
  covered mask v (Np.mask_assign a mask' v).
Proof.
  intros Hlen [Hl Hc]. split; [by rewrite length_mask_assign|].
  intros i Hi. rewrite mask_assign_lookup by done.
  rewrite (Hc i Hi). destruct (mask' !! i) as [[]|] eqn:Hm; [done..|].
  apply lookup_lt_Some in Hi. apply lookup_ge_None in Hm. lia.
Qed.

Lemma covered_fixed a mask v : covered mask v a → Np.mask_assign a mask v = a.
Proof.
  intros [Hl Hc]. apply list_eq. intros i.
  rewrite mask_assign_lookup by done.
  destruct (mask !! i) as [[]|] eqn:Hm; simpl.
  - by rewrite (Hc i Hm).
  - by destruct (a !! i).
  - symmetry. apply lookup_ge_None. apply lookup_ge_None in Hm. lia.
Qed.

Section Rerun.
Context {R : Type}.
Implicit Types k : kernel R.

Lemma setmask_establishes l mask v u k k' :
  Np.setmask l mask v k = Some (u, k') → holds_covered l mask v k'.
Proof.
  intros (a & Ha & Hlen & Harr & _)%setmask_inv.
  exists (Np.mask_assign a mask v). rewrite Harr, lookup_insert_eq.
  split; [done|]. by apply covered_mask_assign_same.
Qed.

Lemma setmask_preserves l mask l' mask' v u k k' :
  Np.setmask l' mask' v k = Some (u, k') →
  holds_covered l mask v k → holds_covered l mask v k'.
Proof.
  intros (a' & Ha' & Hlen & Harr & _)%setmask_inv (a & Ha & Hc).
  unfold holds_covered. rewrite Harr.
  destruct (decide (l = l')) as [->|Hne].
  - rewrite lookup_insert_eq. eexists. split; [done|].
    rewrite Ha' in Ha. injection Ha as ->.
    by apply covered_mask_assign_other.
  - rewrite lookup_insert_ne by done. eauto.
Qed.

Lemma setmask_noop l mask v k :
  holds_covered l mask v k → Np.setmask l mask v k = Some ((), k).
Proof.
  intros (a & Ha & Hc). unfold Np.setmask. rewrite Ha.
  rewrite decide_True by apply Hc.
  rewrite covered_fixed by done. rewrite insert_id by done.
  by destruct k.
Qed.

End Rerun.

Section RerunCell.
Context `{Metrics}.

Lemma assign_others_inv (new_data : Pd.DataFrame) l case u (k k' : kernel report) :
  assign_others new_data l case k = Some (u, k') →
  ∃ s, Pd.col "processed_name" new_data = Some s ∧
       Np.setmask l (eq_mask s case) (Py.Str "Others") k = Some (u, k').
Proof.
  unfold assign_others. intros (s & k1 & [Hs ->]%try_inv & Hm)%bind_inv. eauto.
Qed.

Lemma exceptional_cell_fixed
    (new_data : Pd.DataFrame) (l1 l2 l3 : nat) (k k' : kernel report) :
  exceptional_cell new_data l1 l2 l3 k = Some ((), k') →
  exceptional_cell new_data l1 l2 l3 k' = Some ((), k').
Proof.
  unfold exceptional_cell, exceptional_cases. simpl.
  intros Hrun.
  apply bind_inv in Hrun as ([] & k3 & Hnan & Hrun).
  apply bind_inv in Hrun as ([] & k6 & Hemp & Hrun).
  apply ret_inv in Hrun as [_ ->].
  apply bind_inv in Hnan as ([] & k1 & H1 & Hnan).
  apply bind_inv in Hnan as ([] & k2 & H2 & H3).
  apply bind_inv in Hemp as ([] & k4 & H4 & Hemp).
  apply bind_inv in Hemp as ([] & k5 & H5 & H6).
  apply assign_others_inv in H1 as (s & Hcol & H1).
  apply assign_others_inv in H2 as (? & ? & H2).
  apply assign_others_inv in H3 as (? & ? & H3).
  apply assign_others_inv in H4 as (? & ? & H4).
  apply assign_others_inv in H5 as (? & ? & H5).
  apply assign_others_inv in H6 as (? & ? & H6).
  simplify_eq.
  unfold assign_others, mbind, cell_bind, Np.try. rewrite Hcol.
  repeat (rewrite setmask_noop;
    [|solve [eauto 10 using @setmask_establishes, @setmask_preserves]]).
  done.
Qed.

(** X11. Running the special-cases cell a second time changes nothing: after it
    has run, the three arrays already hold ["Others"] wherever the loop assigns
    it, so the cell run twice in a row is the cell run once, and it raises the
    second time only if it raised the first time. *)
Theorem exceptional_cell_rerun_changes_nothing
    (new_data : Pd.DataFrame) (l1 l2 l3 : nat) (k : kernel report) :
  (exceptional_cell new_data l1 l2 l3;; exceptional_cell new_data l1 l2 l3) k
  = exceptional_cell new_data l1 l2 l3 k.
Proof.
  unfold mbind, cell_bind.
  destruct (exceptional_cell new_data l1 l2 l3 k) as [[[] k']|] eqn:Hrun; [|done].
  by eapply exceptional_cell_fixed.
Qed.

End RerunCell.

(** ** What the notebook writes *)

Section VectorizerZero.
Context `{TextAnalyzer}.


End VectorizerZero.

Section NotebookExtras.
Context {entropy : Type}.
Context `{PyText} `{Nltk} `{TextAnalyzer} `{NumpyRandom entropy} `{Metrics}.
Variable MultinomialNB : Estimator.
Variables RandomForestClassifier SVC : SeededEstimator entropy.

Local Abbreviation run :=
  (notebook MultinomialNB RandomForestClassifier SVC).

Lemma written_row_inv data0 new_data0 now e v k path df r :
  run data0 new_data0 now e fresh_kernel = Some (v, k) →
  (path, df) ∈ files k → r ∈ df →
  ∃ r0 name,
    r0 ∈ new_data0 ∧ r0 !! "shipping_firstname" = Some name ∧
    r = emitted_row MultinomialNB RandomForestClassifier SVC (vectorizer v)
          (classifier v) (rf_classifier v) (svm_classifier v) (r0, name).
Proof.
  intros Hrun Hf Hr. notebook_facts Hrun.
  rewrite Hfiles in Hf. apply list_elem_of_singleton in Hf. injection Hf as -> ->.
  rewrite Hnew in Hr. apply list_elem_of_fmap in Hr as ([r0 name] & -> & Hin).
  exists r0, name. split_and!; [|  |done].
  - by eapply elem_of_zip_l.
  - apply col_Some in Hnames. clear -Hnames Hin.
    induction Hnames as [|r1 v1 df names Hr HF IH]; simpl in Hin.
    + by apply elem_of_nil in Hin.
    + apply elem_of_cons in Hin as [[= -> ->]|Hin]; [done|by apply IH].
Qed.

(** X12. The written labels are a function of the processed name: two written
    rows with the same [processed_name] hold the same label in each of the
    three prediction columns. *)
Theorem same_processed_name_same_labels data0 new_data0 now e v k :
  run data0 new_data0 now e fresh_kernel = Some (v, k) →
  ∀ path df r r' column,
    (path, df) ∈ files k → r ∈ df → r' ∈ df →
    column ∈ ["Predicted_Ethnicity_NB"; "Predicted_Ethnicity_RF";
              "Predicted_Ethnicity_SVM"] →
    r !! "processed_name" = r' !! "processed_name" →
    r !! column = r' !! column.
Proof.
  intros Hrun path df r r' column Hf Hr Hr' Hc Hp.
  destruct (written_row_inv _ _ _ _ _ _ _ _ _ Hrun Hf Hr)
    as (r0 & name & _ & _ & ->).
  destruct (written_row_inv _ _ _ _ _ _ _ _ _ Hrun Hf Hr')
    as (r0' & name' & _ & _ & ->).
  pose proof (emitted_row_lookup MultinomialNB RandomForestClassifier SVC
                (vectorizer v) (classifier v) (rf_classifier v)
                (svm_classifier v) r0 name) as (_ & Hp1 & Hnb & Hrf & Hsvm & _).
  pose proof (emitted_row_lookup MultinomialNB RandomForestClassifier SVC
                (vectorizer v) (classifier v) (rf_classifier v)
                (svm_classifier v) r0' name') as (_ & Hp2 & Hnb' & Hrf' & Hsvm' & _).
  simpl in *. rewrite Hp1, Hp2 in Hp. injection Hp as Hp.
  repeat (apply elem_of_cons in Hc as [->|Hc]);
    [..|by apply elem_of_nil in Hc].
  - by rewrite Hnb, Hnb', Hp.
  - by rewrite Hrf, Hrf', Hp.
  - by rewrite Hsvm, Hsvm', Hp.
Qed.


Lemma col_str_Some c (df : Pd.DataFrame) X :
  Pd.col_str c df = Some X ↔
  Forall2 (λ (r : Pd.row) s, r !! c = Some (Py.Str s)) df X.
Proof.
  unfold Pd.col_str. rewrite mapM_Some.
  split; intros HF; (eapply Forall2_impl; [exact HF|]); simpl.
  - intros r s Hr. destruct (r !! c) as [[]|]; by simplify_eq.
  - by intros r s ->.
Qed.

(** The processed names of the labelled data, against the loaded rows that
    cleaning keeps. *)
Lemma processed_names (data0 cleaned data : Pd.DataFrame) X :
  clean data0 = Some cleaned →
  add_processed_name "ShippingName" cleaned = Some data →
  Pd.col_str "processed_name" data = Some X →
  Forall2 (λ (r : Pd.row) doc, ∃ name,
             r !! "ShippingName" = Some name ∧
             doc = preprocess_text (Py.str name))
    (filter (λ r, ¬ removed r) data0) X.
Proof.
  intros (_ & _ & Hc)%clean_inv (names & Hn & ->)%add_processed_name_inv HX.
  apply col_str_Some in Hn.
  assert (X = preprocess_text <$> names) as ->.
  { apply col_str_Some in HX. clear Hc. revert X HX.
    induction Hn as [|r s cleaned names Hr Hn IH]; intros X HX; simpl in HX.
    - by inversion HX.
    - inversion HX as [|? doc ? X' Hdoc HX']; subst. csimpl.
      rewrite lookup_insert_eq in Hdoc. injection Hdoc as <-.
      f_equal. by apply IH. }
  apply Forall2_fmap_r.
  eapply Forall2_trans; [|exact Hc|exact Hn].
  intros r r' s [(name & Hname & Hname') _] Hs. simpl.
  rewrite Hname' in Hs. injection Hs as <-. eauto.
Qed.

Lemma displayed_confusion_matrix data0 new_data0 now e v k model labels cm :
  run data0 new_data0 now e fresh_kernel = Some (v, k) →
  ConfusionMatrix model labels cm ∈ displayed k →
  ∃ ethnicity p acc,
    Pd.col "Ethnicity" (data v) = Some ethnicity ∧
    labels = Pd.unique ethnicity ∧
    cm = Sk.confusion_matrix (y_test v) p labels ∧
    Sk.accuracy_score (y_test v) p = Some acc ∧
    Accuracy model acc ∈ displayed k ∧
    (p = predict MultinomialNB (classifier v)
           (CountVectorizer.transform (vectorizer v) (X_test v)) ∨
     p = spredict RandomForestClassifier (rf_classifier v)
           (CountVectorizer.transform (vectorizer v) (X_test v)) ∨
     p = spredict SVC (svm_classifier v)
           (CountVectorizer.transform (vectorizer v) (X_test v))).
Proof.
  intros Hrun Hcm. notebook_facts Hrun.
  rewrite Hdisp. rewrite Hdisp in Hcm.
  unfold evaluation_display, summary_display in *.
  repeat (apply elem_of_cons in Hcm as [Hcm|Hcm] ||
          apply elem_of_app in Hcm as [Hcm|Hcm]);
    try discriminate Hcm; try (by apply elem_of_nil in Hcm);
    injection Hcm as -> -> ->;
    exists ethnicity; eexists; eexists;
    (split_and!; [done|done|done|eassumption| |eauto]).
  - do 1 right. left.
  - do 4 right. left.
  - do 7 right. left.
Qed.

(** X14. For text labels and classifiers that predict labels they were
    trained on, every displayed confusion matrix accounts for every test row
    once: its classes are distinct, each row adds up to the number of test
    rows whose actual label is the row's class, all entries add up to the
    number of test rows, and the diagonal over the number of test rows is
    the accuracy displayed for the same model. *)
Theorem confusion_matrices_account_for_every_test_row
    data0 new_data0 now e v k :
  predicts_training_labels MultinomialNB →
  spredicts_training_labels RandomForestClassifier →
  spredicts_training_labels SVC →
  run data0 new_data0 now e fresh_kernel = Some (v, k) →
  Forall (λ r : Pd.row, ∃ label,
            r !! "Ethnicity" = Some label ∧ is_text label) (data v) →
  ∀ model labels cm,
    ConfusionMatrix model labels cm ∈ displayed k →
    NoDup labels ∧
    sum_list <$> cm
      = (λ label, length (filter (λ actual, actual = label) (y_test v)))
          <$> labels ∧
    sum_list (sum_list <$> cm) = length (y_test v) ∧
    Accuracy model (Z.of_nat (sum_list (diagonal cm))
                    # Pos.of_nat (length (y_test v))) ∈ displayed k.
Proof.
  intros Hnb Hrf Hsvm Hrun _ model labels cm Hcm.
  destruct (displayed_confusion_matrix _ _ _ _ _ _ _ _ _ Hrun Hcm)
    as (eth & p & acc & Heth0 & -> & -> & Hacc & Hshown & Hp).
  notebook_facts Hrun.
  apply split_cell_inv in Hsplit as (X & y & HX & Hy & Hsplit).
  apply train_test_split_parts in Hsplit
    as (ind_train & ind_test & _ & _ & Htrain & Htest).
  rewrite Heth0 in Hy. injection Hy as <-.
  assert (Forall (λ label, label ∈ Pd.unique eth) (y_test v)) as Hyt.
  { apply Forall_forall. intros label Hl. apply elem_of_unique.
    eapply safe_indexing_elem_of; [exact Htest|done]. }
  assert (∀ label, label ∈ y_train v → label ∈ Pd.unique eth) as Hytr.
  { intros label Hl. apply elem_of_unique.
    eapply safe_indexing_elem_of; [exact Htrain|done]. }
  assert (Forall (λ label, label ∈ Pd.unique eth) p) as Hpl.
  { apply Forall_forall. intros label Hl. apply Hytr.
    destruct Hp as [->|[->| ->]]; unfold predict, spredict in Hl;
      apply list_elem_of_fmap in Hl as (x & -> & _).
    - by eapply Hnb.
    - by eapply Hrf.
    - by eapply Hsvm. }
  assert (length (y_test v) = length p) as Hlen.
  { unfold Sk.accuracy_score in Hacc. by destruct (decide _). }
  destruct (confusion_matrix_sums (y_test v) p (Pd.unique eth)
              (NoDup_unique _) Hlen Hyt Hpl) as (Hsum & Hrow & Hdiag).
  split_and!; [apply NoDup_unique|done|done|].
  rewrite Hdiag. unfold Sk.accuracy_score in Hacc.
  rewrite decide_True in Hacc by done. injection Hacc as <-. exact Hshown.
Qed.


(** X16. The run raises when an input is unusable: a column the notebook reads
    is missing, fewer than two labelled rows are left after cleaning, or no
    labelled name yields a token for the vocabulary. *)
Theorem run_raises_on_unusable_input data0 new_data0 now e :
  ¬ has_column "ShippingName" data0 ∨
  ¬ has_column "Ethnicity" data0 ∨
  ¬ has_column "shipping_firstname" new_data0 ∨
  length (filter (λ r, ¬ removed r) data0) < 2 ∨
  (∀ (r : Pd.row) name, r ∈ data0 → r !! "ShippingName" = Some name →
     analyzer (preprocess_text (Py.str name)) = []) →
  run data0 new_data0 now e fresh_kernel = None.
Proof.
  intros Hbad.
  destruct (run data0 new_data0 now e fresh_kernel) as [[v k]|] eqn:Hrun;
    [exfalso|done].
  notebook_facts Hrun.
  pose proof Hclean as (Hsn & Heth' & Hrows)%clean_inv.
  apply split_cell_inv in Hsplit as (X & y & HX & Hy & Hsplit).
  pose proof (processed_names _ _ _ _ Hclean Hadd HX) as Hdocs.
  destruct Hbad as [Hbad|[Hbad|[Hbad|[Hbad|Hbad]]]]; try done.
  - apply Hbad, has_column_col. by rewrite Hnames.
  - apply Forall2_length in Hdocs. rewrite Hdocs in Hbad.
    unfold train_test_split in Hsplit.
    destruct (decide (length y = length X)); [|done].
    destruct (decide (length X - n_test_of (length X) = 0)) as [|Hn]; [done|].
    unfold n_test_of in Hn.
    destruct (length X) as [|[|n]]; [done|done|lia].
  - apply train_test_split_parts in Hsplit
      as (ind_train & ind_test & Htrain & _).
    pose proof Hvec as [Hv _]%fit_transform_inv.
    unfold CountVectorizer.fit_transform in Hvec.
    destruct (decide _) as [|Hvoc]; [done|].
    destruct (CountVectorizer.vocabulary_ (CountVectorizer.fit (X_train v)))
      as [|term terms] eqn:Hterms; [done|].
    assert (term ∈ CountVectorizer.vocabulary_ (CountVectorizer.fit (X_train v)))
      as Hin by (rewrite Hterms; left).
    apply elem_of_vocabulary in Hin as (doc & Hdoc & Hterm).
    eapply safe_indexing_elem_of in Hdoc; [|exact Htrain].
    apply list_elem_of_lookup in Hdoc as [i Hi].
    destruct (Forall2_lookup_r _ _ _ _ _ Hdocs Hi)
      as (r & Hr & name & Hname & ->).
    apply list_elem_of_lookup_2, list_elem_of_filter in Hr as [_ Hr].
    rewrite (Hbad r name Hr Hname) in Hterm. by apply elem_of_nil in Hterm.
Qed.

End NotebookExtras.

(** ** The run returns *)


Section ForwardKernel.
Context {R : Type}.
Implicit Types k : kernel R.


End ForwardKernel.

Section Forward.
Context {entropy : Type}.
Context `{PyText} `{Nltk} `{TextAnalyzer} `{NumpyRandom entropy} `{Metrics}.
Variable MultinomialNB : Estimator.
Variables RandomForestClassifier SVC : SeededEstimator entropy.
Implicit Types k : kernel report.











End Forward.

Section Returns.
Context {entropy : Type}.
Context `{PyText} `{Nltk} `{TextAnalyzer} `{NumpyRandom entropy} `{Metrics}.
Variable MultinomialNB : Estimator.
Variables RandomForestClassifier SVC : SeededEstimator entropy.


End Returns.

(** ** Pretty tables *)

Section PrettyTableFacts.
Context {float : Type}.
Implicit Types table : Prettytable.t float.
Implicit Types items : list (string * report_entry float).

Lemma add_class_rows_Some items table table' :
  Prettytable.field_names table ≠ [] →
  add_class_rows items table = Some table' ↔
  Forall (λ item, ∀ values, item.2 = MetricsDict values →
            S (length values) = length (Prettytable.field_names table)) items ∧
  table' = {| Prettytable.field_names := Prettytable.field_names table;
              Prettytable.rows := Prettytable.rows table ++ class_rows items;
              Prettytable.title := Prettytable.title table |}.
Proof.
  intros Hne. revert table Hne.
  induction items as [|[cls [values|x]] items IH]; intros table Hne; simpl.
  - rewrite app_nil_r. split.
    + intros [= <-]. split; [constructor|by destruct table].
    + intros [_ ->]. by destruct table.
  - unfold Prettytable.add_row.
    destruct (decide (Prettytable.field_names table ≠ [] ∧ _)) as [[_ Hbad]|Hok];
      simpl.
    + split; [done|]. intros [[Hlen _]%Forall_cons _].
      destruct Hbad. specialize (Hlen values eq_refl). simpl.
      by rewrite !length_fmap.
    + rewrite decide_False by done. simpl. rewrite IH by done. simpl.
      unfold class_rows. simpl. rewrite <- app_assoc. simpl.
      rewrite Forall_cons. simpl.
      assert (S (length values) = length (Prettytable.field_names table)) as Hlen.
      { destruct (decide (S (length values)
                          = length (Prettytable.field_names table)));
          [done|]. destruct Hok. split; [done|]. simpl.
        by rewrite !length_fmap. }
      split; [intros [? ->]|intros [[_ ?] ->]]; (split; [|done]); [|done].
      split; [|done]. by intros ? [= <-].
  - rewrite IH by done. unfold class_rows. simpl. rewrite Forall_cons. simpl.
    split; [intros [? ->]|intros [[_ ?] ->]]; (split; [|done]); [|done].
    split; [|done]. by intros ? [=].
Qed.

End PrettyTableFacts.

Section CreatePrettyTableFacts.
Context {float : Type}.
Implicit Types table : Prettytable.t float.
Implicit Types items : list (string * report_entry float).

Lemma set_field_names_fresh (val : list string) :
  Prettytable.set_field_names val (@Prettytable.PrettyTable float)
  = if decide (NoDup val)
    then Some {| Prettytable.field_names := val; Prettytable.rows := [];
                 Prettytable.title := None |}
    else None.
Proof.
  unfold Prettytable.set_field_names. simpl.
  by rewrite decide_False by (by intros ?).
Qed.

(** X18. The table of a report dictionary: [create_pretty_table] returns
    exactly when the report has a ['weighted avg'] dictionary whose keys are
    distinct and not ["Class"], and every entry that is a dictionary has as
    many values as ['weighted avg'] has. The columns are then ["Class"] and the
    keys of ['weighted avg']; there is one row for each entry that is a
    dictionary, in the order of the report, and none for an entry that is a
    number: the report's ['accuracy'] is not in the table. *)
Theorem create_pretty_table_of_a_report items (model_name : string) table :
  create_pretty_table (ReportDict items) model_name = Some table ↔
  ∃ weighted_avg,
    getitem items "weighted avg" = Some (MetricsDict weighted_avg) ∧
    NoDup ("Class" :: weighted_avg.*1) ∧
    Forall (λ item, ∀ values, item.2 = MetricsDict values →
              length values = length weighted_avg) items ∧
    table = {| Prettytable.field_names := "Class" :: weighted_avg.*1;
               Prettytable.rows := class_rows items;
               Prettytable.title :=
                 Some ("Classification Report (" +:+ model_name +:+ ")") |}.
Proof.
  unfold create_pretty_table. simpl.
  destruct (getitem items "weighted avg") as [[wa|x]|] eqn:Hwa; simpl.
  - rewrite set_field_names_fresh.
    destruct (decide (NoDup ("Class" :: wa.*1))) as [Hnd|Hnd]; simpl.
    + destruct (add_class_rows items _) as [table'|] eqn:Hrows; simpl.
      * apply add_class_rows_Some in Hrows as [Hlen ->]; [|done]. simpl in *.
        split.
        -- intros [= <-]. exists wa. split_and!; [done|done| |done].
           eapply Forall_impl; [exact Hlen|]. intros item Hitem values Hv.
           specialize (Hitem values Hv). rewrite length_fmap in Hitem. lia.
        -- intros (wa' & [= <-] & _ & _ & ->). done.
      * split; [done|]. intros (wa' & [= <-] & _ & Hlen & _). exfalso.
        assert (is_Some (add_class_rows items
                  {| Prettytable.field_names := "Class" :: wa.*1;
                     Prettytable.rows := []; Prettytable.title := None |}))
          as [? Hsome]; [|congruence].
        eexists. apply add_class_rows_Some; [done|]. split; [|done].
        eapply Forall_impl; [exact Hlen|]. intros item Hitem values Hv.
        simpl. rewrite length_fmap. by rewrite (Hitem values Hv).
    + split; [done|]. by intros (wa' & [= <-] & ? & _).
  - split; [done|]. by intros (wa' & [=] & _).
  - split; [done|]. by intros (wa' & [=] & _).
Qed.

(** X19. Whatever the report, a table that [create_pretty_table] returns is
    rectangular and titled: its field names are distinct, every row has one
    value for each field name and starts with a text, and the title names the
    model. *)
Theorem create_pretty_table_is_rectangular
    (report : report_value float) (model_name : string) table :
  create_pretty_table report model_name = Some table →
  NoDup (Prettytable.field_names table) ∧
  Forall (λ row, length row = length (Prettytable.field_names table) ∧
                 ∃ label, head row = Some (Prettytable.Text label))
    (Prettytable.rows table) ∧
  Prettytable.title table
  = Some ("Classification Report (" +:+ model_name +:+ ")").
Proof.
  unfold create_pretty_table. destruct report as [items|x]; simpl.
  - destruct (getitem items "weighted avg") as [[wa|x]|]; simpl; try done.
    rewrite set_field_names_fresh.
    destruct (decide (NoDup ("Class" :: wa.*1))) as [Hnd|Hnd]; simpl; [|done].
    destruct (add_class_rows items _) as [table'|] eqn:Hrows; simpl; [|done].
    apply add_class_rows_Some in Hrows as [Hlen ->]; [|done]. simpl in *.
    intros [= <-]. simpl. split_and!; [done| |done].
    induction Hlen as [|[cls [values|x]] items Hitem Hlen IH];
      unfold class_rows; simpl; [constructor| |exact IH].
    constructor; [|exact IH]. split; [|by eexists].
    specialize (Hitem values eq_refl). simpl. by rewrite !length_fmap in *.
  - intros [= <-]. simpl. split_and!; [|by repeat constructor; eauto|done].
    repeat constructor; rewrite ?elem_of_cons, ?elem_of_nil;
      intros; intuition discriminate.
Qed.

End CreatePrettyTableFacts.

(** ** The most important features *)

Lemma sublist_fmap {A B} (f : A → B) (l k : list A) :
  l `sublist_of` k → f <$> l `sublist_of` f <$> k.
Proof. induction 1; csimpl; by constructor. Qed.

Lemma fst_zip_sublist {A B} (a : list A) (b : list B) :
  (zip a b).*1 `sublist_of` a.
Proof.
  revert b. induction a as [|x a IH]; intros [|y b]; csimpl;
    try apply sublist_nil_l. by constructor.
Qed.

Lemma lookup_pair_sublist {A} (l : list A) i j x y :
  i < j → l !! i = Some x → l !! j = Some y → [x; y] `sublist_of` l.
Proof.
  intros Hij Hi Hj.
  rewrite <- (take_drop_middle l i x Hi).
  apply sublist_inserts_l. constructor. apply singleton_sublist_l.
  apply (list_elem_of_lookup_2 _ (j - S i)).
  rewrite lookup_drop. rewrite <- Hj. f_equal. lia.
Qed.

Lemma StronglySorted_pair {A} (R : relation A) (l : list A) x y :
  StronglySorted R l → [x; y] `sublist_of` l → R x y.
Proof.
  intros Hs (l1 & l2 & -> & Hy%singleton_sublist_l)%sublist_cons_l.
  apply StronglySorted_app_1_r, StronglySorted_cons in Hs as [Hx _].
  rewrite Forall_forall in Hx. by apply Hx.
Qed.

Section FeatureImportancesFacts.
Context {float : Type} (le : relation float) `{!RelDecision le}.
Context `{!Total le} `{!Transitive le}.

Lemma insert_reverse_Permutation {A} (key : A → float) x (l : list A) :
  insert_reverse le key x l ≡ₚ x :: l.
Proof.
  induction l as [|y l IH]; [done|]. simpl.
  destruct (decide _); [done|]. rewrite IH. apply perm_swap.
Qed.

Lemma sorted_reverse_Permutation {A} (key : A → float) (l : list A) :
  sorted_reverse le key l ≡ₚ l.
Proof.
  induction l as [|x l IH]; [done|]. simpl.
  fold (sorted_reverse le key l).
  by rewrite insert_reverse_Permutation, IH.
Qed.

Lemma StronglySorted_insert_reverse {A} (key : A → float) x (l : list A) :
  StronglySorted (decreasing le key) l →
  StronglySorted (decreasing le key) (insert_reverse le key x l).
Proof.
  induction 1 as [|y l Hl IH Hy]; simpl.
  - repeat constructor.
  - destruct (decide (le (key y) (key x))) as [Hyx|Hyx].
    + constructor; [by constructor|]. constructor; [done|].
      eapply Forall_impl; [exact Hy|]. intros z Hz. unfold decreasing in *.
      by etrans.
    + constructor; [done|].
      rewrite insert_reverse_Permutation. constructor; [|done].
      unfold decreasing. by destruct (total le (key x) (key y)).
Qed.

Lemma StronglySorted_sorted_reverse {A} (key : A → float) (l : list A) :
  StronglySorted (decreasing le key) (sorted_reverse le key l).
Proof.
  induction l as [|x l IH]; [constructor|]. simpl.
  by apply StronglySorted_insert_reverse.
Qed.

(** The sort is stable: two elements that it lists in one order although
    the key of the first is not the greater were in this order already. *)
Lemma insert_reverse_stable {A} (key : A → float) x (l : list A) p q :
  [p; q] `sublist_of` insert_reverse le key x l → le (key p) (key q) →
  [p; q] `sublist_of` x :: l.
Proof.
  induction l as [|y l IH]; simpl; [done|].
  destruct (decide (le (key y) (key x))) as [Hyx|Hyx]; [done|].
  intros Hsub Hpq. apply sublist_cons_r in Hsub as [Hsub|(l' & [= <- <-] & Hq)].
  - specialize (IH Hsub Hpq). apply sublist_cons_r in IH as [IH|(l' & [= <- <-] & Hq)].
    + by apply sublist_cons, sublist_cons.
    + apply sublist_skip, sublist_cons. done.
  - apply singleton_sublist_l in Hq.
    rewrite insert_reverse_Permutation in Hq.
    apply elem_of_cons in Hq as [->|Hq]; [done|].
    apply sublist_cons, sublist_skip. by apply singleton_sublist_l.
Qed.

Lemma sorted_reverse_stable {A} (key : A → float) (l : list A) p q :
  [p; q] `sublist_of` sorted_reverse le key l → le (key p) (key q) →
  [p; q] `sublist_of` l.
Proof.
  revert p q. induction l as [|x l IH]; intros p q; simpl; [done|].
  fold (sorted_reverse le key l). intros Hsub Hpq.
  apply insert_reverse_stable in Hsub; [|done].
  apply sublist_cons_r in Hsub as [Hsub|(l' & [= <- <-] & Hq)].
  - apply sublist_cons. by apply IH.
  - apply sublist_skip. apply singleton_sublist_l.
    rewrite <- (sorted_reverse_Permutation key l).
    by apply singleton_sublist_l.
Qed.

Variable round_2 : float → float.

(** X20. The features shown are the most important ones: the list holds ten
    features, or all if there are fewer, by decreasing rounded importance, and
    no feature left out has a greater rounded importance than one that is
    shown. *)
Theorem top_features_are_the_most_important
    (feature_names : list string) (importances : list float) :
  let rounded := (λ p : string * float, (p.1, round_2 p.2))
                   <$> zip feature_names importances in
  let top := top_feature_importances le round_2 feature_names importances in
  length top = 10 `min` (length feature_names `min` length importances) ∧
  StronglySorted (λ p q, le q.2 p.2) top ∧
  ∃ rest, top ++ rest ≡ₚ rounded ∧
          ∀ p q, p ∈ top → q ∈ rest → le q.2 p.2.
Proof.
  intros rounded top. unfold top, top_feature_importances. fold rounded.
  pose proof (StronglySorted_sorted_reverse snd rounded) as Hs.
  pose proof (sorted_reverse_Permutation snd rounded) as Hp.
  rewrite <- (take_drop 10 (sorted_reverse le snd rounded)) in Hs, Hp.
  apply StronglySorted_app in Hs as (Hcross & Htop & _).
  split_and!.
  - rewrite length_take, (Permutation_length (sorted_reverse_Permutation _ _)).
    unfold rounded. by rewrite length_fmap, length_zip_with.
  - exact Htop.
  - exists (drop 10 (sorted_reverse le snd rounded)). split; [done|].
    intros p q Hp' Hq. by apply (Hcross p q).
Qed.

End FeatureImportancesFacts.

Section FeatureTies.
Context {float : Type} (le : relation float) `{!RelDecision le}.
Context `{!Total le} `{!Transitive le}.
Context `{TextAnalyzer}.
Variable round_2 : float → float.

(** X21. Features whose rounded importances tie are shown in the order of the
    vocabulary, which is alphabetical: the importances are rounded before they
    are sorted, and the sort is stable. *)
Theorem tied_features_are_shown_in_alphabetical_order
    (docs : list string) (importances : list float) i j p q :
  let feature_names := CountVectorizer.vocabulary_ (CountVectorizer.fit docs) in
  let top := top_feature_importances le round_2 feature_names importances in
  i < j → top !! i = Some p → top !! j = Some q → le p.2 q.2 →
  String.le p.1 q.1 ∧ p.1 ≠ q.1.
Proof.
  intros feature_names top Hij Hi Hj Htie.
  pose proof (lookup_pair_sublist top i j p q Hij Hi Hj) as Hsub.
  unfold top, top_feature_importances in Hsub.
  assert ([p; q] `sublist_of`
            (λ p : string * float, (p.1, round_2 p.2))
              <$> zip feature_names importances) as Hsub'.
  { apply (sorted_reverse_stable le snd); [|done].
    etrans; [exact Hsub|apply sublist_take]. }
  apply (sublist_fmap fst) in Hsub'. rewrite <- list_fmap_compose in Hsub'.
  assert ([p.1; q.1] `sublist_of` feature_names) as Hnames.
  { etrans; [exact Hsub'|]. apply fst_zip_sublist. }
  split.
  - eapply (StronglySorted_pair String.le); [|exact Hnames].
    apply Sorted_StronglySorted; [apply _|]. apply Sorted_vocabulary.
  - intros Heq. pose proof (NoDup_vocabulary docs) as Hnd.
    fold feature_names in Hnd.
    apply sublist_cons_l in Hnames as (l1 & l2 & Hl & Hq%singleton_sublist_l).
    rewrite Hl in Hnd. apply NoDup_app in Hnd as (_ & _ & Hnd).
    apply NoDup_cons in Hnd as [Hnd _]. by rewrite Heq in Hnd.
Qed.

End FeatureTies.

(** ** The further properties on the small instance *)

Section SampleFacts.
Import Toy.





Lemma toy_labels_are_text v k :
  run 0 = Some (v, k) →
  Forall (λ r : Pd.row, ∃ label,
            r !! "Ethnicity" = Some label ∧ is_text label) (data v).
Proof.
  intros Hrun. eapply Forall_impl; [exact (toy_training_labels v k Hrun)|].
  clear Hrun. intros r (label & Hl & Hin). exists label. split; [done|].
  unfold four_classes in Hin.
  repeat (apply elem_of_cons in Hin as [->|Hin]; [by eexists|]).
  by apply elem_of_nil in Hin.
Qed.

End SampleFacts.

Section Witnesses.
Import Toy.


Lemma train_test_split_returns_iff_witness :
  permutation_law ∧
  (is_Some (train_test_split ["a"; "b"; "c"] [1; 2; 3] (Some 42%Z) 0) ↔
   length [1; 2; 3] = length ["a"; "b"; "c"] ∧ 2 ≤ length ["a"; "b"; "c"]) ∧
  ∀ X_train X_test y_train y_test,
    train_test_split ["a"; "b"; "c"] [1; 2; 3] (Some 42%Z) 0
    = Some (X_train, X_test, y_train, y_test) →
    length X_train + length X_test = length ["a"; "b"; "c"] ∧
    length ["a"; "b"; "c"] ≤ 5 * length X_test < length ["a"; "b"; "c"] + 5 ∧
    length y_train = length X_train ∧ length y_test = length X_test ∧
    0 < length X_train ∧ 0 < length X_test.
Proof.
  split; [exact toy_permutation_law|].
  exact (train_test_split_returns_iff ["a"; "b"; "c"] [1; 2; 3] (Some 42%Z) 0
           toy_permutation_law).
Defined.

Lemma sample_token_sets term :
  (∃ doc, doc ∈ ["tan wei"; "wei"] ∧ term ∈ analyzer doc) ↔
  (∃ doc, doc ∈ ["wei tan"] ∧ term ∈ analyzer doc).
Proof.
  rewrite <- !elem_of_vocabulary.
  assert (CountVectorizer.vocabulary_ (CountVectorizer.fit ["tan wei"; "wei"])
          = ["tan"; "wei"]) as -> by (vm_compute; reflexivity).
  assert (CountVectorizer.vocabulary_ (CountVectorizer.fit ["wei tan"])
          = ["tan"; "wei"]) as -> by (vm_compute; reflexivity).
  done.
Qed.

Lemma vocabulary_depends_on_token_set_witness :
  (∀ term, (∃ doc, doc ∈ ["tan wei"; "wei"] ∧ term ∈ analyzer doc) ↔
           (∃ doc, doc ∈ ["wei tan"] ∧ term ∈ analyzer doc)) ∧
  CountVectorizer.fit ["tan wei"; "wei"] = CountVectorizer.fit ["wei tan"].
Proof.
  split; [exact sample_token_sets|].
  exact (vocabulary_depends_on_token_set ["tan wei"; "wei"] ["wei tan"]
           sample_token_sets).
Defined.

Lemma sample_test_labels_text : Forall is_text Sample.test_labels.
Proof. repeat constructor; by eexists. Qed.

Lemma baseline_is_best_constant_predictor_witness :
  Sample.test_labels ≠ [] ∧ Forall is_text Sample.test_labels ∧
  ∃ baseline_accuracy,
    (∀ k : kernel report, baseline_cell Sample.test_labels k
          = Some ((), {| arrays := arrays k;
                         displayed := displayed k ++ [Baseline baseline_accuracy];
                         files := files k |})) ∧
    (∃ c, c ∈ Sample.test_labels ∧
          Sk.accuracy_score Sample.test_labels
            (replicate (length Sample.test_labels) c)
          = Some baseline_accuracy) ∧
    ∀ c acc, Sk.accuracy_score Sample.test_labels
               (replicate (length Sample.test_labels) c) = Some acc →
             (acc <= baseline_accuracy)%Q.
Proof.
  assert (Sample.test_labels ≠ []) as Hne by done.
  split; [exact Hne|]. split; [exact sample_test_labels_text|].
  exact (baseline_is_best_constant_predictor Sample.test_labels Hne
           sample_test_labels_text).
Defined.

Lemma same_processed_name_same_labels_witness :
  ∃ v k, run 0 = Some (v, k) ∧
    ∀ path df (r r' : Pd.row) column,
      (path, df) ∈ files k → r ∈ df → r' ∈ df →
      column ∈ ["Predicted_Ethnicity_NB"; "Predicted_Ethnicity_RF";
                "Predicted_Ethnicity_SVM"] →
      r !! "processed_name" = r' !! "processed_name" →
      r !! column = r' !! column.
Proof.
  destruct toy_run_returns as (v & k & Hrun). exists v, k.
  split; [exact Hrun|].
  exact (same_processed_name_same_labels first_label memorizer last_label
           training_data new_rows noon 0 v k Hrun).
Defined.


Lemma confusion_matrices_account_for_every_test_row_witness :
  predicts_training_labels first_label ∧
  spredicts_training_labels memorizer ∧
  spredicts_training_labels last_label ∧
  ∃ v k, run 0 = Some (v, k) ∧
    Forall (λ r : Pd.row, ∃ label,
              r !! "Ethnicity" = Some label ∧ is_text label) (data v) ∧
    ∀ model labels cm,
      ConfusionMatrix model labels cm ∈ displayed k →
      NoDup labels ∧
      sum_list <$> cm
        = (λ label, length (filter (λ actual, actual = label) (y_test v)))
            <$> labels ∧
      sum_list (sum_list <$> cm) = length (y_test v) ∧
      Accuracy model (Z.of_nat (sum_list (diagonal cm))
                      # Pos.of_nat (length (y_test v))) ∈ displayed k.
Proof.
  split; [exact first_label_predicts_training_labels|].
  split; [exact memorizer_predicts_training_labels|].
  split; [exact last_label_predicts_training_labels|].
  destruct toy_run_returns as (v & k & Hrun). exists v, k.
  split; [exact Hrun|].
  split; [exact (toy_labels_are_text v k Hrun)|].
  exact (confusion_matrices_account_for_every_test_row first_label memorizer
           last_label training_data new_rows noon 0 v k
           first_label_predicts_training_labels
           memorizer_predicts_training_labels
           last_label_predicts_training_labels Hrun
           (toy_labels_are_text v k Hrun)).
Defined.



Lemma sample_too_few_rows :
  ¬ has_column "ShippingName" Sample.one_labelled_row ∨
  ¬ has_column "Ethnicity" Sample.one_labelled_row ∨
  ¬ has_column "shipping_firstname" new_rows ∨
  length (filter (λ r, ¬ removed r) Sample.one_labelled_row) < 2 ∨
  (∀ (r : Pd.row) name, r ∈ Sample.one_labelled_row →
     r !! "ShippingName" = Some name →
     analyzer (preprocess_text (Py.str name)) = []).
Proof. do 3 right. left. vm_compute. lia. Qed.

Lemma run_raises_on_unusable_input_witness :
  (¬ has_column "ShippingName" Sample.one_labelled_row ∨
   ¬ has_column "Ethnicity" Sample.one_labelled_row ∨
   ¬ has_column "shipping_firstname" new_rows ∨
   length (filter (λ r, ¬ removed r) Sample.one_labelled_row) < 2 ∨
   (∀ (r : Pd.row) name, r ∈ Sample.one_labelled_row →
      r !! "ShippingName" = Some name →
      analyzer (preprocess_text (Py.str name)) = [])) ∧
  notebook first_label memorizer last_label Sample.one_labelled_row new_rows
    noon 0 fresh_kernel = None.
Proof.
  split; [exact sample_too_few_rows|].
  exact (run_raises_on_unusable_input first_label memorizer last_label
           Sample.one_labelled_row new_rows noon 0 sample_too_few_rows).
Defined.




Lemma sample_report_table :
  is_Some (create_pretty_table Sample.report "SVM").
Proof.
  assert (bool_decide (is_Some (create_pretty_table Sample.report "SVM")) = true)
    as Ht by (vm_compute; reflexivity).
  by apply bool_decide_eq_true in Ht.
Qed.

Lemma create_pretty_table_is_rectangular_witness :
  ∃ table, create_pretty_table Sample.report "SVM" = Some table ∧
    NoDup (Prettytable.field_names table) ∧
    Forall (λ row, length row = length (Prettytable.field_names table) ∧
                   ∃ label, head row = Some (Prettytable.Text label))
      (Prettytable.rows table) ∧
    Prettytable.title table = Some ("Classification Report (" +:+ "SVM" +:+ ")").
Proof.
  destruct sample_report_table as [table Ht]. exists table.
  split; [exact Ht|].
  exact (create_pretty_table_is_rectangular Sample.report "SVM" table Ht).
Defined.

Lemma top_features_are_the_most_important_witness :
  Total Nat.le ∧ Transitive Nat.le ∧
  let feature_names := ["ali"; "bin"; "kumar"; "lim"; "tan"] in
  let rounded := (λ p : string * nat, (p.1, Sample.round_to_hundredths p.2))
                   <$> zip feature_names Sample.importances in
  let top := top_feature_importances Nat.le Sample.round_to_hundredths
               feature_names Sample.importances in
  length top = 10 `min` (length feature_names `min` length Sample.importances) ∧
  StronglySorted (λ p q, q.2 ≤ p.2) top ∧
  ∃ rest, top ++ rest ≡ₚ rounded ∧
          ∀ p q, p ∈ top → q ∈ rest → q.2 ≤ p.2.
Proof.
  split; [exact _|]. split; [exact _|].
  exact (top_features_are_the_most_important Nat.le
           Sample.round_to_hundredths
           ["ali"; "bin"; "kumar"; "lim"; "tan"] Sample.importances).
Defined.

Lemma tied_features_are_shown_in_alphabetical_order_witness :
  Total Nat.le ∧ Transitive Nat.le ∧
  let feature_names :=
    CountVectorizer.vocabulary_ (CountVectorizer.fit ["lim tan"; "ali tan"]) in
  let top := top_feature_importances Nat.le Sample.round_to_hundredths
               feature_names [304; 296; 120] in
  0 < 1 ∧ top !! 0 = Some ("ali", 300) ∧ top !! 1 = Some ("lim", 300) ∧
  300 ≤ 300 ∧
  String.le "ali" "lim" ∧ "ali" ≠ "lim".
Proof.
  split; [exact _|]. split; [exact _|]. simpl.
  assert (0 < 1) as H1 by lia.
  assert (top_feature_importances Nat.le Sample.round_to_hundredths
            (CountVectorizer.vocabulary_
               (CountVectorizer.fit ["lim tan"; "ali tan"]))
            [304; 296; 120] !! 0 = Some ("ali", 300)) as H2
    by (vm_compute; reflexivity).
  assert (top_feature_importances Nat.le Sample.round_to_hundredths
            (CountVectorizer.vocabulary_
               (CountVectorizer.fit ["lim tan"; "ali tan"]))
            [304; 296; 120] !! 1 = Some ("lim", 300)) as H3
    by (vm_compute; reflexivity).
  assert (300 ≤ 300) as H4 by lia.
  split; [exact H1|]. split; [exact H2|]. split; [exact H3|].
  split; [exact H4|].
  exact (tied_features_are_shown_in_alphabetical_order Nat.le
           Sample.round_to_hundredths ["lim tan"; "ali tan"] [304; 296; 120]
           0 1 ("ali", 300) ("lim", 300) H1 H2 H3 H4).
Defined.

End Witnesses.

(** ** What the written rows depend on *)

Section Independence.
Context {entropy : Type}.
Context `{PyText} `{Nltk} `{TextAnalyzer} `{NumpyRandom entropy} `{Metrics}.
Variable MultinomialNB : Estimator.
Variables RandomForestClassifier SVC : SeededEstimator entropy.

Local Abbreviation run :=
  (notebook MultinomialNB RandomForestClassifier SVC).

(** What the run fits is determined by the training part. *)
Lemma fitted_from_training_part data0 data0' nd nd' now now' e e' v k v' k' :
  seeded_fit RandomForestClassifier → seeded_fit SVC →
  run data0 nd now e fresh_kernel = Some (v, k) →
  run data0' nd' now' e' fresh_kernel = Some (v', k') →
  X_train v = X_train v' → y_train v = y_train v' →
  vectorizer v = vectorizer v' ∧ classifier v = classifier v' ∧
  rf_classifier v = rf_classifier v' ∧ svm_classifier v = svm_classifier v'.
Proof.
  intros Hsrf Hssvm Hrun Hrun' HX Hy.
  apply notebook_inv in Hrun
    as (? & Xv & ? & ? & ? & ? & ? & _ & _ & _ & Hvec & Hnb & Hrf & Hsvm & _).
  apply notebook_inv in Hrun'
    as (? & Xv' & ? & ? & ? & ? & ? & _ & _ & _ & Hvec' & Hnb' & Hrf' & Hsvm' & _).
  rewrite HX, Hvec' in Hvec. injection Hvec as Hv <-.
  rewrite (Hsrf _ e e') in Hrf. rewrite (Hssvm _ e e') in Hsvm.
  rewrite Hy, Hnb' in Hnb. rewrite Hy, Hrf' in Hrf. rewrite Hy, Hsvm' in Hsvm.
  injection Hnb as Hnb. injection Hrf as Hrf. injection Hsvm as Hsvm.
  done.
Qed.

(** X22. The rows held out for the evaluation have no influence on what is
    written: with seeded fits, two runs whose training parts are the same,
    on the same new data, write the same rows, whatever their test parts
    and the metrics displayed are. *)
Theorem written_rows_depend_on_the_training_part_only
    data0 data0' new_data0 now now' e e' v k v' k' :
  seeded_fit RandomForestClassifier → seeded_fit SVC →
  run data0 new_data0 now e fresh_kernel = Some (v, k) →
  run data0' new_data0 now' e' fresh_kernel = Some (v', k') →
  X_train v = X_train v' → y_train v = y_train v' →
  new_data v = new_data v' ∧ (files k).*2 = (files k').*2.
Proof.
  intros Hsrf Hssvm Hrun Hrun' HX Hy.
  destruct (fitted_from_training_part _ _ _ _ _ _ _ _ _ _ _ _
              Hsrf Hssvm Hrun Hrun' HX Hy) as (Hv & Hnb & Hrf & Hsvm).
  notebook_facts Hrun. apply notebook_inv in Hrun'.
  destruct Hrun' as (? & ? & names' & ? & ? & ? & ? & Hrun'). simpl in Hrun'.
  destruct Hrun' as (_ & _ & _ & _ & _ & _ & _ & _ & _ & _ & _ & _ & _ & _ &
                     _ & _ & _ & _ & Hnames' & Hnew' & _ & _ & Hfiles').
  rewrite Hnames in Hnames'. injection Hnames' as <-.
  assert (new_data v = new_data v') as Heq.
  { rewrite Hnew, Hnew'. by rewrite Hv, Hnb, Hrf, Hsvm. }
  split; [done|]. rewrite Hfiles, Hfiles'. simpl. by rewrite Heq.
Qed.

(** X23. The labels written for a row do not depend on the other rows of
    the new data: with a seeded split and seeded fits, two runs on the same
    labelled data write the same row for a row that both sheets of new data
    hold, wherever it stands in them. *)
Theorem written_row_depends_on_its_own_row_only
    data0 new_data0 new_data0' now now' e e' v k v' k' i j (r0 : Pd.row) :
  seeded_permutation →
  seeded_fit RandomForestClassifier → seeded_fit SVC →
  run data0 new_data0 now e fresh_kernel = Some (v, k) →
  run data0 new_data0' now' e' fresh_kernel = Some (v', k') →
  new_data0 !! i = Some r0 → new_data0' !! j = Some r0 →
  new_data v !! i = new_data v' !! j ∧ is_Some (new_data v !! i).
Proof.
  intros Hsp Hsrf Hssvm Hrun Hrun' Hi Hj.
  assert (X_train v = X_train v' ∧ y_train v = y_train v') as [HX Hy].
  { pose proof Hrun as Hr. pose proof Hrun' as Hr'.
    apply notebook_inv in Hr
      as (? & ? & ? & ? & ? & ? & ? & Hclean & Hadd & Hsplit & _).
    apply notebook_inv in Hr'
      as (? & ? & ? & ? & ? & ? & ? & Hclean' & Hadd' & Hsplit' & _).
    rewrite Hclean' in Hclean. injection Hclean as <-.
    rewrite Hadd' in Hadd. injection Hadd as Hd.
    rewrite (split_cell_seeded Hsp _ e' e) in Hsplit'.
    rewrite Hd, Hsplit in Hsplit'. by injection Hsplit' as -> _ -> _. }
  destruct (fitted_from_training_part _ _ _ _ _ _ _ _ _ _ _ _
              Hsrf Hssvm Hrun Hrun' HX Hy) as (Hv & Hnb & Hrf & Hsvm).
  notebook_facts Hrun. apply notebook_inv in Hrun'.
  destruct Hrun' as (? & ? & names' & ? & ? & ? & ? & Hrun'). simpl in Hrun'.
  destruct Hrun' as (_ & _ & _ & _ & _ & _ & _ & _ & _ & _ & _ & _ & _ & _ &
                     _ & _ & _ & _ & Hnames' & Hnew' & _).
  apply col_Some in Hnames, Hnames'.
  destruct (Forall2_lookup_l _ _ _ _ _ Hnames Hi) as (name & Hn & Hname).
  destruct (Forall2_lookup_l _ _ _ _ _ Hnames' Hj) as (name' & Hn' & Hname').
  rewrite Hname in Hname'. injection Hname' as <-.
  rewrite Hnew, Hnew', !list_lookup_fmap, !lookup_zip_with.
  rewrite Hi, Hj, Hn, Hn'. simpl. rewrite Hv, Hnb, Hrf, Hsvm. eauto.
Qed.

End Independence.

(** ** These properties on the small instance *)

Section IndependenceWitnesses.
Import Toy.

Lemma sample_relabelled_run_returns :
  ∃ v k, notebook first_label memorizer last_label
           Sample.relabelled_test_row new_rows midnight 1 fresh_kernel
         = Some (v, k).
Proof.
  assert (bool_decide (is_Some (notebook first_label memorizer last_label
            Sample.relabelled_test_row new_rows midnight 1 fresh_kernel)) = true)
    as Hrun by (vm_compute; reflexivity).
  apply bool_decide_eq_true in Hrun as [[v k] Hrun]. eauto.
Qed.

Lemma sample_other_run_returns :
  ∃ v k, notebook first_label memorizer last_label
           training_data Sample.other_new_rows midnight 1 fresh_kernel
         = Some (v, k).
Proof.
  assert (bool_decide (is_Some (notebook first_label memorizer last_label
            training_data Sample.other_new_rows midnight 1 fresh_kernel)) = true)
    as Hrun by (vm_compute; reflexivity).
  apply bool_decide_eq_true in Hrun as [[v k] Hrun]. eauto.
Qed.

Lemma sample_same_training_part v k v' k' :
  run 0 = Some (v, k) →
  notebook first_label memorizer last_label
    Sample.relabelled_test_row new_rows midnight 1 fresh_kernel
  = Some (v', k') →
  X_train v = X_train v' ∧ y_train v = y_train v'.
Proof.
  intros Hrun Hrun'.
  assert ((λ r, (X_train r.1, y_train r.1)) <$> run 0
          = (λ r, (X_train r.1, y_train r.1)) <$>
              notebook first_label memorizer last_label
                Sample.relabelled_test_row new_rows midnight 1 fresh_kernel)
    as Heq by (vm_compute; reflexivity).
  rewrite Hrun, Hrun' in Heq. clear Hrun Hrun'.
  cbn [fmap option_fmap option_map fst] in Heq.
  injection Heq as -> ->. split; reflexivity.
Qed.

Lemma written_rows_depend_on_the_training_part_only_witness :
  seeded_fit memorizer ∧ seeded_fit last_label ∧
  ∃ v k v' k',
    run 0 = Some (v, k) ∧
    notebook first_label memorizer last_label
      Sample.relabelled_test_row new_rows midnight 1 fresh_kernel
    = Some (v', k') ∧
    X_train v = X_train v' ∧ y_train v = y_train v' ∧
    new_data v = new_data v' ∧ (files k).*2 = (files k').*2.
Proof.
  split; [exact memorizer_seeded|]. split; [exact last_label_seeded|].
  destruct toy_run_returns as (v & k & Hrun).
  destruct sample_relabelled_run_returns as (v' & k' & Hrun').
  destruct (sample_same_training_part v k v' k' Hrun Hrun') as [HX Hy].
  exists v, k, v', k'. split; [exact Hrun|]. split; [exact Hrun'|].
  split; [exact HX|]. split; [exact Hy|].
  exact (written_rows_depend_on_the_training_part_only first_label memorizer
           last_label training_data Sample.relabelled_test_row new_rows
           noon midnight 0 1 v k v' k' memorizer_seeded last_label_seeded
           Hrun Hrun' HX Hy).
Defined.

Lemma written_row_depends_on_its_own_row_only_witness :
  seeded_permutation ∧ seeded_fit memorizer ∧ seeded_fit last_label ∧
  ∃ v k v' k',
    run 0 = Some (v, k) ∧
    notebook first_label memorizer last_label
      training_data Sample.other_new_rows midnight 1 fresh_kernel
    = Some (v', k') ∧
    new_rows !! 3 = Some (unlabelled (Py.Str "Raj Kumar")) ∧
    Sample.other_new_rows !! 1 = Some (unlabelled (Py.Str "Raj Kumar")) ∧
    new_data v !! 3 = new_data v' !! 1 ∧ is_Some (new_data v !! 3).
Proof.
  split; [exact toy_seeded_permutation|].
  split; [exact memorizer_seeded|]. split; [exact last_label_seeded|].
  destruct toy_run_returns as (v & k & Hrun).
  destruct sample_other_run_returns as (v' & k' & Hrun').
  assert (new_rows !! 3 = Some (unlabelled (Py.Str "Raj Kumar"))) as Hi
    by reflexivity.
  assert (Sample.other_new_rows !! 1 = Some (unlabelled (Py.Str "Raj Kumar")))
    as Hj by reflexivity.
  exists v, k, v', k'. split; [exact Hrun|]. split; [exact Hrun'|].
  split; [exact Hi|]. split; [exact Hj|].
  exact (written_row_depends_on_its_own_row_only first_label memorizer
           last_label training_data new_rows Sample.other_new_rows
           noon midnight 0 1 v k v' k' 3 1 (unlabelled (Py.Str "Raj Kumar"))
           toy_seeded_permutation memorizer_seeded last_label_seeded
           Hrun Hrun' Hi Hj).
Defined.

End IndependenceWitnesses.
